(** * onlinejudge: a shallow embedding of the scraping core

    The development follows the three Python sources
    [onlinejudge/implementation/utils.py], [onlinejudge/yukicoder.py] and
    [onlinejudge/service/atcoder.py].

    - Python [str] values are sequences of Unicode code points ([list N]).
    - A call that may raise returns a [result].
    - Everything the program asks of the outside (HTTP, the credentials
      provider, the cookie file, the logger) is an [event] appended to a
      trace; the answers come from an [environment] of oracles that see the
      trace so far, so a server or a file system may be stateful.
    - [requests.Session] objects are mutable and shared: they live in a
      heap indexed by references. *)

From Stdlib Require Import ZArith NArith List Lia Bool Ascii String Permutation Sorted.
From Stdlib Require Import DecimalZ.
From stdpp Require Import base option list gmap.
Import ListNotations.
Local Open Scope N_scope.
Local Open Scope list_scope.

(** ** Python values used by the sources *)

Module Py.

(** [str]: a sequence of code points. *)
Definition str := list N.

(** An ASCII literal of the sources. *)
Definition lit (s : string) : str :=
  List.map N_of_ascii (list_ascii_of_string s).
Arguments lit : simpl never.

Definition str_eqb (a b : str) : bool := bool_decide (a = b).

(** Exceptions the modelled code can raise.  [HTTPError] keeps what the
    exception object holds: its [args] and its [response] attribute, the
    status code of the response when one is attached. *)
Inductive exn :=
| AssertionError
| AttributeError
| KeyError (key : str)
| ValueError
| NotImplementedError
| SubmissionError
| HTTPError (args : list str) (response_status : option Z)
| HttpStatusError (code : Z) (description : str)
| RuntimeError
| TypeError
| BadZipFile
| EnvironmentError (what : str).

Inductive result (A : Type) :=
| Ok (a : A)
| Raise (e : exn).
Arguments Ok {A} a.
Arguments Raise {A} e.

Definition is_Ok {A} (r : result A) : bool :=
  match r with Ok _ => true | Raise _ => false end.

(** *** String primitives *)

Fixpoint startswith_from (p s : str) : bool :=
  match p, s with
  | [], _ => true
  | _ :: _, [] => false
  | a :: p', b :: s' => (a =? b) && startswith_from p' s'
  end.

(** [s.startswith(p)] *)
Definition startswith (s p : str) : bool := startswith_from p s.

(** [s.endswith(p)] *)
Definition endswith (s p : str) : bool := startswith_from (rev p) (rev s).

(** [p in s] for strings, which is also [re.search] of a pattern made of
    literal characters only. *)
Fixpoint contains (s p : str) : bool :=
  startswith_from p s ||
  match s with
  | [] => false
  | _ :: s' => contains s' p
  end.

(** [s.count(c)] for a one-character [c]. *)
Definition count (s : str) (c : N) : nat :=
  List.length (List.filter (N.eqb c) s).

(** [s.split(c)] for a one-character separator: never empty. *)
Fixpoint split (c : N) (s : str) : list str :=
  match s with
  | [] => [[]]
  | x :: s' =>
      if x =? c then [] :: split c s'
      else match split c s' with
           | [] => [[x]]
           | w :: ws => (x :: w) :: ws
           end
  end.

(** [c.join(l)] for a one-character [c]. *)
Fixpoint join (c : N) (l : list str) : str :=
  match l with
  | [] => []
  | [w] => w
  | w :: ws => w ++ c :: join c ws
  end.

(** [s.find(c)] and [s.rfind(c)] as the two pieces around the hit. *)
Fixpoint partition (c : N) (s : str) : option (str * str) :=
  match s with
  | [] => None
  | x :: s' =>
      if x =? c then Some ([], s')
      else match partition c s' with
           | Some (a, b) => Some (x :: a, b)
           | None => None
           end
  end.

Definition rpartition (c : N) (s : str) : option (str * str) :=
  match partition c (rev s) with
  | Some (b, a) => Some (rev a, rev b)
  | None => None
  end.

Fixpoint lstrip_chars (p : N -> bool) (s : str) : str :=
  match s with
  | x :: s' => if p x then lstrip_chars p s' else s
  | [] => []
  end.

Definition rstrip_chars (p : N -> bool) (s : str) : str :=
  rev (lstrip_chars p (rev s)).

(** ASCII classes. *)
Definition is_digit (c : N) : bool := (48 <=? c) && (c <=? 57).
Definition is_upper (c : N) : bool := (65 <=? c) && (c <=? 90).
Definition is_lower (c : N) : bool := (97 <=? c) && (c <=? 122).
Definition is_alpha (c : N) : bool := is_upper c || is_lower c.
Definition is_ascii (c : N) : bool := c <? 128.

(** The white space of [str.strip()] and of [int()], ASCII part:
    tab, LF, VT, FF, CR, FS, GS, RS, US and space. *)
Definition is_space (c : N) : bool :=
  ((9 <=? c) && (c <=? 13)) || ((28 <=? c) && (c <=? 32)).

Definition ascii_lower (c : N) : N := if is_upper c then c + 32 else c.
Definition ascii_upper (c : N) : N := if is_lower c then c - 32 else c.

(** [re.IGNORECASE] on a pattern character [p] that is a lower-case
    ASCII letter: [c] matches when its simple lower-case mapping is [p]
    (the ASCII capital, U+0130 for [i], U+212A for [k]) or when [c] is in
    the regex engine's table of equivalent characters
    (U+0131 for [i], U+017F for [s]). *)
Definition ignorecase_eqb (p c : N) : bool :=
  (ascii_lower c =? p)
  || ((p =? 105) && ((c =? 304) || (c =? 305)))
  || ((p =? 107) && (c =? 8490))
  || ((p =? 115) && (c =? 383)).

Fixpoint startswith_ignorecase (p s : str) : bool :=
  match p, s with
  | [], _ => true
  | _ :: _, [] => false
  | a :: p', b :: s' => ignorecase_eqb a b && startswith_ignorecase p' s'
  end.

(** [re.search(p, s, re.IGNORECASE)] for a pattern of lower-case ASCII
    letters. *)
Fixpoint search_ignorecase (p s : str) : bool :=
  startswith_ignorecase p s ||
  match s with
  | [] => false
  | _ :: s' => search_ignorecase p s'
  end.

(** *** [str(n)] and [int(s)] *)

Fixpoint digits_of_uint (d : Decimal.uint) : str :=
  match d with
  | Decimal.Nil => []
  | Decimal.D0 d => 48 :: digits_of_uint d
  | Decimal.D1 d => 49 :: digits_of_uint d
  | Decimal.D2 d => 50 :: digits_of_uint d
  | Decimal.D3 d => 51 :: digits_of_uint d
  | Decimal.D4 d => 52 :: digits_of_uint d
  | Decimal.D5 d => 53 :: digits_of_uint d
  | Decimal.D6 d => 54 :: digits_of_uint d
  | Decimal.D7 d => 55 :: digits_of_uint d
  | Decimal.D8 d => 56 :: digits_of_uint d
  | Decimal.D9 d => 57 :: digits_of_uint d
  end.

(** [str(z)] and ['{}'.format(z)] for an [int]. *)
Definition str_of_int (z : Z) : str :=
  match Z.to_int z with
  | Decimal.Pos d => digits_of_uint d
  | Decimal.Neg d => 45 :: digits_of_uint d
  end.

(** What the Unicode database says about code points outside ASCII. *)
Class unicode := {
(** [str.isalnum], as [\w] uses it *)
unicode_alnum : N -> bool;
(** the value of a decimal digit (category Nd), as [\d] and [int] use it *)
unicode_digit : N -> option N;
(** [str.isspace] *)
unicode_space : N -> bool;
(** [str.lower] and [str.upper] *)
unicode_lower : N -> str;
unicode_upper : N -> str
}.

Definition digit_cons (v : N) (d : Decimal.uint) : Decimal.uint :=
  match v with
  | 0 => Decimal.D0 d | 1 => Decimal.D1 d | 2 => Decimal.D2 d
  | 3 => Decimal.D3 d | 4 => Decimal.D4 d | 5 => Decimal.D5 d
  | 6 => Decimal.D6 d | 7 => Decimal.D7 d | 8 => Decimal.D8 d
  | _ => Decimal.D9 d
  end.

Section Unicode.
Context {U : unicode}.

(** White space as [str.strip()] and [int()] see it. *)
Definition space (c : N) : bool :=
  if is_ascii c then is_space c else unicode_space c.

Definition digit_value (c : N) : option N :=
  if is_ascii c then (if is_digit c then Some (c - 48) else None)
  else unicode_digit c.

(** [s.strip()], [s.lstrip()] *)
Definition lstrip (s : str) : str := lstrip_chars space s.
Definition strip (s : str) : str := rstrip_chars space (lstrip_chars space s).

(** [s.lower()], [s.upper()] *)
Definition lower (s : str) : str :=
  List.flat_map (fun c => if is_ascii c then [ascii_lower c] else unicode_lower c) s.
Definition upper (s : str) : str :=
  List.flat_map (fun c => if is_ascii c then [ascii_upper c] else unicode_upper c) s.

(** Digits with single underscores between them (PEP 515); [prev]
    tells whether the previous character was a digit. *)
Fixpoint uint_of_digits (prev : bool) (s : str) : option Decimal.uint :=
  match s with
  | [] => if prev then Some Decimal.Nil else None
  | c :: s' =>
      match digit_value c with
      | Some v =>
          match uint_of_digits true s' with
          | Some d => Some (digit_cons v d)
          | None => None
          end
      | None =>
          if (c =? 95) && prev then uint_of_digits false s' else None
      end
  end.

(** [int(s)]: surrounding white space, an optional sign, decimal
    digits.  [None] stands for [ValueError].  The conversion takes any
    number of digits, as CPython up to 3.10 does; from 3.11 on [int]
    raises [ValueError] for a text of more than 4300 digits, unless the
    limit is changed. *)
Definition int (s : str) : option Z :=
  match strip s with
  | [] => None
  | c :: t' =>
      if c =? 45 then
        option_map (fun d => Z.of_int (Decimal.Neg d)) (uint_of_digits false t')
      else if c =? 43 then
        option_map (fun d => Z.of_int (Decimal.Pos d)) (uint_of_digits false t')
      else
        option_map (fun d => Z.of_int (Decimal.Pos d)) (uint_of_digits false (c :: t'))
  end.
End Unicode.

(** *** Ordering of strings, tuples and lists ([<] as [sorted] uses it) *)

(** Sequences compare by their first differing elements; a proper prefix
    is smaller. *)
Fixpoint list_ltb {A} (ltb eqb : A -> A -> bool) (a b : list A) : bool :=
  match a, b with
  | [], [] => false
  | [], _ :: _ => true
  | _ :: _, [] => false
  | x :: a', y :: b' => ltb x y || (eqb x y && list_ltb ltb eqb a' b')
  end.

(** Strings, by code points. *)
Definition str_ltb (a b : str) : bool := list_ltb N.ltb N.eqb a b.

(** A tuple of two strings. *)
Definition pair_ltb (a b : str * str) : bool :=
  str_ltb (fst a) (fst b) || (str_eqb (fst a) (fst b) && str_ltb (snd a) (snd b)).

(** A list of such tuples. *)
Definition pairs_ltb (a b : list (str * str)) : bool :=
  list_ltb pair_ltb (fun x y => bool_decide (x = y)) a b.

(** [sorted(l)]: the sort is stable, so the result is the one of
    inserting the elements from the right, each before the first element
    that is not smaller than it. *)
Fixpoint insert_sorted {A} (ltb : A -> A -> bool) (x : A) (l : list A) : list A :=
  match l with
  | [] => [x]
  | y :: l' => if ltb y x then y :: insert_sorted ltb x l' else x :: l
  end.

Definition sorted {A} (ltb : A -> A -> bool) (l : list A) : list A :=
  fold_right (insert_sorted ltb) [] l.

End Py.

(** ** The outside world: documents, responses, events, oracles *)

Module World.
Import Py.

(** A parsed document as [bs4] presents it: tags with a name, attributes
    and children, and text nodes ([NavigableString]).  A multi-valued
    attribute such as [class] is kept as the attribute text; its list of
    values is that text split at white space. *)
#[warnings="-register-all"]
Inductive node :=
| Tag (name : str) (attrs : gmap str str) (children : list node)
| Text (s : str).

Record cookie := { cookie_name : str; cookie_value : str }.
Definition cookiejar := list cookie.

(** A [requests.Response]: [resp_cookies] are the cookies this response
    set. *)
Record response := {
  status_code : Z;
  url : str;
  content : str;
  resp_cookies : cookiejar
}.

(** Log calls.  [utils.py] and [yukicoder.py] call [logger.<level>] with
    [prefix[key] + format]; [atcoder.py] calls the functions of
    [implementation.logging]. *)
Inductive level :=
| Debug | Info | Warning | Error | Status | Success | Failure.

Record log_record := {
  log_level : level;
  log_prefix : option str;
  log_format : str;
  log_args : list str
}.

Definition logger (l : level) (key : string) (fmt : str) (args : list str) : log_record :=
  {| log_level := l; log_prefix := Some (lit key); log_format := fmt; log_args := args |}.

Definition log (l : level) (fmt : str) (args : list str) : log_record :=
  {| log_level := l; log_prefix := None; log_format := fmt; log_args := args |}.
Arguments logger : simpl never.
Arguments log : simpl never.

(** What the program does to its surroundings, in order. *)
Inductive event :=
| EvLog (r : log_record)
| EvRequest (session : nat) (method : str) (target : str)
    (data : list (str * str)) (allow_redirects : bool)
| EvResponse (r : response)
| EvCredentials
| EvPathExists (path : str)
| EvCookieLoad (path : str)
| EvMakedirs (path : str)
| EvCookieSave (path : str) (contents : str)
| EvChmod (path : str) (mode : Z).

(** The answers of the surroundings; each oracle sees the events so far. *)
Class environment := {
  http : list event -> str -> str -> list (str * str) -> bool -> cookiejar -> result response;
  credentials : list event -> result (str * str);
  path_exists : list event -> str -> bool;
  cookie_load : list event -> str -> result cookiejar;
  makedirs : list event -> str -> result unit;
  cookie_save : list event -> str -> str -> result unit;
  chmod : list event -> str -> Z -> result unit
}.

(** Library functions whose inner working is outside the sources. *)
Class library := {
(** [bs4.BeautifulSoup(markup, parser)]: the document root. *)
BeautifulSoup : str -> node;
(** [zipfile.ZipFile(io.BytesIO(b))]: the entries, in archive order,
    each with its decoded bytes; [BadZipFile] otherwise. *)
ZipFile : str -> result (list (str * str));
(** [urllib.parse.urljoin] *)
urljoin : str -> str -> str;
(** [json.loads(urllib.parse.unquote_plus(v))['c']] *)
json_message : str -> result str;
(** [str(tag)]: the markup of a tag *)
render : node -> str;
(** [LWPCookieJar.as_lwp_str]: the text [save()] writes for a jar *)
as_lwp_str : cookiejar -> str
}.

(** The machine: the trace and the heap of session objects. *)
Record state := {
  trace : list event;
  sessions : gmap nat cookiejar;
  next_session : nat
}.

Definition IO (A : Type) : Type := state -> result A * state.

Definition ret {A} (a : A) : IO A := fun st => (Ok a, st).
Definition raise {A} (e : exn) : IO A := fun st => (Raise e, st).
Definition bind {A B} (m : IO A) (k : A -> IO B) : IO B :=
  fun st => match m st with
            | (Ok a, st') => k a st'
            | (Raise e, st') => (Raise e, st')
            end.

Definition lift {A} (r : result A) : IO A := fun st => (r, st).

Definition emit (e : event) : IO unit :=
  fun st => (Ok tt, {| trace := trace st ++ [e]; sessions := sessions st;
                       next_session := next_session st |}).

Definition emit_log (r : log_record) : IO unit := emit (EvLog r).

Fixpoint emit_logs (rs : list log_record) : IO unit :=
  match rs with
  | [] => ret tt
  | r :: rs' => bind (emit_log r) (fun _ => emit_logs rs')
  end.

(** [assert c] *)
Definition assert (c : bool) : IO unit :=
  if c then ret tt else raise AssertionError.

(** [requests.Session()] *)
Definition new_session : IO nat :=
  fun st => (Ok (next_session st),
             {| trace := trace st;
                sessions := <[next_session st := []]> (sessions st);
                next_session := S (next_session st) |}).

Definition get_cookies (s : nat) : IO cookiejar :=
  fun st => (Ok (default [] (sessions st !! s)), st).

Definition set_cookies (s : nat) (jar : cookiejar) : IO unit :=
  fun st => (Ok tt, {| trace := trace st; sessions := <[s := jar]> (sessions st);
                       next_session := next_session st |}).

(** [jar.set_cookie(c)]: a cookie replaces the one of the same name. *)
Definition jar_set (c : cookie) (jar : cookiejar) : cookiejar :=
  List.filter (fun d => negb (str_eqb (cookie_name d) (cookie_name c))) jar ++ [c].

Definition jar_update (jar new : cookiejar) : cookiejar :=
  fold_left (fun j c => jar_set c j) new jar.

Declare Scope io_scope.
Delimit Scope io_scope with io.
Bind Scope io_scope with IO.
Notation "x <- m ;; k" := (bind m (fun x => k))
  (at level 100, m at next level, right associativity) : io_scope.
Notation "m ;; k" := (bind m (fun _ => k))
  (at level 100, right associativity) : io_scope.

Section Requests.
Context {E : environment}.

(** [session.request(method, url, data=..., allow_redirects=...)]: the
    call is recorded, the server answers, the answer is recorded, and the
    cookies it sets are merged into the jar of the session. *)
Definition session_request (s : nat) (method target : str)
    (data : list (str * str)) (allow_redirects : bool) : IO response :=
  (jar <- get_cookies s ;;
   emit (EvRequest s method target data allow_redirects) ;;
   resp <- (fun st => (http (trace st) method target data allow_redirects jar, st)) ;;
   emit (EvResponse resp) ;;
   set_cookies s (jar_update jar (resp_cookies resp)) ;;
   ret resp)%io.

(** [resp.raise_for_status()] of [requests]: an [HTTPError] holding the
    response for 4xx and 5xx. *)
Definition raise_for_status (r : response) : IO unit :=
  if ((400 <=? status_code r) && (status_code r <? 600))%Z
  then raise (HTTPError [str_of_int (status_code r); url r] (Some (status_code r)))
  else ret tt.

(** [get_credentials()] *)
Definition call_credentials : IO (str * str) :=
  (emit EvCredentials ;; fun st => (credentials (trace st), st))%io.
End Requests.

End World.

(** ** [posixpath] *)

Module posixpath.
Import Py.

Definition slash : N := 47.

Definition all_slashes (s : str) : bool := forallb (N.eqb slash) s.

(** [posixpath.split(p)]: the part up to the last slash, without its
    trailing slashes unless it is slashes only, and the part after it. *)
Definition split (p : str) : str * str :=
  match rpartition slash p with
  | None => ([], p)
  | Some (before, tail) =>
      let head := before ++ [slash] in
      (if all_slashes head then head else rstrip_chars (N.eqb slash) head, tail)
  end.

Definition dirname (p : str) : str := fst (split p).
Definition basename (p : str) : str := snd (split p).

(** The loop of [posixpath.normpath] over the components. *)
Fixpoint normpath_comps (initial_slashes : nat) (new_comps : list str)
    (comps : list str) : list str :=
  match comps with
  | [] => new_comps
  | comp :: rest =>
      if str_eqb comp [] || str_eqb comp (lit ".") then
        normpath_comps initial_slashes new_comps rest
      else if negb (str_eqb comp (lit ".."))
              || (Nat.eqb initial_slashes 0 && Nat.eqb (List.length new_comps) 0)
              || (match last new_comps with
                  | Some l => str_eqb l (lit "..")
                  | None => false
                  end)
      then normpath_comps initial_slashes (new_comps ++ [comp]) rest
      else normpath_comps initial_slashes (removelast new_comps) rest
  end.

(** [posixpath.normpath(path)] *)
Definition normpath (path : str) : str :=
  match path with
  | [] => lit "."
  | _ =>
      let initial_slashes :=
        if startswith path (lit "/") then
          if startswith path (lit "//") && negb (startswith path (lit "///"))
          then 2%nat else 1%nat
        else 0%nat in
      let comps := normpath_comps initial_slashes [] (Py.split slash path) in
      let joined := List.repeat slash initial_slashes ++ join slash comps in
      match joined with
      | [] => lit "."
      | _ => joined
      end
  end.

End posixpath.

(** ** [re]: the patterns of the sources and a backtracking matcher *)

Module re.
Import Py World.

(** The pattern constructs the sources use. *)
Inductive regex :=
| Lit (s : str)               (* literal characters *)
| Dot                         (* [.]: any character but a newline *)
| Cls (p : N -> bool)         (* one character of a class *)
| Many1 (p : N -> bool)       (* [[class]+], greedy *)
| Opt (a : regex)             (* [a?], greedy *)
| Group (n : nat) (a : regex) (* the n-th capturing group *)
| Seq (a b : regex)
| Bol                         (* [^] *)
| Eol.                        (* [$], without [re.MULTILINE] *)

Fixpoint seq (l : list regex) : regex :=
  match l with
  | [] => Lit []
  | [a] => a
  | a :: l' => Seq a (seq l')
  end.

(** A position of the matcher: whether it is at the start of the string,
    what is left to read, and the groups bound so far. *)
Record mstate := {
  bol : bool;
  rest : str;
  groups : gmap nat str
}.

(** The suffixes left after reading zero or more characters of the
    class, the longest read first. *)
Fixpoint many (p : N -> bool) (s : str) : list str :=
  match s with
  | x :: s' => if p x then many p s' ++ [s] else [s]
  | [] => [[]]
  end.

Definition advance (st : mstate) (s : str) : mstate :=
  {| bol := false; rest := s; groups := groups st |}.

(** All the ways [r] matches at [st], in the order in which a
    backtracking matcher tries them. *)
Fixpoint run (r : regex) (st : mstate) : list mstate :=
  match r with
  | Lit s =>
      if startswith (rest st) s then
        [{| bol := bol st && Nat.eqb (List.length s) 0;
            rest := List.skipn (List.length s) (rest st);
            groups := groups st |}]
      else []
  | Dot =>
      match rest st with
      | x :: s' => if x =? 10 then [] else [advance st s']
      | [] => []
      end
  | Cls p =>
      match rest st with
      | x :: s' => if p x then [advance st s'] else []
      | [] => []
      end
  | Many1 p =>
      match rest st with
      | x :: s' => if p x then List.map (advance st) (many p s') else []
      | [] => []
      end
  | Opt a => run a st ++ [st]
  | Group n a =>
      List.map (fun st' =>
                  {| bol := bol st'; rest := rest st';
                     groups := <[n := List.firstn (List.length (rest st) - List.length (rest st'))
                                        (rest st)]> (groups st') |})
               (run a st)
  | Seq a b => List.flat_map (run b) (run a st)
  | Bol => if bol st then [st] else []
  | Eol =>
      match rest st with
      | [] => [st]
      | [x] => if x =? 10 then [st] else []
      | _ => []
      end
  end.

Definition start (s : str) : mstate := {| bol := true; rest := s; groups := ∅ |}.

(** [re.match(r, s)]: the groups of the first match at the start. *)
Definition match_ (r : regex) (s : str) : option (gmap nat str) :=
  option_map groups (List.head (run r (start s))).

Fixpoint search_from (at_start : bool) (r : regex) (s : str) : option (gmap nat str) :=
  match List.head (run r {| bol := at_start; rest := s; groups := ∅ |}) with
  | Some m => Some (groups m)
  | None =>
      match s with
      | [] => None
      | _ :: s' => search_from false r s'
      end
  end.

(** [re.search(r, s)] *)
Definition search (r : regex) (s : str) : option (gmap nat str) :=
  search_from true r s.

Section Classes.
Context {U : unicode}.

(** [\w] on [str] patterns *)
Definition word (c : N) : bool :=
  if is_ascii c then is_alpha c || is_digit c || (c =? 95) else unicode_alnum c.

(** [\d] on [str] patterns *)
Definition decimal (c : N) : bool :=
  match digit_value c with Some _ => true | None => false end.

(** [[\w\-_]] *)
Definition word_dash (c : N) : bool := word c || (c =? 45) || (c =? 95).
End Classes.

End re.

(** ** [urllib.parse], as of the CPython 3.6 the sources were written for *)

Module urllib_parse.
Import Py World.

Record ParseResult := {
  scheme : str;
  netloc : str;
  path : str;
  params : str;
  query : str;
  fragment : str
}.

Definition scheme_char (c : N) : bool :=
  is_alpha c || is_digit c || (c =? 43) || (c =? 45) || (c =? 46).

Definition is_delim (c : N) : bool := (c =? 47) || (c =? 63) || (c =? 35).

(** [_splitnetloc(url, 2)] on the text after the two slashes *)
Fixpoint splitnetloc (s : str) : str * str :=
  match s with
  | [] => ([], [])
  | x :: s' =>
      if is_delim x then ([], s)
      else let '(a, b) := splitnetloc s' in (x :: a, b)
  end.

(** [a, b = s.split(c, 1)] when [c] is in [s]; [(s, '')] otherwise *)
Definition cut (c : N) (s : str) : str * str :=
  match Py.partition c s with
  | Some (a, b) => (a, b)
  | None => (s, [])
  end.

Definition has (c : N) (s : str) : bool := existsb (N.eqb c) s.

(** The scheme of [url] and what follows it. *)
Definition split_scheme (url : str) : str * str :=
  match Py.partition 58 url with
  | Some (pre, after) =>
      match pre with
      | [] => ([], url)
      | _ =>
          if str_eqb pre (lit "http") then (pre, after)
          else if forallb scheme_char pre then
            match after with
            | [] => (List.map ascii_lower pre, after)
            | _ => if forallb is_digit after then ([], url)
                   else (List.map ascii_lower pre, after)
            end
          else ([], url)
      end
  | None => ([], url)
  end.

(** [urlsplit(url)], as CPython 3.6 has it.  Later versions differ on
    some texts: they take tab, line feed and carriage return out of the
    URL, and leading blanks and control characters off it, before they
    parse it, and they read a scheme in front of digits as well. *)
Definition urlsplit (url : str) : result ParseResult :=
  let '(sch, url1) := split_scheme url in
  let '(loc, url2) :=
    if startswith url1 (lit "//") then splitnetloc (List.skipn 2 url1)
    else ([], url1) in
  if (has 91 loc && negb (has 93 loc)) || (has 93 loc && negb (has 91 loc))
  then Raise ValueError
  else
    let '(url3, frag) := cut 35 url2 in
    let '(url4, qry) := cut 63 url3 in
    Ok {| scheme := sch; netloc := loc; path := url4; params := [];
          query := qry; fragment := frag |}.

Definition uses_params : list str :=
  List.map lit ["" ; "ftp"; "hdl"; "prospero"; "http"; "imap"; "https"; "shttp";
                "rtsp"; "rtspu"; "sip"; "sips"; "mms"; "sftp"; "tel"]%string.

(** [_splitparams(url)], called when [url] has a semicolon *)
Definition splitparams (url : str) : str * str :=
  match Py.rpartition 47 url with
  | Some (before, last) =>
      match Py.partition 59 last with
      | Some (a, b) => (before ++ 47 :: a, b)
      | None => (url, [])
      end
  | None => cut 59 url
  end.

(** [urlparse(url)] *)
Definition urlparse (url : str) : result ParseResult :=
  match urlsplit url with
  | Raise e => Raise e
  | Ok r =>
      if existsb (str_eqb (scheme r)) uses_params && has 59 (path r) then
        let '(p, prm) := splitparams (path r) in
        Ok {| scheme := scheme r; netloc := netloc r; path := p; params := prm;
              query := query r; fragment := fragment r |}
      else Ok r
  end.

Section Hostname.
Context {U : unicode}.

(** [result.hostname]: [None] when the host part is empty *)
Definition hostname (r : ParseResult) : option str :=
  let hostinfo :=
    match Py.rpartition 64 (netloc r) with
    | Some (_, h) => h
    | None => netloc r
    end in
  let host :=
    match Py.partition 91 hostinfo with
    | Some (_, bracketed) => fst (cut 93 bracketed)
    | None => fst (cut 58 hostinfo)
    end in
  match host with
  | [] => None
  | _ => Some (lower host)
  end.
End Hostname.

End urllib_parse.

(** ** [bs4]: navigating a parsed document *)

Module bs4.
Import Py World.

(** [x.name]: a text node has the name [None]. *)
Definition name_of (n : node) : option str :=
  match n with
  | Tag nm _ _ => Some nm
  | Text _ => None
  end.

Definition has_name (nm : str) (n : node) : bool :=
  match n with
  | Tag nm' _ _ => str_eqb nm' nm
  | Text _ => false
  end.

Definition is_tag (n : node) : bool :=
  match n with Tag _ _ _ => true | Text _ => false end.

(** [tag[key]] *)
Definition getitem (n : node) (key : str) : result str :=
  match n with
  | Tag _ ats _ =>
      match ats !! key with
      | Some v => Ok v
      | None => Raise (KeyError key)
      end
  | Text _ => Raise AttributeError
  end.

(** [tag.get(key)] *)
Definition attr (n : node) (key : str) : option str :=
  match n with
  | Tag _ ats _ => ats !! key
  | Text _ => None
  end.

(** [x.string]: a text node is its own string; a tag with exactly one
    child has the string of that child. *)
Fixpoint string_of (n : node) : option str :=
  match n with
  | Text s => Some s
  | Tag _ _ [c] => string_of c
  | Tag _ _ _ => None
  end.

(** The nodes below [n] in document order. *)
Fixpoint descendants (n : node) : list node :=
  match n with
  | Tag _ _ cs => List.flat_map (fun c => c :: descendants c) cs
  | Text _ => []
  end.

(** [tag.find_all(name)] *)
Definition find_all (n : node) (nm : str) : list node :=
  List.filter (has_name nm) (descendants n).

(** [tag.find_all()]: every tag below *)
Definition find_all_tags (n : node) : list node :=
  List.filter is_tag (descendants n).

(** [tag.find(name, key=pattern)]: the first tag of that name whose
    attribute [key] exists and is found by the pattern. *)
Definition find_by_attr (n : node) (nm key : str) (p : str -> bool) : option node :=
  List.find (fun t => has_name nm t &&
                      match attr t key with Some v => p v | None => false end)
            (descendants n).

(** A node together with where it stands: the siblings before it, the
    nearest first, and its parent. *)
#[warnings="-register-all"]
Inductive located :=
| Loc (here : node) (before : list node) (up : option located).

Definition here (l : located) : node := let 'Loc n _ _ := l in n.

(** [x.previous_sibling] *)
Definition previous_sibling (l : located) : option located :=
  match l with
  | Loc _ (p :: before) up => Some (Loc p before up)
  | Loc _ [] _ => None
  end.

(** [x.parent] *)
Definition parent (l : located) : option located :=
  let 'Loc _ _ up := l in up.

Fixpoint walk (up : option located) (before : list node) (n : node) : list located :=
  let me := Loc n before up in
  me :: match n with
        | Tag _ _ cs =>
            (fix go (before' : list node) (cs : list node) : list located :=
               match cs with
               | [] => []
               | c :: cs' => walk (Some me) before' c ++ go (c :: before') cs'
               end) [] cs
        | Text _ => []
        end.

(** [soup.find_all(name)] with the place of every hit. *)
Definition find_all_located (soup : node) (nm : str) : list located :=
  List.filter (fun l => has_name nm (here l)) (List.tl (walk None [] soup)).

(** The value of [class] as a list: the attribute text split at ASCII
    white space, as the tree builder does. *)
Fixpoint words_from (cur : str) (s : str) : list str :=
  match s with
  | [] => match cur with [] => [] | _ => [rev cur] end
  | x :: s' =>
      if is_space x then
        match cur with
        | [] => words_from [] s'
        | _ => rev cur :: words_from [] s'
        end
      else words_from (x :: cur) s'
  end.

Definition class_list (v : str) : list str := words_from [] v.

End bs4.

(** ** [onlinejudge/implementation/utils.py] *)

Module utils.
Import Py World.
Local Open Scope io_scope.

(** [http.client.responses] *)
Local Open Scope string_scope.
Definition http_client_responses : list (Z * string) :=
  Eval cbv in List.map (fun '(k, v) => (Z.of_nat k, v))
   ([
    (100, "Continue"); (101, "Switching Protocols"); (102, "Processing");
    (103, "Early Hints"); (200, "OK"); (201, "Created"); (202, "Accepted");
    (203, "Non-Authoritative Information"); (204, "No Content");
    (205, "Reset Content"); (206, "Partial Content");
    (207, "Multi-Status"); (208, "Already Reported"); (226, "IM Used");
    (300, "Multiple Choices"); (301, "Moved Permanently"); (302, "Found");
    (303, "See Other"); (304, "Not Modified"); (305, "Use Proxy");
    (307, "Temporary Redirect"); (308, "Permanent Redirect");
    (400, "Bad Request"); (401, "Unauthorized"); (402, "Payment Required");
    (403, "Forbidden"); (404, "Not Found"); (405, "Method Not Allowed");
    (406, "Not Acceptable"); (407, "Proxy Authentication Required");
    (408, "Request Timeout"); (409, "Conflict"); (410, "Gone");
    (411, "Length Required"); (412, "Precondition Failed");
    (413, "Request Entity Too Large"); (414, "Request-URI Too Long");
    (415, "Unsupported Media Type");
    (416, "Requested Range Not Satisfiable"); (417, "Expectation Failed");
    (418, "I'm a Teapot"); (421, "Misdirected Request");
    (422, "Unprocessable Entity"); (423, "Locked");
    (424, "Failed Dependency"); (425, "Too Early");
    (426, "Upgrade Required"); (428, "Precondition Required");
    (429, "Too Many Requests"); (431, "Request Header Fields Too Large");
    (451, "Unavailable For Legal Reasons"); (500, "Internal Server Error");
    (501, "Not Implemented"); (502, "Bad Gateway");
    (503, "Service Unavailable"); (504, "Gateway Timeout");
    (505, "HTTP Version Not Supported"); (506, "Variant Also Negotiates");
    (507, "Insufficient Storage"); (508, "Loop Detected");
    (510, "Not Extended"); (511, "Network Authentication Required")
   ]%nat).
Local Close Scope string_scope.

Definition responses_lookup (status : Z) : option str :=
  option_map (fun '(_, v) => lit v)
    (List.find (fun '(k, _) => Z.eqb k status) http_client_responses).

(** ['{} {}'.format(status_code, http.client.responses[status_code])] *)
Definition describe_status_code (status : Z) : result str :=
  match responses_lookup status with
  | Some d => Ok (str_of_int status ++ lit " " ++ d)
  | None => Raise (KeyError (str_of_int status))
  end.

Section WithWorld.
Context {U : unicode} {E : environment} {L : library}.

(** [download(url, session, get_options={})] *)
Definition download (target : str) (session : option nat) : IO str :=
  emit_log (logger Info "status" (lit "GET: %s") [target]) ;;
  s <- match session with
       | None => new_session
       | Some s => ret s
       end ;;
  resp <- session_request s (lit "GET") target [] true ;;
  if negb (status_code resp =? 200)%Z then
    d <- lift (describe_status_code (status_code resp)) ;;
    emit_log (logger Error "error" d []) ;;
    raise (HTTPError [] None)
  else
    d <- lift (describe_status_code (status_code resp)) ;;
    emit_log (logger Info "success" d []) ;;
    ret (content resp).

(** The generator behind [session(cookiejar)], up to its [yield]. *)
Definition session_enter (cookiejar : str) : IO nat :=
  s <- new_session ;;
  emit (EvPathExists cookiejar) ;;
  found <- (fun st => (Ok (path_exists (trace st) cookiejar), st)) ;;
  (if found : bool then
     emit_log (logger Info "info" (lit "load cookie from: %s") [cookiejar]) ;;
     emit (EvCookieLoad cookiejar) ;;
     jar <- (fun st => (cookie_load (trace st) cookiejar, st)) ;;
     set_cookies s jar
   else ret tt) ;;
  ret s.

(** The generator behind [session(cookiejar)], after its [yield]. *)
Definition session_exit (cookiejar : str) (s : nat) : IO unit :=
  emit_log (logger Info "info" (lit "save cookie to: %s") [cookiejar]) ;;
  (match posixpath.dirname cookiejar with
   | [] => ret tt
   | d =>
       emit (EvMakedirs d) ;;
       fun st => (makedirs (trace st) d, st)
   end) ;;
  jar <- get_cookies s ;;
  emit (EvCookieSave cookiejar (as_lwp_str jar)) ;;
  (fun st => (cookie_save (trace st) cookiejar (as_lwp_str jar), st)) ;;
  emit (EvChmod cookiejar 384) ;;
  (fun st => (chmod (trace st) cookiejar 384%Z, st)).

(** [with session(cookiejar) as s: body(s)].  [session] is a generator
    wrapped by [contextlib.contextmanager] whose [yield] stands outside
    any [try]: when the body raises, the exception is thrown into the
    generator at the [yield] and leaves it at once, so the statements
    after the [yield] do not run. *)
Definition session {A} (cookiejar : str) (body : nat -> IO A) : IO A :=
  s <- session_enter cookiejar ;;
  fun st =>
    match body s st with
    | (Ok a, st') =>
        match session_exit cookiejar s st' with
        | (Ok _, st'') => (Ok a, st'')
        | (Raise e, st'') => (Raise e, st'')
        end
    | (Raise e, st') => (Raise e, st')
    end.

End WithWorld.

(** *** [class SampleZipper] *)

Definition block : Type := str * str.

Record SampleZipper := {
  data : list (block * block);
  dangling : option block
}.

(** [SampleZipper()] *)
Definition SampleZipper_init : SampleZipper :=
  {| data := []; dangling := None |}.

(** The two non-ASCII patterns of [add]. *)
Definition pat_shutsuryoku : str := [20986; 21147].
Definition pat_nyuuryoku : str := [20837; 21147].

(** [self.add(s, name)]: the object after the call and what was logged. *)
Definition add (self : SampleZipper) (s name : str) : SampleZipper * list log_record :=
  match dangling self with
  | None =>
      ({| data := data self; dangling := Some (s, name) |},
       if search_ignorecase (lit "output") name || contains name pat_shutsuryoku
       then [logger Warning "warning" (lit "strange name for input string: %s") [name]]
       else [])
  | Some d =>
      ({| data := data self ++ [(d, (s, name))]; dangling := None |},
       if search_ignorecase (lit "input") name || contains name pat_nyuuryoku
       then [logger Warning "warning" (lit "strange name for output string: %s") [name]]
       else [])
  end.

(** [self.get()] *)
Definition get (self : SampleZipper) : list (block * block) * list log_record :=
  (data self,
   match dangling self with
   | Some d => [logger Error "error" (lit "dangling sample string: %s") [snd d]]
   | None => []
   end).

(** *** [class FormSender] *)

Record FormSender := {
  form : node;
  form_url : str;
  payload : gmap str str
}.

(** What [except KeyError: pass] does to the outcome of the [try] body:
    a [KeyError] leaves the payload as it was, any other exception goes
    on. *)
Definition except_KeyError (pl : gmap str str) (r : result (gmap str str))
    : result (gmap str str) :=
  match r with
  | Raise (KeyError _) => Ok pl
  | _ => r
  end.

(** One turn of the loop of [__init__]:
    [if input['name'] and input['value']: payload[input['name']] = input['value']]
    under [try ... except KeyError: pass]. *)
Definition take_input (input : node) (pl : gmap str str) : result (gmap str str) :=
  except_KeyError pl
    match bs4.getitem input (lit "name") with
    | Raise e => Raise e
    | Ok [] => Ok pl
    | Ok nm =>
        match bs4.getitem input (lit "value") with
        | Raise e => Raise e
        | Ok [] => Ok pl
        | Ok v => Ok (<[nm := v]> pl)
        end
    end.

Section FormSenderMethods.
Context {U : unicode} {E : environment} {L : library}.

(** [FormSender(form, url)] *)
Fixpoint init_inputs (inputs : list node) (pl : gmap str str) : IO (gmap str str) :=
  match inputs with
  | [] => ret pl
  | input :: more =>
      emit_log (logger Debug "debug" (lit "input: %s") [render input]) ;;
      pl' <- lift (take_input input pl) ;;
      init_inputs more pl'
  end.

Definition FormSender_init (fm : node) (u : str) : IO FormSender :=
  assert (bs4.is_tag fm) ;;
  assert (bs4.has_name (lit "form") fm) ;;
  pl <- init_inputs (bs4.find_all fm (lit "input")) ∅ ;;
  ret {| form := fm; form_url := u; payload := pl |}.

(** [self.set(key, value)] *)
Definition set (self : FormSender) (key value : str) : FormSender :=
  {| form := form self; form_url := form_url self;
     payload := <[key := value]> (payload self) |}.

(** [self.get()] *)
Definition FormSender_get (self : FormSender) : gmap str str := payload self.

(** [self.request(session)]; a [session] that is [None] has no
    [request] attribute. *)
Definition request (self : FormSender) (session : option nat) : IO response :=
  action <- lift (bs4.getitem (form self) (lit "action")) ;;
  let target := urljoin (form_url self) action in
  m <- lift (bs4.getitem (form self) (lit "method")) ;;
  let method := upper m in
  emit_log (logger Info "status" (lit "%s: %s") [method; target]) ;;
  s <- match session with
       | Some s => ret s
       | None => raise AttributeError
       end ;;
  resp <- session_request s method target (map_to_list (payload self)) true ;;
  d <- lift (describe_status_code (status_code resp)) ;;
  emit_log (logger Info "info" d []) ;;
  ret resp.
End FormSenderMethods.

End utils.

(** ** [onlinejudge/yukicoder.py] *)

Module yukicoder.
Import Py World.
Local Open Scope io_scope.

Record Yukicoder := {
  problem_no : option Z;
  problem_id : option Z
}.

(** Truth value of an optional [int] argument. *)
Definition truthy (o : option Z) : bool :=
  match o with
  | Some z => negb (z =? 0)%Z
  | None => false
  end.

(** [Yukicoder(problem_no=..., problem_id=...)] *)
Definition Yukicoder_init (no id : option Z) : result Yukicoder :=
  if truthy no || truthy id
  then Ok {| problem_no := no; problem_id := id |}
  else Raise AssertionError.

Definition str_of_opt_int (o : option Z) : str :=
  match o with
  | Some z => str_of_int z
  | None => lit "None"
  end.

(** [self.get_url()] *)
Definition get_url (self : Yukicoder) : result str :=
  if truthy (problem_no self) then
    Ok (lit "https://yukicoder.me/problems/no/" ++ str_of_opt_int (problem_no self))
  else if truthy (problem_id self) then
    Ok (lit "https://yukicoder.me/problems/" ++ str_of_opt_int (problem_id self))
  else Raise AssertionError.

(** ['^https?://yukicoder\.me/problems/(no/)?([0-9]+)/?$'] *)
Definition re_problem : re.regex :=
  re.seq [re.Bol; re.Lit (lit "http"); re.Opt (re.Lit (lit "s"));
          re.Lit (lit "://yukicoder.me/problems/");
          re.Opt (re.Group 1 (re.Lit (lit "no/")));
          re.Group 2 (re.Many1 is_digit);
          re.Opt (re.Lit (lit "/")); re.Eol].

(** [Yukicoder.from_url(s)] *)
Definition from_url {U : unicode} (s : str) : result (option Yukicoder) :=
  match re.match_ re_problem s with
  | Some m =>
      let g2 := default [] (m !! 2%nat) in
      let digits := match lstrip_chars (N.eqb 48) g2 with
                    | [] => lit "0"
                    | d => d
                    end in
      match Py.int digits with
      | None => Raise ValueError
      | Some n =>
          match m !! 1%nat with
          | Some (_ :: _) =>
              match Yukicoder_init (Some n) None with
              | Ok y => Ok (Some y)
              | Raise e => Raise e
              end
          | _ =>
              match Yukicoder_init None (Some n) with
              | Ok y => Ok (Some y)
              | Raise e => Raise e
              end
          end
      end
  | None => Ok None
  end.

(** *** Samples from the problem page *)

Section Samples.
Context {U : unicode} {E : environment} {L : library}.

(** [prv and prv.string and prv.string.strip() == '']: a tag is always
    true, a string is true when it is not empty. *)
Definition blank_string (n : node) : bool :=
  match bs4.string_of n with
  | Some [] => false
  | Some s => str_eqb (strip s) []
  | None => false
  end.

(** [while prv and prv.string and prv.string.strip() == '':
       prv = prv.previous_sibling] *)
Fixpoint skip_blank (fuel : nat) (prv : option bs4.located) : option bs4.located :=
  match fuel, prv with
  | S fuel', Some l =>
      if blank_string (bs4.here l) then skip_blank fuel' (bs4.previous_sibling l)
      else prv
  | _, _ => prv
  end.

Definition siblings_before (l : bs4.located) : nat :=
  let 'bs4.Loc _ before _ := l in List.length before.

Definition skip_blank_from (start : option bs4.located) : option bs4.located :=
  skip_blank (match start with Some l => S (siblings_before l) | None => 0 end) start.

Definition name_is (l : bs4.located) (nm : string) : bool :=
  match bs4.name_of (bs4.here l) with
  | Some n => str_eqb n (lit nm)
  | None => false
  end.

(** [self.parse_sample_tag(tag)] for a [pre] tag *)
Definition parse_sample_tag (tag : bs4.located) : result (option (str * str)) :=
  if negb (bs4.has_name (lit "pre") (bs4.here tag)) then Raise AssertionError else
  let prv := skip_blank_from (bs4.previous_sibling tag) in
  match bs4.parent tag with
  | None => Raise AttributeError
  | Some par =>
      let pprv := skip_blank_from (bs4.previous_sibling par) in
      match prv with
      | None => Raise AttributeError
      | Some prv =>
          if negb (name_is prv "h6") then Ok None
          else if negb (name_is par "div") then Ok None
          else
            match bs4.getitem (bs4.here par) (lit "class") with
            | Raise e => Raise e
            | Ok cls =>
                if negb (bool_decide (bs4.class_list cls = [lit "paragraph"])) then Ok None
                else
                  match pprv with
                  | None => Raise AttributeError
                  | Some pprv =>
                      if negb (name_is pprv "h5") then Ok None
                      else
                        match bs4.string_of (bs4.here tag) with
                        | None => Raise AttributeError
                        | Some text =>
                            match bs4.string_of (bs4.here pprv),
                                  bs4.string_of (bs4.here prv) with
                            | Some a, Some b =>
                                Ok (Some (lstrip text, a ++ lit " " ++ b))
                            | _, _ => Raise TypeError
                            end
                        end
                  end
            end
      end
  end.

(** The loop of [download_samples] over the [pre] tags. *)
Fixpoint add_samples (pres : list bs4.located) (samples : utils.SampleZipper)
    : IO utils.SampleZipper :=
  match pres with
  | [] => ret samples
  | pre :: more =>
      it <- lift (parse_sample_tag pre) ;;
      match it with
      | Some (s, name) =>
          let '(samples', logs) := utils.add samples s name in
          emit_logs logs ;;
          add_samples more samples'
      | None => add_samples more samples
      end
  end.

End Samples.

Section Download.
Context {U : unicode} {E : environment} {L : library}.

(** [self.download_samples(session)] *)
Definition download_samples (self : Yukicoder) (session : option nat)
    : IO (list (utils.block * utils.block)) :=
  target <- lift (get_url self) ;;
  content <- utils.download target session ;;
  let soup := BeautifulSoup content in
  samples <- add_samples (bs4.find_all_located soup (lit "pre")) utils.SampleZipper_init ;;
  let '(pairs, logs) := utils.get samples in
  emit_logs logs ;;
  ret pairs.

(** [fh.read(name).decode()]: the last entry of that name *)
Definition zip_read (entries : list (str * str)) (name : str) : str :=
  match List.find (fun e => str_eqb (fst e) name) (rev entries) with
  | Some e => snd e
  | None => []
  end.

(** [samples[key] += [v]] on a [defaultdict(list)], the keys in the
    order of their first use *)
Fixpoint group_add (key : str) (v : utils.block) (d : list (str * list utils.block))
    : list (str * list utils.block) :=
  match d with
  | [] => [(key, [v])]
  | (k, vs) :: d' =>
      if str_eqb k key then (k, vs ++ [v]) :: d'
      else (k, vs) :: group_add key v d'
  end.

(** The dictionary [samples] after the loop of [download_all] over the
    sorted names. *)
Definition archive_groups (entries : list (str * str)) : list (str * list utils.block) :=
  fold_left (fun d name => group_add (posixpath.basename name) (zip_read entries name, name) d)
            (sorted str_ltb (List.map fst entries)) [].

(** [sorted(samples.values())] *)
Definition collect_archive (entries : list (str * str)) : list (list utils.block) :=
  sorted pairs_ltb (List.map snd (archive_groups entries)).

(** [self.download_all(session)] *)
Definition download_all (self : Yukicoder) (session : option nat)
    : IO (list (list utils.block)) :=
  let target := lit "http://yukicoder.me/problems/no/"
                ++ str_of_opt_int (problem_no self) ++ lit "/testcase.zip" in
  content <- utils.download target session ;;
  entries <- lift (ZipFile content) ;;
  ret (collect_archive entries).

(** [session.get(url)] on a [session] that may be [None] *)
Definition session_get (session : option nat) (target : str) : IO response :=
  match session with
  | Some s => session_request s (lit "GET") target [] true
  | None => raise AttributeError
  end.

(** [urllib.parse.urlparse(resp.url).hostname == 'yukicoder.me'] *)
Definition on_yukicoder (resp : response) : result bool :=
  match urllib_parse.urlparse (url resp) with
  | Ok r => Ok (bool_decide (urllib_parse.hostname r = Some (lit "yukicoder.me")))
  | Raise e => Raise e
  end.

(** [self.login_with_github(session, get_credentials)] *)
Definition login_with_github (self : Yukicoder) (session : option nat) : IO bool :=
  let target := lit "https://yukicoder.me/auth/github" in
  emit_log (logger Info "status" (lit "GET: %s") [target]) ;;
  resp <- session_get session target ;;
  d <- lift (utils.describe_status_code (status_code resp)) ;;
  emit_log (logger Info "info" d []) ;;
  raise_for_status resp ;;
  here <- lift (on_yukicoder resp) ;;
  if here : bool then
    emit_log (logger Info "info" (lit "You have already signed in.") []) ;;
    ret true
  else
    let soup := BeautifulSoup (content resp) in
    match List.head (bs4.find_all soup (lit "form")) with
    | None =>
        emit_log (logger Error "error" (lit "form not found") []) ;;
        emit_log (logger Info "info" (lit "Did you logged in?") []) ;;
        ret false
    | Some fm =>
        emit_log (logger Debug "debug" (lit "form: %s") [render fm]) ;;
        up <- call_credentials ;;
        sender <- utils.FormSender_init fm (url resp) ;;
        let sender := utils.set sender (lit "login") (fst up) in
        let sender := utils.set sender (lit "password") (snd up) in
        resp <- utils.request sender session ;;
        raise_for_status resp ;;
        here <- lift (on_yukicoder resp) ;;
        if here : bool then
          emit_log (logger Info "success" (lit "You signed in.") []) ;;
          ret true
        else
          emit_log (logger Error "error"
                      (lit "You failed to sign in. Wrong user ID or password.") []) ;;
          ret false
    end.

(** [self.login_with_twitter(session, get_credentials)] *)
Definition login_with_twitter (self : Yukicoder) (session : option nat) : IO bool :=
  raise NotImplementedError.

(** [self.login(get_credentials, session, method)] *)
Definition login (self : Yukicoder) (session : option nat) (method : option str) : IO bool :=
  if bool_decide (method = Some (lit "github")) then login_with_github self session
  else if bool_decide (method = Some (lit "twitter")) then login_with_twitter self session
  else raise AssertionError.

Local Open Scope string_scope.
Definition _languages : list (string * string) :=
  [ ("cpp", "C++11 (gcc 4.8.5)"); ("cpp14", "C++14 (gcc 6.2.0)");
    ("c", "C (gcc 4.8.5)"); ("java8", "Java8 (openjdk 1.8.0_111)");
    ("csharp", "C# (mono 4.6.1)"); ("perl", "Perl (5.16.3)");
    ("perl6", "Perl6 (rakudo 2016.10-114-g8e79509)"); ("php", "PHP (5.4.16)");
    ("python", "Python2 (2.7.11)"); ("python3", "Python3 (3.5.1)");
    ("pypy2", "PyPy2 (4.0.0)"); ("pypy3", "PyPy3 (2.4.0)");
    ("ruby", "Ruby (2.3.1p112)"); ("d", "D (dmd 2.071.1)"); ("go", "Go (1.7.3)");
    ("haskell", "Haskell (7.8.3)"); ("scala", "Scala (2.11.8)");
    ("nim", "Nim (0.15.2)"); ("rust", "Rust (1.12.1)"); ("kotlin", "Kotlin (1.0.2)");
    ("scheme", "Scheme (Gauche-0.9.4)"); ("crystal", "Crystal (0.19.4)");
    ("ocaml", "OCaml (4.01.1)"); ("fsharp", "F# (4.0)"); ("elixir", "Elixir (0.12.5)");
    ("lua", "Lua (LuaJit 2.0.4)"); ("fortran", "Fortran (gFortran 4.8.5)");
    ("node", "JavaScript (node v7.0.0)"); ("vim", "Vim script (v8.0.0124)");
    ("sh", "Bash (Bash 4.2.46)"); ("text", "Text (cat 8.22)");
    ("nasm", "Assembler (nasm 2.10.07)"); ("bf", "Brainfuck (BFI 1.1)");
    ("Whitespace", "Whitespace (0.3)") ].
Local Close Scope string_scope.

(** [self.get_languages()] *)
Definition get_languages (self : Yukicoder) : list str :=
  List.map (fun l => lit (fst l)) _languages.

(** ['^https?://yukicoder.me/submissions/[0-9]+/?$'] *)
Definition re_submitted : re.regex :=
  re.seq [re.Bol; re.Lit (lit "http"); re.Opt (re.Lit (lit "s"));
          re.Lit (lit "://yukicoder"); re.Dot; re.Lit (lit "me/submissions/");
          re.Many1 is_digit; re.Opt (re.Lit (lit "/")); re.Eol].

(** ['/submit$'] *)
Definition re_submit_action : re.regex := re.seq [re.Lit (lit "/submit"); re.Eol].

(** The block of [submit] under [# result]: the verdict on the final
    response. *)
Definition submit_result (resp : response) : IO bool :=
  match re.match_ re_submitted (url resp) with
  | Some _ =>
      emit_log (logger Info "success" (lit "success: result: %s") [url resp]) ;;
      ret true
  | None =>
      emit_log (logger Info "failure" (lit "failure") []) ;;
      ret false
  end.

(** [self.submit(code, language, session)] *)
Definition submit (self : Yukicoder) (code : str) (language : option str)
    (session : option nat) : IO bool :=
  assert (match language with
          | Some l => existsb (str_eqb l) (get_languages self)
          | None => false
          end) ;;
  base <- lift (get_url self) ;;
  let target := base ++ lit "/submit" in
  emit_log (logger Info "status" (lit "GET: %s") [target]) ;;
  resp <- session_get session target ;;
  d <- lift (utils.describe_status_code (status_code resp)) ;;
  emit_log (logger Info "info" d []) ;;
  raise_for_status resp ;;
  let soup := BeautifulSoup (content resp) in
  match bs4.find_by_attr soup (lit "form") (lit "action")
          (fun v => bool_decide (is_Some (re.search re_submit_action v))) with
  | None =>
      emit_log (logger Error "error" (lit "form not found") []) ;;
      emit_log (logger Info "info" (lit "Did you logged in?") []) ;;
      ret false
  | Some fm =>
      sender <- utils.FormSender_init fm (url resp) ;;
      let sender := utils.set sender (lit "source") code in
      let sender := utils.set sender (lit "lang") (default [] language) in
      resp <- utils.request sender session ;;
      raise_for_status resp ;;
      submit_result resp
  end.

End Download.

End yukicoder.

(** ** [onlinejudge/service/atcoder.py] *)

Module atcoder.
Import Py World.
Local Open Scope io_scope.

(** *** Helpers of [utils] that [atcoder.py] calls *)

(** Modelled from the spec: [utils.normpath] is not among the sources and
    the spec does not describe it; it is taken as [posixpath.normpath]
    with a leading run of slashes collapsed to one, which is what its
    name and its use next to [posixpath.split] say. *)
Definition normpath (path : str) : str :=
  let p := posixpath.normpath path in
  if startswith p (lit "//") then 47 :: lstrip_chars (N.eqb 47) p else p.

Section Helpers.
Context {U : unicode} {E : environment} {L : library}.

(** Modelled from the spec: [utils.new_default_session] is not among
    the sources; the process-default session is a fresh
    [requests.Session]. *)
Definition new_default_session : IO nat := new_session.

(** [session or utils.new_default_session()] *)
Definition session_or_default (session : option nat) : IO nat :=
  match session with
  | Some s => ret s
  | None => new_default_session
  end.

(** Modelled from the spec: [utils.request] is not among the sources.
    It issues the request, logs at the start and at completion, and
    treats any status other than 200 as a hard failure, an
    [HttpStatusError] carrying the numeric code and the canned status
    description. *)
Definition utils_request (method target : str) (s : nat)
    (data : list (str * str)) (allow_redirects : bool) : IO response :=
  emit_log (log Status (lit "%s: %s") [method; target]) ;;
  resp <- session_request s method target data allow_redirects ;;
  let d := default [] (utils.responses_lookup (status_code resp)) in
  if (status_code resp =? 200)%Z then
    emit_log (log Status (str_of_int (status_code resp) ++ lit " " ++ d) []) ;;
    ret resp
  else
    emit_log (log Error (str_of_int (status_code resp) ++ lit " " ++ d) []) ;;
    raise (HttpStatusError (status_code resp) d).

(** [_request]: [utils.request] with the response encoding forced *)
Definition _request (method target : str) (s : nat)
    (data : list (str * str)) (allow_redirects : bool) : IO response :=
  resp <- utils_request method target s data allow_redirects ;;
  emit_log (log Debug (lit "AtCoder's server said " ++ 34 :: lit "Content-Type: %s" ++ [34]) []) ;;
  ret resp.
End Helpers.

(** *** Python objects compared across types *)

(** A string or a tuple of strings, for the comparisons of a host name
    with a tuple of host names. *)
Inductive pyobj :=
| PStr (s : str)
| PTuple (items : list str).

(** [a == b]: objects of different types are never equal. *)
Definition py_eq (a b : pyobj) : bool :=
  match a, b with
  | PStr x, PStr y => str_eqb x y
  | PTuple xs, PTuple ys => bool_decide (xs = ys)
  | _, _ => false
  end.

(** [a in t] for a tuple [t] *)
Definition py_in (a : pyobj) (t : list str) : bool :=
  existsb (fun x => py_eq a (PStr x)) t.

Definition http_schemes : list str := [lit ""; lit "http"; lit "https"].
Definition atcoder_hosts : list str := [lit "atcoder.jp"; lit "beta.atcoder.jp"].
Definition contest_suffix : str := lit ".contest.atcoder.jp".

(** [netloc.split('.')[0]] *)
Definition first_label (netloc : str) : str :=
  match Py.split 46 netloc with
  | w :: _ => w
  | [] => []
  end.

(** *** [class AtCoderService] *)

(** [@utils.singleton]: one instance. *)
Inductive AtCoderService := TheAtCoderService.

Definition Service_get_url (self : AtCoderService) : str := lit "https://atcoder.jp/".

Definition Service_get_name (self : AtCoderService) : str := lit "atcoder".

(** [AtCoderService.from_url(s)] *)
Definition Service_from_url (s : str) : result (option AtCoderService) :=
  match urllib_parse.urlparse s with
  | Raise e => Raise e
  | Ok r =>
      if py_in (PStr (urllib_parse.scheme r)) http_schemes
         && (py_in (PStr (urllib_parse.netloc r)) atcoder_hosts
             || endswith (urllib_parse.netloc r) contest_suffix)
      then Ok (Some TheAtCoderService)
      else Ok None
  end.

Section Service.
Context {U : unicode} {E : environment} {L : library}.

(** The first loop of [_get_messages_from_cookie]: the [c] field of
    every cookie whose name starts with [__message_].  The logged
    texts of [str(cookie)] and [str(msg)] are shortened to the name
    and the value of the cookie. *)
Fixpoint message_tags (cookies : cookiejar) : IO (list str) :=
  match cookies with
  | [] => ret []
  | c :: more =>
      emit_log (log Debug (lit "cookie: %s") [cookie_name c; cookie_value c]) ;;
      if startswith (cookie_name c) (lit "__message_") then
        tag <- lift (json_message (cookie_value c)) ;;
        emit_log (log Debug (lit "message: %s: %s") [cookie_name c; cookie_value c]) ;;
        tags <- message_tags more ;;
        ret (tag :: tags)
      else message_tags more
  end.

(** [tag.string and tag.string.strip()] *)
Definition has_text (t : node) : bool :=
  match bs4.string_of t with
  | Some s => negb (str_eqb (strip s) [])
  | None => false
  end.

(** The second loop: the first non-blank string of each message. *)
Fixpoint message_texts (tags : list str) : IO (list str) :=
  match tags with
  | [] => ret []
  | msgtag :: more =>
      let soup := BeautifulSoup msgtag in
      match List.find has_text (bs4.find_all_tags soup) with
      | None =>
          emit_log (log Error (lit "failed to parse message") []) ;;
          message_texts more
      | Some t =>
          msgs <- message_texts more ;;
          ret (default [] (bs4.string_of t) :: msgs)
      end
  end.

(** [AtCoderService._get_messages_from_cookie(cookies)] *)
Definition _get_messages_from_cookie (cookies : cookiejar) : IO (list str) :=
  tags <- message_tags cookies ;;
  message_texts tags.

(** [AtCoderService._report_messages(msgs, unexpected)] *)
Definition _report_messages (msgs : list str) (unexpected : bool) : IO bool :=
  emit_logs (List.map (fun m => log Status (lit "message: %s") [m]) msgs) ;;
  (match msgs with
   | _ :: _ => if unexpected then emit_log (log Failure (lit "unexpected messages found") [])
               else ret tt
   | [] => ret tt
   end) ;;
  ret (match msgs with [] => false | _ => true end).

Definition login_url : str := lit "https://practice.contest.atcoder.jp/login".

(** [self.login(get_credentials, session)] *)
Definition login (self : AtCoderService) (session : option nat) : IO bool :=
  s <- session_or_default session ;;
  resp <- _request (lit "GET") login_url s [] false ;;
  msgs <- _get_messages_from_cookie (resp_cookies resp) ;;
  emit_logs (List.map (fun m => log Status (lit "message: %s") [m]) msgs) ;;
  match msgs with
  | _ :: _ => ret (negb (contains (url resp) (lit "login")))
  | [] =>
      up <- call_credentials ;;
      resp <- _request (lit "POST") login_url s
                [(lit "name", fst up); (lit "password", snd up)] false ;;
      msgs <- _get_messages_from_cookie (resp_cookies resp) ;;
      _report_messages msgs false ;;
      ret (negb (contains (url resp) (lit "login")))
  end.

(** [self.is_logged_in(session)] *)
Definition is_logged_in (self : AtCoderService) (session : option nat) : IO bool :=
  s <- session_or_default session ;;
  resp <- _request (lit "GET") login_url s [] false ;;
  msgs <- _get_messages_from_cookie (resp_cookies resp) ;;
  ret (match msgs with [] => false | _ => true end).
End Service.

(** *** [class AtCoderProblem] *)

Record AtCoderProblem := {
  contest_id : str;
  problem_id : str;
  _task_id : option Z
}.

(** [AtCoderProblem(contest_id, problem_id)] *)
Definition Problem_init (c p : str) : AtCoderProblem :=
  {| contest_id := c; problem_id := p; _task_id := None |}.

(** [self.get_url()] *)
Definition Problem_get_url (self : AtCoderProblem) : str :=
  lit "http://" ++ contest_id self ++ lit ".contest.atcoder.jp/tasks/" ++ problem_id self.

(** [r'^/contests/([\w\-_]+)/tasks/([\w\-_]+)$'] *)
Definition re_task_path {U : unicode} : re.regex :=
  re.seq [re.Bol; re.Lit (lit "/contests/"); re.Group 1 (re.Many1 re.word_dash);
          re.Lit (lit "/tasks/"); re.Group 2 (re.Many1 re.word_dash); re.Eol].

(** [AtCoderProblem.from_url(s)] *)
Definition Problem_from_url {U : unicode} (s : str) : result (option AtCoderProblem) :=
  match urllib_parse.urlparse s with
  | Raise e => Raise e
  | Ok r =>
      let '(dirname, basename) := posixpath.split (normpath (urllib_parse.path r)) in
      let loc := urllib_parse.netloc r in
      if py_in (PStr (urllib_parse.scheme r)) http_schemes
         && Nat.eqb (count loc 46) 3
         && endswith loc contest_suffix
         && negb (str_eqb (first_label loc) [])
         && str_eqb dirname (lit "/tasks")
         && negb (str_eqb basename [])
      then Ok (Some (Problem_init (first_label loc) basename))
      else
        match re.match_ re_task_path (normpath (urllib_parse.path r)) with
        | Some m =>
            if py_in (PStr (urllib_parse.scheme r)) http_schemes
               && py_in (PStr loc) atcoder_hosts
            then Ok (Some (Problem_init (default [] (m !! 1%nat)) (default [] (m !! 2%nat))))
            else Ok None
        | None => Ok None
        end
  end.

(** *** [class AtCoderSubmission] *)

Record AtCoderSubmission := {
  sub_contest_id : str;
  submission_id : Z;
  sub_problem_id : option str
}.

(** [self.get_url()] *)
Definition Submission_get_url (self : AtCoderSubmission) : str :=
  lit "http://" ++ sub_contest_id self ++ lit ".contest.atcoder.jp/submissions/"
    ++ str_of_int (submission_id self).

(** [r'^/contests/([\w\-_]+)/submissions/(\d+)$'] *)
Definition re_submission_path {U : unicode} : re.regex :=
  re.seq [re.Bol; re.Lit (lit "/contests/"); re.Group 1 (re.Many1 re.word_dash);
          re.Lit (lit "/submissions/"); re.Group 2 (re.Many1 re.decimal); re.Eol].

(** [AtCoderSubmission.from_url(s, problem_id)].  In the second test the
    host name, a string, is compared with a tuple by [==]. *)
Definition Submission_from_url {U : unicode} (s : str) (pid : option str)
    : result (option AtCoderSubmission) :=
  match urllib_parse.urlparse s with
  | Raise e => Raise e
  | Ok r =>
      let '(dirname, basename) := posixpath.split (normpath (urllib_parse.path r)) in
      let loc := urllib_parse.netloc r in
      let first :=
        if py_in (PStr (urllib_parse.scheme r)) http_schemes
           && Nat.eqb (count loc 46) 3
           && endswith loc contest_suffix
           && negb (str_eqb (first_label loc) [])
           && str_eqb dirname (lit "/submissions")
        then
          match Py.int basename with
          | Some n =>
              Some {| sub_contest_id := first_label loc; submission_id := n;
                      sub_problem_id := pid |}
          | None => None
          end
        else None in
      match first with
      | Some sub => Ok (Some sub)
      | None =>
          match re.match_ re_submission_path (normpath (urllib_parse.path r)) with
          | Some m =>
              if py_in (PStr (urllib_parse.scheme r)) http_schemes
                 && py_eq (PStr loc) (PTuple atcoder_hosts)
              then
                match Py.int (default [] (m !! 2%nat)) with
                | Some n =>
                    Ok (Some {| sub_contest_id := default [] (m !! 1%nat);
                                submission_id := n; sub_problem_id := pid |})
                | None => Ok None
                end
              else Ok None
          | None => Ok None
          end
      end
  end.

(** *** Submitting *)

(** [onlinejudge.type.DummySubmission(url)] *)
Record DummySubmission := { dummy_url : str }.

(** [r'^/submit\?task_id='] and [r'^/submit\?task_id=([0-9]+)$'] *)
Definition re_submit_link : re.regex :=
  re.seq [re.Bol; re.Lit (lit "/submit?task_id=")].
Definition re_submit_task : re.regex :=
  re.seq [re.Bol; re.Lit (lit "/submit?task_id="); re.Group 1 (re.Many1 is_digit); re.Eol].

Definition found_by (r : re.regex) (v : str) : bool :=
  bool_decide (is_Some (re.search r v)).

Section Submit.
Context {U : unicode} {E : environment} {L : library}.

Definition submit_url (self : AtCoderProblem) : str :=
  lit "http://" ++ contest_id self ++ lit ".contest.atcoder.jp/submit".

(** [utils.normpath(urllib.parse.urlparse(resp.url).path).startswith('/login')] *)
Definition at_login (resp : response) : result bool :=
  match urllib_parse.urlparse (url resp) with
  | Ok r => Ok (startswith (normpath (urllib_parse.path r)) (lit "/login"))
  | Raise e => Raise e
  end.

(** [soup.find('select', class_='submit-language-selector')] *)
Definition find_language_selector (soup : node) : option node :=
  List.find (fun t => bs4.has_name (lit "select") t &&
                      match bs4.attr t (lit "class") with
                      | Some v => existsb (str_eqb (lit "submit-language-selector"))
                                    (bs4.class_list v)
                                  || str_eqb v (lit "submit-language-selector")
                      | None => false
                      end)
            (bs4.descendants soup).

(** The loop of [get_language_dict] over the [option] tags. *)
Fixpoint language_options (options : list node) (d : gmap str (option str))
    : result (gmap str (option str)) :=
  match options with
  | [] => Ok d
  | o :: more =>
      match bs4.getitem o (lit "value") with
      | Ok v => language_options more (<[v := bs4.string_of o]> d)
      | Raise e => Raise e
      end
  end.

(** [self.get_language_dict(session)] *)
Definition get_language_dict (self : AtCoderProblem) (session : option nat)
    : IO (gmap str (option str)) :=
  s <- session_or_default session ;;
  resp <- _request (lit "GET") (submit_url self) s [] true ;;
  msgs <- _get_messages_from_cookie (resp_cookies resp) ;;
  bad <- _report_messages msgs true ;;
  if bad : bool then ret ∅ else
  login_page <- lift (at_login resp) ;;
  if login_page : bool then
    emit_log (log Error (lit "not logged in") []) ;;
    ret ∅
  else
    let soup := BeautifulSoup (content resp) in
    match find_language_selector soup with
    | None => raise AttributeError
    | Some select => lift (language_options (bs4.find_all select (lit "option")) ∅)
    end.

(** [self._get_task_id(session)]: the task id, which the object then
    keeps in [_task_id]. *)
Definition _get_task_id (self : AtCoderProblem) (session : option nat) : IO Z :=
  match _task_id self with
  | Some t => ret t
  | None =>
      s <- session_or_default session ;;
      resp <- _request (lit "GET") (Problem_get_url self) s [] true ;;
      msgs <- _get_messages_from_cookie (resp_cookies resp) ;;
      bad <- _report_messages msgs true ;;
      if bad : bool then raise SubmissionError else
      let soup := BeautifulSoup (content resp) in
      match bs4.find_by_attr soup (lit "a") (lit "href") (found_by re_submit_link) with
      | None =>
          emit_log (log Error (lit "link to submit not found") []) ;;
          raise SubmissionError
      | Some a =>
          href <- lift (bs4.getitem a (lit "href")) ;;
          match re.match_ re_submit_task href with
          | None => raise AssertionError
          | Some m =>
              match Py.int (default [] (m !! 1%nat)) with
              | Some t => ret t
              | None => raise ValueError
              end
          end
      end
  end.

(** The block of [submit_code] under [# result]: the messages of the
    final response are reported and its URL gives the verdict. *)
Definition submit_result (self : AtCoderProblem) (resp : response) : IO DummySubmission :=
  msgs <- _get_messages_from_cookie (resp_cookies resp) ;;
  _report_messages msgs false ;;
  if contains (url resp) (lit "/submissions/me") then
    emit_log (log Success (lit "success: result: %s") [url resp]) ;;
    ret {| dummy_url := lit "https://beta.atcoder.jp/contests/" ++ contest_id self
                        ++ lit "/submissions/me" |}
  else
    emit_log (log Failure (lit "failure") []) ;;
    emit_log (log Debug (lit "redirected to %s") [url resp]) ;;
    raise SubmissionError.

(** [self.submit_code(code, language, session)] *)
Definition submit_code (self : AtCoderProblem) (code language : str)
    (session : option nat) : IO DummySubmission :=
  languages <- get_language_dict self session ;;
  assert (bool_decide (is_Some (languages !! language))) ;;
  s <- session_or_default session ;;
  resp <- _request (lit "GET") (submit_url self) s [] true ;;
  msgs <- _get_messages_from_cookie (resp_cookies resp) ;;
  bad <- _report_messages msgs true ;;
  if bad : bool then raise SubmissionError else
  login_page <- lift (at_login resp) ;;
  if login_page : bool then
    emit_log (log Error (lit "not logged in") []) ;;
    raise SubmissionError
  else
    let soup := BeautifulSoup (content resp) in
    match bs4.find_by_attr soup (lit "form") (lit "action") (found_by re_submit_link) with
    | None =>
        emit_log (log Error (lit "form not found") []) ;;
        raise SubmissionError
    | Some fm =>
        emit_log (log Debug (lit "form: %s") [render fm]) ;;
        task_id <- _get_task_id self (Some s) ;;
        sender <- utils.FormSender_init fm (url resp) ;;
        let sender := utils.set sender (lit "task_id") (str_of_int task_id) in
        let sender := utils.set sender (lit "source_code") code in
        let sender := utils.set sender (lit "language_id_" ++ str_of_int task_id) language in
        resp <- utils.request sender (Some s) ;;
        raise_for_status resp ;;
        submit_result self resp
    end.
End Submit.

End atcoder.

(** * Vocabulary of the statements *)

Import Py World.

Module Spec.
Import utils.

(** Feeding a sequence of labeled blocks, in order, to a zipper. *)
Definition feed (blocks : list block) (z : SampleZipper) : SampleZipper :=
  fold_left (fun z b => fst (add z (fst b) (snd b))) blocks z.

(** Consecutive elements taken two at a time. *)
Fixpoint pair_up {A} (l : list A) : list (A * A) :=
  match l with
  | a :: b :: more => (a, b) :: pair_up more
  | _ => []
  end.

Fixpoint odd_one {A} (l : list A) : option A :=
  match l with
  | _ :: _ :: more => odd_one more
  | [a] => Some a
  | [] => None
  end.

Definition flatten {A} (ps : list (A * A)) : list A :=
  List.flat_map (fun p => [fst p; snd p]) ps.

(** The pairs without the labels. *)
Definition texts (ps : list (block * block)) : list (str * str) :=
  List.map (fun p => (fst (fst p), fst (snd p))) ps.

(** The record [get] logs for a dangling block. *)
Definition dangling_report (b : block) : log_record :=
  logger Error "error" (lit "dangling sample string: %s") [snd b].

(** The session [download] talks through and the cookies it sends. *)
Definition session_ref (session : option nat) (st : state) : nat :=
  match session with
  | Some s => s
  | None => next_session st
  end.

Definition session_jar (session : option nat) (st : state) : cookiejar :=
  match session with
  | Some s => default [] (sessions st !! s)
  | None => []
  end.

(** The trace at the moment the server answers the request of
    [download]. *)
Definition download_asks (target : str) (session : option nat) (st : state) : list event :=
  trace st ++ [EvLog (logger Info "status" (lit "GET: %s") [target]);
               EvRequest (session_ref session st) (lit "GET") target [] true].

(** What an exception object holds: a status code and texts. *)
Definition exn_status (e : exn) : option Z :=
  match e with
  | HTTPError _ r => r
  | HttpStatusError c _ => Some c
  | _ => None
  end.

Definition exn_texts (e : exn) : list str :=
  match e with
  | HTTPError args _ => args
  | HttpStatusError _ d => [d]
  | KeyError k => [k]
  | EnvironmentError w => [w]
  | _ => []
  end.

(** The exception carries the status code and its description. *)
Definition carries (e : exn) (code : Z) (description : str) : Prop :=
  exn_status e = Some code
  /\ exists t, In t (exn_texts e) /\ contains t description = true.

Definition is_error_record (e : event) : bool :=
  match e with
  | EvLog r => match log_level r with Error => true | _ => false end
  | _ => false
  end.

(** The calls of a release of the session at [path] holding [jar]:
    the log line, the parent directories when the path has a directory
    part, the cookie file, its mode [0o600]. *)
Definition makedirs_events (path : str) : list event :=
  match posixpath.dirname path with
  | [] => []
  | d => [EvMakedirs d]
  end.

Definition release_events {L : library} (path : str) (jar : cookiejar) : list event :=
  [EvLog (logger Info "info" (lit "save cookie to: %s") [path])]
  ++ makedirs_events path
  ++ [EvCookieSave path (as_lwp_str jar); EvChmod path 384].

(** The file system lets the release through: each of its calls
    succeeds when it is made after the trace [tr]. *)
Definition release_allowed {E : environment} {L : library}
    (tr : list event) (path : str) (jar : cookiejar) : Prop :=
  let t1 := tr ++ [EvLog (logger Info "info" (lit "save cookie to: %s") [path])] in
  let t2 := t1 ++ makedirs_events path in
  let t3 := t2 ++ [EvCookieSave path (as_lwp_str jar)] in
  let t4 := t3 ++ [EvChmod path 384] in
  (posixpath.dirname path = [] \/ makedirs t2 (posixpath.dirname path) = Ok tt)
  /\ cookie_save t3 path (as_lwp_str jar) = Ok tt
  /\ chmod t4 path 384 = Ok tt.

(** Events that write to the file system. *)
Definition is_file_write (e : event) : bool :=
  match e with
  | EvMakedirs _ | EvCookieSave _ _ | EvChmod _ _ => true
  | _ => false
  end.

(** The cookies session [s] holds in state [st]. *)
Definition cookies_of (s : nat) (st : state) : cookiejar := default [] (sessions st !! s).

(** The input element carries the non-empty name [k] and the non-empty
    value [v]. *)
Definition prefilled (input : node) (k v : str) : Prop :=
  bs4.attr input (lit "name") = Some k /\ k <> []
  /\ bs4.attr input (lit "value") = Some v /\ v <> [].

(** [input] is the last element of [inputs] that is prefilled for the
    name [k], and its value is [v]. *)
Definition last_prefilled (inputs : list node) (k v : str) : Prop :=
  exists before input after,
    inputs = before ++ input :: after
    /\ prefilled input k v
    /\ forall j w, In j after -> ~ prefilled j k w.

(** The name and value an input contributes, if any. *)
Definition field_of (input : node) : option (str * str) :=
  match bs4.attr input (lit "name"), bs4.attr input (lit "value") with
  | Some (c :: k), Some (d :: v) => Some (c :: k, d :: v)
  | _, _ => None
  end.

(** The payload after one more input. *)
Definition take_field (pl : gmap str str) (input : node) : gmap str str :=
  match field_of input with
  | Some (k, v) => <[k := v]> pl
  | None => pl
  end.

(** *** Calls of the credentials provider *)

Definition is_credentials (e : event) : bool :=
  match e with EvCredentials => true | _ => false end.

(** How often the credentials provider was invoked in a trace. *)
Definition credential_calls (tr : list event) : nat :=
  List.length (List.filter is_credentials tr).

(** A computation that never invokes the credentials provider. *)
Definition quiet {A} (m : IO A) : Prop :=
  forall st, credential_calls (trace (snd (m st))) = credential_calls (trace st).

Definition empty_state : state := {| trace := []; sessions := ∅; next_session := 0 |}.

(** The messages AtCoder put into the cookies of a response, as
    [_get_messages_from_cookie] extracts them. *)
Definition messages_of {L : library} {U : unicode} (cookies : cookiejar) : result (list str) :=
  fst (atcoder._get_messages_from_cookie cookies empty_state).

(** The trace at the moment the server answers the probe of
    [AtCoderService.login]. *)
Definition atcoder_probe_asks (session : option nat) (st : state) : list event :=
  trace st ++ [EvLog (log Status (lit "%s: %s") [lit "GET"; atcoder.login_url]);
               EvRequest (session_ref session st) (lit "GET") atcoder.login_url [] false].

(** The trace at the moment the server answers the probe of
    [Yukicoder.login_with_github]. *)
Definition yukicoder_probe_asks (s : nat) (st : state) : list event :=
  trace st ++ [EvLog (logger Info "status" (lit "GET: %s") [lit "https://yukicoder.me/auth/github"]);
               EvRequest s (lit "GET") (lit "https://yukicoder.me/auth/github") [] true].

(** *** The last exchange with the server *)

Definition is_log (e : event) : bool :=
  match e with EvLog _ => true | _ => false end.

(** The last response recorded in a trace. *)
Fixpoint last_response (tr : list event) : option response :=
  match tr with
  | [] => None
  | e :: tr' =>
      match last_response tr' with
      | Some r => Some r
      | None => match e with EvResponse r => Some r | _ => None end
      end
  end.

(** The fields posted by the last request recorded in a trace. *)
Fixpoint last_posted (tr : list event) : option (list (str * str)) :=
  match tr with
  | [] => None
  | e :: tr' =>
      match last_posted tr' with
      | Some d => Some d
      | None => match e with EvRequest _ _ _ d _ => Some d | _ => None end
      end
  end.

(** A computation that only writes to the log. *)
Definition logs_only {A} (m : IO A) : Prop :=
  forall st, exists evs,
    trace (snd (m st)) = trace st ++ evs /\ forallb is_log evs = true.

(** The value [submit_code] returns for a problem. *)
Definition submissions_page (self : atcoder.AtCoderProblem) : atcoder.DummySubmission :=
  {| atcoder.dummy_url := lit "https://beta.atcoder.jp/contests/" ++ atcoder.contest_id self
                          ++ lit "/submissions/me" |}.

(** The final URL is one of a Yukicoder submission. *)
Definition yukicoder_submitted (resp : response) : bool :=
  bool_decide (is_Some (re.match_ yukicoder.re_submitted (url resp))).

(** The trace at the moment the server answers a GET that [atcoder.py]
    makes through [_request], following redirects. *)
Definition atcoder_get_asks (target : str) (session : option nat) (st : state) : list event :=
  trace st ++ [EvLog (log Status (lit "%s: %s") [lit "GET"; target]);
               EvRequest (session_ref session st) (lit "GET") target [] true].

(** The trace at the moment the server answers the first GET of
    [Yukicoder.submit]. *)
Definition yukicoder_get_asks (target : str) (s : nat) (st : state) : list event :=
  trace st ++ [EvLog (logger Info "status" (lit "GET: %s") [target]);
               EvRequest s (lit "GET") target [] true].

(** The submit form of a page, as each site looks for it. *)
Definition atcoder_form {L : library} (resp : response) : option node :=
  bs4.find_by_attr (BeautifulSoup (content resp)) (lit "form") (lit "action")
    (atcoder.found_by atcoder.re_submit_link).

Definition yukicoder_form {L : library} (resp : response) : option node :=
  bs4.find_by_attr (BeautifulSoup (content resp)) (lit "form") (lit "action")
    (fun v => bool_decide (is_Some (re.search yukicoder.re_submit_action v))).

(** *** Order of an archive *)

(** A strict total order given by a boolean test. *)
Record strict_total {A} (ltb : A -> A -> bool) : Prop := {
  st_irrefl : forall x, ltb x x = false;
  st_trans : forall x y z, ltb x y = true -> ltb y z = true -> ltb x z = true;
  st_total : forall x y, ltb x y = false -> ltb y x = false -> x = y
}.

(** [a] is not greater than [b]. *)
Definition not_after {A} (ltb : A -> A -> bool) (a b : A) : Prop := ltb b a = false.

(** The blocks of the names with base name [k], in the order of [names]. *)
Definition files_named (entries : list (str * str)) (names : list str) (k : str)
    : list utils.block :=
  List.map (fun name => (yukicoder.zip_read entries name, name))
    (List.filter (fun name => str_eqb (posixpath.basename name) k) names).

(** The blocks [parse_sample_tag] accepts among the [pre] tags, in
    document order; the first exception ends the scan. *)
Fixpoint parsed_blocks {U : unicode} (pres : list bs4.located) : result (list utils.block) :=
  match pres with
  | [] => Ok []
  | pre :: more =>
      match yukicoder.parse_sample_tag pre with
      | Raise e => Raise e
      | Ok it =>
          match parsed_blocks more with
          | Raise e => Raise e
          | Ok blocks => Ok (match it with Some b => b :: blocks | None => blocks end)
          end
      end
  end.

(** [d.get(k)] on the dictionary kept as a list. *)
Definition assoc (k : str) (d : list (str * list utils.block)) : option (list utils.block) :=
  option_map snd (List.find (fun e => str_eqb (fst e) k) d).

(** One turn of the loop of [download_all]. *)
Definition archive_step (entries : list (str * str)) (d : list (str * list utils.block))
    (name : str) : list (str * list utils.block) :=
  yukicoder.group_add (posixpath.basename name) (yukicoder.zip_read entries name, name) d.

(** The dictionary holds, for every base name, the blocks of the names
    seen so far, and no key twice. *)
Definition groups_of_names (entries : list (str * str)) (d : list (str * list utils.block))
    (seen : list str) : Prop :=
  NoDup (List.map fst d)
  /\ forall k, assoc k d = match files_named entries seen k with
                          | [] => None
                          | fs => Some fs
                          end.

(** The address [download_all] fetches. *)
Definition testcase_url (self : yukicoder.Yukicoder) : str :=
  lit "http://yukicoder.me/problems/no/"
  ++ yukicoder.str_of_opt_int (yukicoder.problem_no self) ++ lit "/testcase.zip".

(** *** Shapes of URLs *)

(** A network location as [urlsplit] produces it: none of [/?#], and
    square brackets both present or both absent. *)
Definition netloc_shaped (loc : str) : Prop :=
  Forall (fun x => urllib_parse.is_delim x = false) loc
  /\ (urllib_parse.has 91 loc && negb (urllib_parse.has 93 loc))
     || (urllib_parse.has 93 loc && negb (urllib_parse.has 91 loc)) = false.

(** A name that [normpath] leaves alone as a segment of an absolute path:
    not empty, without a slash, neither [.] nor [..]. *)
Definition segment (b : str) : Prop :=
  b <> [] /\ ~ In 47 b /\ b <> lit "." /\ b <> lit "..".

(** The condition on the components [normpath] keeps: [..] may stay only
    in a relative path. *)
Definition kept (initial_slashes : nat) (c : str) : Prop :=
  c <> [] /\ ~ In 47 c /\ c <> lit "." /\ (initial_slashes <> 0%nat -> c <> lit "..").

(** A segment that a URL can carry at the end of its path unchanged:
    none of [#?;]. *)
Definition url_safe (b : str) : Prop := ~ In 35 b /\ ~ In 63 b /\ ~ In 59 b.

(** The canonical parse of [http://<loc>/<path>]. *)
Definition http_parts (loc p : str) : urllib_parse.ParseResult :=
  {| urllib_parse.scheme := lit "http"; urllib_parse.netloc := loc;
     urllib_parse.path := 47 :: p; urllib_parse.params := [];
     urllib_parse.query := []; urllib_parse.fragment := [] |}.

(** The text is empty or begins with something else than a slash. *)
Definition head_not_slash (s : str) : Prop :=
  match s with
  | [] => True
  | y :: _ => y <> 47
  end.


(** *** What a computation adds to the trace *)

(** A computation whose new events all pass the test [P]. *)
Definition emits_only {A} (P : event -> bool) (m : IO A) : Prop :=
  forall st, exists evs,
    trace (snd (m st)) = trace st ++ evs /\ forallb P evs = true.

(** A computation that invokes the credentials provider at most [k]
    times. *)
Definition prompts_at_most {A} (k : nat) (m : IO A) : Prop :=
  forall st,
    (credential_calls (trace (snd (m st))) <= credential_calls (trace st) + k)%nat.

(** The traffic of a login to AtCoder: logs, answers, the question for
    the credentials, and requests to the login page only, none of which
    follows redirects; a request that carries data is a [POST]. *)
Definition atcoder_login_traffic (e : event) : bool :=
  match e with
  | EvLog _ | EvResponse _ | EvCredentials => true
  | EvRequest _ method target data redirects =>
      str_eqb target atcoder.login_url && negb redirects
      && (str_eqb method (lit "POST")
          || (str_eqb method (lit "GET") && match data with [] => true | _ => false end))
  | _ => false
  end.

(** *** Options of a selector *)



(** The link to the submit form on the page a response carries. *)
Definition atcoder_submit_link {L : library} (resp : response) : option node :=
  bs4.find_by_attr (BeautifulSoup (content resp)) (lit "a") (lit "href")
    (atcoder.found_by atcoder.re_submit_link).

(** The text holds no tab, line feed or carriage return: the characters
    that [urlsplit] from CPython 3.9.5 on removes from a URL before it
    parses it. *)
Definition no_tab_or_newline (s : str) : bool :=
  forallb (fun c => negb ((c =? 9) || (c =? 10) || (c =? 13))) s.

(** The cookies [_get_messages_from_cookie] reads. *)
Definition message_cookies (cookies : cookiejar) : cookiejar :=
  List.filter (fun c => startswith (cookie_name c) (lit "__message_")) cookies.
End Spec.

(** Concrete surroundings on which the statements are exercised. *)

Module Fixtures.

(** No code point outside ASCII is a letter, a digit or a space. *)
Definition plain_unicode : unicode :=
  {| unicode_alnum := fun _ => false;
     unicode_digit := fun _ => None;
     unicode_space := fun _ => false;
     unicode_lower := fun c => [c];
     unicode_upper := fun c => [c] |}.

Definition is_request (e : event) : bool :=
  match e with EvRequest _ _ _ _ _ => true | _ => false end.

(** A server that gives its [k]-th answer to the [k]-th request. *)
Definition answers (rs : list (result response)) (tr : list event) : result response :=
  match List.length (List.filter is_request tr) with
  | O => Raise (EnvironmentError (lit "no request"))
  | S k => List.nth k rs (Raise (EnvironmentError (lit "no more answers")))
  end.

(** Surroundings with a scripted server, fixed credentials and a file
    system in which every call succeeds. *)
Definition scripted (rs : list (result response)) (cookie_file : bool) : environment :=
  {| http := fun tr _ _ _ _ _ => answers rs tr;
     credentials := fun _ => Ok (lit "user", lit "secret");
     path_exists := fun _ _ => cookie_file;
     cookie_load := fun _ _ => Ok [{| cookie_name := lit "sid"; cookie_value := lit "1" |}];
     makedirs := fun _ _ => Ok tt;
     cookie_save := fun _ _ _ => Ok tt;
     chmod := fun _ _ _ => Ok tt |}.

(** A library in which every markup parses to the document [doc] and
    every archive holds [entries]. *)
Definition library_of (doc : node) (entries : list (str * str)) : library :=
  {| BeautifulSoup := fun _ => doc;
     ZipFile := fun _ => Ok entries;
     urljoin := fun base ref => ref;
     json_message := fun v => Ok v;
     render := fun _ => [];
     as_lwp_str := fun jar =>
       List.flat_map (fun c => cookie_name c ++ 61 :: cookie_value c ++ [10]) jar |}.

Definition empty_document : node := Tag (lit "[document]") ∅ [].

Definition st0 : state := {| trace := []; sessions := ∅; next_session := 0 |}.

Definition page (status : Z) (at_url : string) : response :=
  {| status_code := status; url := lit at_url; content := lit "body"; resp_cookies := [] |}.

(** A body that logs in, so that the session receives a cookie, and then
    fails. *)
Definition failing_body {E : environment} (s : nat) : IO unit :=
  bind (session_request s (lit "GET") (lit "http://example.com/") [] true)
       (fun _ => raise RuntimeError).

(** A body that only makes a request. *)
Definition visiting_body {E : environment} (s : nat) : IO unit :=
  bind (session_request s (lit "GET") (lit "http://example.com/") [] true)
       (fun _ => ret tt).

Definition cookie_server : environment :=
  scripted [Ok {| status_code := 200; url := lit "http://example.com/"; content := [];
                  resp_cookies := [{| cookie_name := lit "token"; cookie_value := lit "abc" |}] |}]
           false.

Definition plain_library : library := library_of empty_document [].

Definition input_tag (fields : list (string * string)) : node :=
  Tag (lit "input") (list_to_map (List.map (fun '(k, v) => (lit k, lit v)) fields)) [].

(** A login form: a hidden token, a user name without a value, a password
    with an empty value, and two radio buttons of one name. *)
Local Open Scope string_scope.
Definition login_form : node :=
  Tag (lit "form") (list_to_map [(lit "action", lit "/login"); (lit "method", lit "post")])
    [ input_tag [("type", "hidden"); ("name", "csrf_token"); ("value", "t0k3n")];
      Tag (lit "p") ∅
        [ Text (lit "User");
          input_tag [("type", "text"); ("name", "login")];
          input_tag [("type", "password"); ("name", "password"); ("value", "")] ];
      input_tag [("type", "radio"); ("name", "lang"); ("value", "en")];
      input_tag [("type", "radio"); ("name", "lang"); ("value", "ja")];
      input_tag [("type", "submit"); ("value", "Sign in")] ].
Local Close Scope string_scope.

(** The state after a session on [cache/cookie.jar] was entered and its
    body made one request to [cookie_server]. *)
Definition visited : state :=
  Eval vm_compute in
    snd (@visiting_body cookie_server 0%nat
           (snd (@utils.session_enter cookie_server (lit "cache/cookie.jar") st0))).

(** AtCoder answering the login page with a message cookie. *)
Definition message_response : response :=
  {| status_code := 200; url := lit "https://practice.contest.atcoder.jp/login"; content := [];
     resp_cookies := [{| cookie_name := lit "__message_1"; cookie_value := lit "hello" |}] |}.

Definition atcoder_logged_in : environment := scripted [Ok message_response] false.

(** A library that parses every markup to one paragraph of text. *)
Definition message_library : library :=
  library_of (Tag (lit "[document]") ∅ [Tag (lit "p") ∅ [Text (lit "You are logged in.")]]) [].

(** Yukicoder answering the authorisation request from its own host. *)
Definition yukicoder_logged_in : environment :=
  scripted [Ok (page 200 "https://yukicoder.me/")] false.

Definition problem_9 : yukicoder.Yukicoder :=
  {| yukicoder.problem_no := Some 9%Z; yukicoder.problem_id := None |}.

(** A server that answers every first request with 404. *)
Definition not_found_server : environment :=
  scripted [Ok (page 404 "http://example.com/")] false.

(** *** Submitting to AtCoder *)

Definition tag (name : string) (ats : list (string * string)) (children : list node) : node :=
  Tag (lit name) (list_to_map (List.map (fun '(k, v) => (lit k, lit v)) ats)) children.

Local Open Scope string_scope.
Definition language_selector : node :=
  tag "select" [("class", "submit-language-selector")]
    [ tag "option" [("value", "3003")] [Text (lit "C++14 (GCC 5.4.1)")] ].

(** The submit page of a contest: the language selector, the form and
    the link that carries the task id. *)
Definition atcoder_submit_page : node :=
  tag "[document]" []
    [ language_selector;
      tag "form" [("action", "/submit?task_id=1234"); ("method", "post")]
        [ tag "input" [("type", "hidden"); ("name", "__session"); ("value", "f00")] [] ];
      tag "a" [("href", "/submit?task_id=1234")] [Text (lit "Submit")] ].

(** The same page without the form. *)
Definition atcoder_page_without_form : node :=
  tag "[document]" [] [ language_selector ].

Definition yukicoder_submit_page : node :=
  tag "[document]" []
    [ tag "form" [("action", "/problems/no/9/submit"); ("method", "post")]
        [ tag "input" [("type", "hidden"); ("name", "csrf_token"); ("value", "t0k3n")] [] ] ].
Local Close Scope string_scope.

Definition abc001_1 : atcoder.AtCoderProblem :=
  atcoder.Problem_init (lit "abc001") (lit "abc001_1").

(** AtCoder accepting a submission: the submit page twice, the task page,
    and the redirect to the list of one's submissions. *)
Definition atcoder_accepting : environment :=
  scripted [Ok (page 200 "http://abc001.contest.atcoder.jp/submit");
            Ok (page 200 "http://abc001.contest.atcoder.jp/submit");
            Ok (page 200 "http://abc001.contest.atcoder.jp/tasks/abc001_1");
            Ok (page 200 "https://abc001.contest.atcoder.jp/submissions/me#32174")] false.

Definition atcoder_library : library := library_of atcoder_submit_page [].
Definition atcoder_library_without_form : library := library_of atcoder_page_without_form [].

(** The state in which the accepted submission ends. *)
Definition atcoder_accepted : state :=
  Eval vm_compute in
    snd (@atcoder.submit_code plain_unicode atcoder_accepting atcoder_library
           abc001_1 (lit "int main(){}") (lit "3003") None st0).

(** The languages read from the submit page and the state after reading
    them. *)
Definition atcoder_languages : gmap str (option str) :=
  {[ lit "3003" := Some (lit "C++14 (GCC 5.4.1)") ]}.

Definition atcoder_languages_read : state :=
  Eval vm_compute in
    snd (@atcoder.get_language_dict plain_unicode atcoder_accepting
           atcoder_library_without_form abc001_1 None st0).

(** *** Submitting to Yukicoder *)

(** Yukicoder sending the browser back to the submit page after the
    post. *)
Definition yukicoder_rejecting : environment :=
  scripted [Ok (page 200 "https://yukicoder.me/problems/no/9/submit");
            Ok (page 200 "https://yukicoder.me/problems/no/9/submit")] false.

(** Yukicoder redirecting to the new submission. *)
Definition yukicoder_accepting : environment :=
  scripted [Ok (page 200 "https://yukicoder.me/problems/no/9/submit");
            Ok (page 200 "https://yukicoder.me/submissions/12345")] false.

Definition yukicoder_library : library := library_of yukicoder_submit_page [].

Definition yukicoder_accepted : state :=
  Eval vm_compute in
    snd (@yukicoder.submit plain_unicode yukicoder_accepting yukicoder_library
           problem_9 (lit "print(1)") (Some (lit "python3")) (Some 0%nat) st0).

(** *** An archive of test cases *)

(** Two cases; the input of the first is the greater text. *)
Definition sample_archive : list (str * str) :=
  [ (lit "test_in/01.txt", lit "9"); (lit "test_in/02.txt", lit "1");
    (lit "test_out/01.txt", lit "81"); (lit "test_out/02.txt", lit "1") ].

Definition case_01 : list utils.block :=
  [ (lit "9", lit "test_in/01.txt"); (lit "81", lit "test_out/01.txt") ].
Definition case_02 : list utils.block :=
  [ (lit "1", lit "test_in/02.txt"); (lit "1", lit "test_out/02.txt") ].

Definition archive_library : library := library_of empty_document sample_archive.

Definition archive_server : environment :=
  scripted [Ok (page 200 "http://yukicoder.me/problems/no/9/testcase.zip")] false.

(** *** A problem page with samples *)

Local Open Scope string_scope.
Definition sample_block (title label text : string) : list node :=
  [ tag "h5" [] [Text (lit title)];
    tag "div" [("class", "paragraph")]
      [ tag "h6" [] [Text (lit label)]; Text (lit " "); tag "pre" [] [Text (lit text)] ] ].

Definition yukicoder_problem_page : node :=
  tag "[document]" []
    (sample_block "Sample 1" "Input" "3" ++ sample_block "Sample 1" "Output" "9"
     ++ sample_block "Sample 2" "Input" "1" ++ sample_block "Sample 2" "Output" "1"
     ++ sample_block "Sample 3" "Input" "7").
Local Close Scope string_scope.

Definition page_library : library := library_of yukicoder_problem_page [].

Definition page_server : environment :=
  scripted [Ok (page 200 "https://yukicoder.me/problems/no/9")] false.


(** A problem name with a semicolon, as a URL with a closing slash gives
    it. *)
Definition abc001_1_x : atcoder.AtCoderProblem :=
  atcoder.Problem_init (lit "abc001") (lit "abc001_1;x").

(** *** Logging in with credentials *)

(** AtCoder showing the login page and, after the post, the home page. *)
Definition atcoder_signing_in : environment :=
  scripted [Ok (page 200 "https://practice.contest.atcoder.jp/login");
            Ok (page 200 "https://practice.contest.atcoder.jp/")] false.

Definition atcoder_signed_in : state :=
  Eval vm_compute in
    snd (atcoder.login (U:=plain_unicode) (E:=atcoder_signing_in) (L:=plain_library)
           atcoder.TheAtCoderService None st0).

(** GitHub showing its login form and, after the post, Yukicoder. *)
Definition github_login_page : node := tag "[document]" [] [login_form].

Definition github_library : library := library_of github_login_page [].

Definition yukicoder_signing_in : environment :=
  scripted [Ok (page 200 "https://github.com/login");
            Ok (page 200 "https://yukicoder.me/")] false.

Definition yukicoder_signed_in : state :=
  Eval vm_compute in
    snd (yukicoder.login_with_github (U:=plain_unicode) (E:=yukicoder_signing_in)
           (L:=github_library) problem_9 (Some 0%nat) st0).

(** *** Forms *)

Local Open Scope string_scope.
Local Close Scope string_scope.

Definition sender_of (fm : node) : utils.FormSender :=
  {| utils.form := fm; utils.form_url := lit "https://example.com/login";
     utils.payload := ∅ |}.

(** A server that answers with the status 520 of a proxy. *)
Definition proxy_error_server : environment :=
  scripted [Ok (page 520 "https://example.com/login")] false.

Definition home_server : environment :=
  scripted [Ok (page 200 "https://example.com/home")] false.

(** The sender made of the login form, and the state it is made in. *)
Definition login_sender : utils.FormSender :=
  Eval vm_compute in
    match fst (utils.FormSender_init (L:=plain_library) login_form
                 (lit "https://example.com/login") st0) with
    | Ok s => s
    | Raise _ => sender_of login_form
    end.

Definition login_sender_made : state :=
  Eval vm_compute in
    snd (utils.FormSender_init (L:=plain_library) login_form
           (lit "https://example.com/login") st0).

Definition login_form_sent : state :=
  Eval vm_compute in
    snd (utils.request (U:=plain_unicode) (E:=home_server) (L:=plain_library)
           (utils.set login_sender (lit "login") (lit "user")) (Some 0%nat)
           login_sender_made).

(** *** The submit page and the task page of AtCoder *)

(** AtCoder sending the login page in place of the submit page. *)
Definition atcoder_asking_login : environment :=
  scripted [Ok (page 200 "https://practice.contest.atcoder.jp/login?next=submit")] false.

Definition atcoder_task_server : environment :=
  scripted [Ok (page 200 "http://abc001.contest.atcoder.jp/tasks/abc001_1")] false.

Local Open Scope string_scope.
Definition submit_link : node := tag "a" [("href", "/submit?task_id=1234")] [Text (lit "Submit")].

Definition long_submit_link : node :=
  tag "a" [("href", "/submit?task_id=1234&lang=ja")] [Text (lit "Submit")].

(** A task page whose link to the form carries one more parameter. *)
Definition atcoder_task_page_long_link : node := tag "[document]" [] [ long_submit_link ].

(** A page on which a [pre] tag is the first element of its parent. *)
Definition headless_page : node :=
  tag "[document]" []
    [ tag "div" [("class", "paragraph")] [ Text (lit " "); tag "pre" [] [Text (lit "3")] ] ].
Local Close Scope string_scope.

Definition long_link_library : library := library_of atcoder_task_page_long_link [].

Definition headless_library : library := library_of headless_page [].

(** *** Cookies *)

Definition mixed_cookies : cookiejar :=
  [ {| cookie_name := lit "sid"; cookie_value := lit "1" |};
    {| cookie_name := lit "__message_1"; cookie_value := lit "hello" |} ].

(** A cookie file that exists and cannot be read. *)
Definition unreadable_cookie_file : environment :=
  {| http := fun _ _ _ _ _ _ => Raise (EnvironmentError (lit "no request"));
     credentials := fun _ => Ok (lit "user", lit "secret");
     path_exists := fun _ _ => true;
     cookie_load := fun _ _ => Raise (EnvironmentError (lit "LoadError"));
     makedirs := fun _ _ => Ok tt;
     cookie_save := fun _ _ _ => Ok tt;
     chmod := fun _ _ _ => Ok tt |}.

(** *** Problems *)

(** A Yukicoder problem known by its id only. *)
Definition problem_id_9 : yukicoder.Yukicoder :=
  {| yukicoder.problem_no := None; yukicoder.problem_id := Some 9%Z |}.

Definition agc001_1246803 : atcoder.AtCoderSubmission :=
  {| atcoder.sub_contest_id := lit "agc001"; atcoder.submission_id := 1246803;
     atcoder.sub_problem_id := None |}.

(** *** A message cookie without text *)

(** The answer to the probe of a login carrying one message cookie, whose
    value is the quoted JSON object with the field [c] set to the markup
    [<div></div>]. *)
Definition wordless_message_response : response :=
  {| status_code := 200; url := lit "https://practice.contest.atcoder.jp/login"; content := [];
     resp_cookies :=
       [{| cookie_name := lit "__message_1";
           cookie_value := lit "%7B%22c%22%3A+%22%3Cdiv%3E%3C%2Fdiv%3E%22%7D" |}] |}.

(** A library that reads the markup [<div></div>] out of that cookie and
    parses it to one empty [div]. *)
Definition wordless_message_library : library :=
  {| BeautifulSoup := fun _ => tag "[document]" [] [tag "div" [] []];
     ZipFile := fun _ => Ok [];
     urljoin := fun base ref => ref;
     json_message := fun _ => Ok (lit "<div></div>");
     render := fun _ => [];
     as_lwp_str := fun _ => [] |}.

Definition atcoder_wordless_message : environment :=
  scripted [Ok wordless_message_response;
            Ok (page 200 "https://practice.contest.atcoder.jp/")] false.

(** *** AtCoder ending the session between the two fetches of the submit page *)

Definition sign_in_notice : response :=
  {| status_code := 200; url := lit "http://abc001.contest.atcoder.jp/submit";
     content := lit "body";
     resp_cookies :=
       [{| cookie_name := lit "__message_1";
           cookie_value := lit "%7B%22c%22%3A+%22%3Cp%3EPlease+sign+in.%3C%2Fp%3E%22%7D" |}] |}.

(** A library that parses the markup of the notice to one paragraph and
    every other markup to the submit page. *)
Definition atcoder_library_with_notice : library :=
  {| BeautifulSoup := fun markup =>
       if str_eqb markup (lit "<p>Please sign in.</p>")
       then tag "[document]" [] [tag "p" [] [Text (lit "Please sign in.")]]
       else atcoder_submit_page;
     ZipFile := fun _ => Ok [];
     urljoin := fun base ref => ref;
     json_message := fun _ => Ok (lit "<p>Please sign in.</p>");
     render := fun _ => [];
     as_lwp_str := fun _ => [] |}.

(** The second fetch comes back with a message. *)
Definition atcoder_noticing : environment :=
  scripted [Ok (page 200 "http://abc001.contest.atcoder.jp/submit"); Ok sign_in_notice] false.

(** The second fetch is redirected to the login page. *)
Definition atcoder_signing_out : environment :=
  scripted [Ok (page 200 "http://abc001.contest.atcoder.jp/submit");
            Ok (page 200 "https://abc001.contest.atcoder.jp/login")] false.

(** The first fetch comes back with a message. *)
Definition atcoder_noticing_at_once : environment := scripted [Ok sign_in_notice] false.
End Fixtures.

(** * Properties *)

(** ** The sample pairing engine *)

Section Pairing.
Import utils Spec.

Lemma two_step_ind {A} (P : list A -> Prop) :
  P [] -> (forall a, P [a]) -> (forall a b l, P l -> P (a :: b :: l)) ->
  forall l, P l.
Proof.
  intros H0 H1 H2 l.
  assert (H : P l /\ forall a, P (a :: l)).
  { induction l as [|b l [IH1 IH2]]; split; auto. }
  apply H.
Qed.

Lemma feed_from_empty_slot blocks d :
  feed blocks {| data := d; dangling := None |}
  = {| data := d ++ pair_up blocks; dangling := odd_one blocks |}.
Proof.
  revert d. induction blocks as [| a | a b l IH] using two_step_ind; intros d.
  - cbn. by rewrite app_nil_r.
  - cbn. rewrite app_nil_r. by destruct a.
  - destruct a as [s1 n1], b as [s2 n2].
    change (feed ((s1, n1) :: (s2, n2) :: l) {| data := d; dangling := None |})
      with (feed l {| data := d ++ [((s1, n1), (s2, n2))]; dangling := None |}).
    rewrite IH. cbn [pair_up odd_one]. by rewrite <- app_assoc.
Qed.

Lemma feed_init blocks :
  feed blocks SampleZipper_init
  = {| data := pair_up blocks; dangling := odd_one blocks |}.
Proof. apply (feed_from_empty_slot blocks []). Qed.

Lemma pair_up_length {A} (l : list A) : List.length (pair_up l) = (List.length l / 2)%nat.
Proof.
  induction l as [| a | a b l IH] using two_step_ind; try reflexivity.
  cbn [pair_up List.length]. rewrite IH.
  change (S (S (List.length l))) with (1 * 2 + List.length l)%nat.
  rewrite Nat.div_add_l by lia. lia.
Qed.

Lemma pair_up_lookup {A} (l : list A) k :
  pair_up l !! k
  = match l !! (2 * k)%nat, l !! (2 * k + 1)%nat with
    | Some a, Some b => Some (a, b)
    | _, _ => None
    end.
Proof.
  revert k. induction l as [| a | a b l IH] using two_step_ind; intros k.
  - reflexivity.
  - cbn [pair_up]. rewrite (lookup_ge_None_2 [a] (2 * k + 1)) by (cbn; lia).
    by destruct ([a] !! (2 * k)%nat).
  - destruct k as [|k]; [reflexivity|].
    replace (2 * S k)%nat with (S (S (2 * k))) by lia.
    cbn [pair_up]. cbn [lookup list_lookup Nat.add]. apply IH.
Qed.

Lemma odd_one_flatten {A} (ps : list (A * A)) : odd_one (flatten ps) = None.
Proof. induction ps as [|p ps IH]; [reflexivity | exact IH]. Qed.

Lemma pair_up_flatten {A} (ps : list (A * A)) : pair_up (flatten ps) = ps.
Proof.
  induction ps as [|[a b] ps IH]; [reflexivity|].
  cbn. f_equal. exact IH.
Qed.

Lemma pair_up_flatten_snoc {A} (ps : list (A * A)) b : pair_up (flatten ps ++ [b]) = ps.
Proof.
  induction ps as [|[a c] ps IH]; [reflexivity|].
  cbn. f_equal. exact IH.
Qed.

Lemma odd_one_flatten_snoc {A} (ps : list (A * A)) b : odd_one (flatten ps ++ [b]) = Some b.
Proof. induction ps as [|p ps IH]; [reflexivity | exact IH]. Qed.

Lemma odd_one_parity {A} (l : list A) :
  odd_one l = if Nat.odd (List.length l) then last l else None.
Proof.
  induction l as [| a | a b l IH] using two_step_ind; try reflexivity.
  cbn [odd_one List.length]. rewrite IH.
  change (Nat.odd (S (S (List.length l)))) with (Nat.odd (List.length l)).
  destruct (Nat.odd _) eqn:Ho; [|reflexivity].
  destruct l as [|x l]; [discriminate Ho|]. reflexivity.
Qed.

Lemma texts_pair_up blocks : texts (pair_up blocks) = pair_up (List.map fst blocks).
Proof.
  induction blocks as [| a | a b l IH] using two_step_ind; try reflexivity.
  cbn. f_equal. exact IH.
Qed.

(** C1.  Whatever sequence of [n] labeled blocks is added in order,
    [get] returns [n / 2] pairs, the pair at index [k] being made of the
    blocks at indices [2k] (input) and [2k+1] (output); a block left over
    is reported by one error record and changes nothing in the pairs
    collected before it. *)
Theorem C1_pairs_in_order (blocks : list block) :
  let out := get (feed blocks SampleZipper_init) in
  List.length (fst out) = (List.length blocks / 2)%nat
  /\ (forall k : nat,
        fst out !! k
        = match blocks !! (2 * k)%nat, blocks !! (2 * k + 1)%nat with
          | Some a, Some b => Some (a, b)
          | _, _ => None
          end)
  /\ snd out
     = (if Nat.odd (List.length blocks)
        then match last blocks with
             | Some b => [dangling_report b]
             | None => []
             end
        else [])
  /\ (forall (ps : list (block * block)) (b : block),
        get (feed (flatten ps) SampleZipper_init) = (ps, [])
        /\ get (feed (flatten ps ++ [b]) SampleZipper_init) = (ps, [dangling_report b])).
Proof.
  cbn zeta. rewrite feed_init. unfold get. cbn [data dangling fst snd].
  split; [apply pair_up_length|].
  split; [intros k; apply pair_up_lookup|].
  split.
  - rewrite odd_one_parity. destruct (Nat.odd _); [|reflexivity].
    by destruct (last blocks).
  - intros ps b. rewrite !feed_init. cbn [data dangling].
    by rewrite pair_up_flatten, odd_one_flatten, pair_up_flatten_snoc, odd_one_flatten_snoc.
Qed.

(** C9.  Two sequences of blocks with the same texts at the same
    positions, whatever their labels, give the same number of pairs and
    the same texts in the same pairs. *)
Theorem C9_labels_do_not_pair (blocks1 blocks2 : list block) :
  List.map fst blocks1 = List.map fst blocks2 ->
  List.length (fst (get (feed blocks1 SampleZipper_init)))
  = List.length (fst (get (feed blocks2 SampleZipper_init)))
  /\ texts (fst (get (feed blocks1 SampleZipper_init)))
     = texts (fst (get (feed blocks2 SampleZipper_init))).
Proof.
  intros H. rewrite !feed_init. unfold get. cbn [data fst].
  rewrite !texts_pair_up, H. split; [|reflexivity].
  rewrite !pair_up_length.
  assert (Hl : List.length blocks1 = List.length blocks2).
  { apply (f_equal (@List.length _)) in H. by rewrite !List.length_map in H. }
  by rewrite Hl.
Qed.

Lemma C9_labels_do_not_pair_witness :
  List.length (fst (get (feed [(lit "3", lit "Sample Input 1"); (lit "5", lit "Sample Output 1");
                               (lit "7", lit "Sample Input 2")] SampleZipper_init)))
  = List.length (fst (get (feed [(lit "3", lit "Output"); (lit "5", lit "in");
                                 (lit "7", [])] SampleZipper_init)))
  /\ texts (fst (get (feed [(lit "3", lit "Sample Input 1"); (lit "5", lit "Sample Output 1");
                            (lit "7", lit "Sample Input 2")] SampleZipper_init)))
     = texts (fst (get (feed [(lit "3", lit "Output"); (lit "5", lit "in");
                              (lit "7", [])] SampleZipper_init))).
Proof.
  apply (C9_labels_do_not_pair
           [(lit "3", lit "Sample Input 1"); (lit "5", lit "Sample Output 1");
            (lit "7", lit "Sample Input 2")]
           [(lit "3", lit "Output"); (lit "5", lit "in"); (lit "7", [])]).
  reflexivity.
Defined.
End Pairing.

(** Unfolding the plumbing of [IO]. *)
Ltac io_unfold :=
  unfold session_request, call_credentials, raise_for_status, World.assert,
    new_session, get_cookies, set_cookies, emit_log, emit, lift, bind, ret, raise.

(** ** The download helper *)

Section Download.
Import utils Spec.
Context {E : environment}.

Lemma describe_status_code_200 : describe_status_code 200 = Ok (lit "200 OK").
Proof. reflexivity. Qed.

(** The run of [download] once the server has answered with [resp]. *)
Lemma download_answered target session st resp :
  http (download_asks target session st) (lit "GET") target [] true (session_jar session st)
  = Ok resp ->
  download target session st
  = let st1 := {| trace := download_asks target session st ++ [EvResponse resp];
                  sessions := <[session_ref session st :=
                                  jar_update (session_jar session st) (resp_cookies resp)]>
                                (match session with
                                 | Some _ => sessions st
                                 | None => <[next_session st := []]> (sessions st)
                                 end);
                  next_session := match session with
                                  | Some _ => next_session st
                                  | None => S (next_session st)
                                  end |} in
    match describe_status_code (status_code resp) with
    | Raise e => (Raise e, st1)
    | Ok d =>
        if (status_code resp =? 200)%Z then
          (Ok (content resp),
           {| trace := trace st1 ++ [EvLog (logger Info "success" d [])];
              sessions := sessions st1; next_session := next_session st1 |})
        else
          (Raise (HTTPError [] None),
           {| trace := trace st1 ++ [EvLog (logger Error "error" d [])];
              sessions := sessions st1; next_session := next_session st1 |})
    end.
Proof.
  intros H. unfold download, download_asks, session_ref, session_jar in *.
  destruct session as [s|]; io_unfold; cbn.
  - rewrite <- app_assoc. cbn. rewrite H. cbn.
    destruct (status_code resp =? 200)%Z; cbn;
      by destruct (describe_status_code (status_code resp)).
  - rewrite lookup_insert_eq. cbn. rewrite <- app_assoc. cbn. rewrite H. cbn.
    destruct (status_code resp =? 200)%Z; cbn;
      by destruct (describe_status_code (status_code resp)).
Qed.

Lemma describe_status_code_cases status :
  match responses_lookup status with
  | Some d => describe_status_code status = Ok (str_of_int status ++ lit " " ++ d)
  | None => describe_status_code status = Raise (KeyError (str_of_int status))
  end.
Proof. unfold describe_status_code. by destruct (responses_lookup status). Qed.

Lemma filter_error_snoc_info tr r :
  log_level r <> Error ->
  List.filter is_error_record (tr ++ [EvLog r]) = List.filter is_error_record tr.
Proof.
  intros H. rewrite List.filter_app. cbn. destruct (log_level r); try congruence;
    by rewrite app_nil_r.
Qed.

(** C4, as the code has it.  Once the server answers with a response:
    on status 200 [download] returns the content and logs no error; on any
    other status it raises and never returns.  When the status is listed
    in [http.client.responses] the text ["<code> <description>"] goes to
    the log at error level and the exception is a bare [HTTPError], which
    holds neither the code nor the description; when it is not listed the
    lookup itself raises [KeyError]. *)
Theorem C4_download_status target session st resp :
  http (download_asks target session st) (lit "GET") target [] true (session_jar session st)
  = Ok resp ->
  let out := download target session st in
  (status_code resp = 200%Z ->
     fst out = Ok (content resp)
     /\ List.filter is_error_record (trace (snd out)) = List.filter is_error_record (trace st))
  /\ (status_code resp <> 200%Z ->
        exists e, fst out = Raise e
          /\ (forall d, ~ carries e (status_code resp) d)
          /\ match responses_lookup (status_code resp) with
             | Some d =>
                 e = HTTPError [] None
                 /\ trace (snd out)
                    = download_asks target session st
                      ++ [EvResponse resp;
                          EvLog (logger Error "error"
                                   (str_of_int (status_code resp) ++ lit " " ++ d) [])]
             | None => e = KeyError (str_of_int (status_code resp))
             end).
Proof.
  intros H out. subst out. rewrite (download_answered _ _ _ _ H). cbn zeta.
  split.
  - intros H200. rewrite H200. cbn.
    split; [reflexivity|].
    rewrite filter_error_snoc_info by discriminate.
    unfold download_asks. rewrite !List.filter_app. cbn. by rewrite !app_nil_r.
  - intros Hne. apply Z.eqb_neq in Hne. rewrite Hne.
    pose proof (describe_status_code_cases (status_code resp)) as Hd.
    destruct (responses_lookup (status_code resp)) as [d|]; rewrite Hd; cbn.
    + eexists. split; [reflexivity|]. split; [|split; [reflexivity|]].
      * intros d' [Hs _]. discriminate Hs.
      * by rewrite <- app_assoc.
    + eexists. split; [reflexivity|]. split; [|reflexivity].
      intros d' [Hs _]. discriminate Hs.
Qed.
End Download.

Lemma C4_download_status_witness :
  (404%Z = 200%Z ->
     fst (@utils.download Fixtures.not_found_server (lit "http://example.com/") None Fixtures.st0)
     = Ok (lit "body")
     /\ List.filter Spec.is_error_record
          (trace (snd (@utils.download Fixtures.not_found_server (lit "http://example.com/")
                         None Fixtures.st0)))
        = [])
  /\ (404%Z <> 200%Z ->
        exists e,
          fst (@utils.download Fixtures.not_found_server (lit "http://example.com/") None
                 Fixtures.st0) = Raise e
          /\ (forall d, ~ Spec.carries e 404 d)
          /\ e = HTTPError [] None
          /\ trace (snd (@utils.download Fixtures.not_found_server (lit "http://example.com/")
                           None Fixtures.st0))
             = Spec.download_asks (lit "http://example.com/") None Fixtures.st0
               ++ [EvResponse (Fixtures.page 404 "http://example.com/");
                   EvLog (logger Error "error" (lit "404 Not Found") [])]).
Proof.
  exact (@C4_download_status Fixtures.not_found_server (lit "http://example.com/") None
           Fixtures.st0 (Fixtures.page 404 "http://example.com/") eq_refl).
Defined.

(** C4 as stated fails: on a 404 answer the exception [download] raises
    holds neither the status code nor its description. *)
Lemma C4_bare_error_counterexample :
  ~ (exists e,
       fst (@utils.download Fixtures.not_found_server (lit "http://example.com/") None
              Fixtures.st0) = Raise e
       /\ Spec.carries e 404 (lit "Not Found")).
Proof.
  intros [e [He [Hs _]]]. vm_compute in He. injection He as <-. discriminate Hs.
Qed.

(** ** The scoped session *)

Section Session.
Import utils Spec.
Context {E : environment} {L : library}.

Lemma session_exit_allowed path s st :
  release_allowed (trace st) path (cookies_of s st) ->
  session_exit path s st
  = (Ok tt, {| trace := trace st ++ release_events path (cookies_of s st);
               sessions := sessions st; next_session := next_session st |}).
Proof.
  unfold release_allowed, release_events, makedirs_events, session_exit, cookies_of.
  intros (Hmk & Hsave & Hch). io_unfold. cbn.
  destruct (posixpath.dirname path) as [|c d] eqn:Hd; cbn in *.
  - rewrite app_nil_r in Hsave, Hch. rewrite Hsave. cbn. rewrite Hch.
    by rewrite <- !app_assoc.
  - destruct Hmk as [Hmk|Hmk]; [discriminate|]. rewrite Hmk. cbn.
    rewrite Hsave. cbn. rewrite Hch. by rewrite <- !app_assoc.
Qed.

(** C2, as the code has it.  When the body returns, the release logs,
    creates the parent directories of a path that has a directory part,
    writes the cookies the session then holds to that path and sets the
    mode of the file to [0o600], in that order, provided the file system
    lets each call succeed.  When the body raises, the exception leaves
    the [with] block at once and the state is the one the body left:
    nothing is written. *)
Theorem C2_session_release {A} path (body : nat -> IO A) st s st1 :
  session_enter path st = (Ok s, st1) ->
  (forall a st2,
     body s st1 = (Ok a, st2) ->
     release_allowed (trace st2) path (cookies_of s st2) ->
     exists st3,
       session path body st = (Ok a, st3)
       /\ trace st3 = trace st2 ++ release_events path (cookies_of s st2))
  /\ (forall e st2,
        body s st1 = (Raise e, st2) ->
        session path body st = (Raise e, st2)).
Proof.
  intros Henter. split.
  - intros a st2 Hbody Hallowed. unfold session, bind. rewrite Henter, Hbody.
    rewrite (session_exit_allowed _ _ _ Hallowed). eexists. split; reflexivity.
  - intros e st2 Hbody. unfold session, bind. by rewrite Henter, Hbody.
Qed.
End Session.

Lemma C2_session_release_witness :
  (exists st3,
     @utils.session Fixtures.cookie_server Fixtures.plain_library unit
       (lit "cache/cookie.jar") (@Fixtures.visiting_body Fixtures.cookie_server) Fixtures.st0
     = (Ok tt, st3)
     /\ trace st3
        = trace Fixtures.visited
          ++ @Spec.release_events Fixtures.plain_library (lit "cache/cookie.jar")
               [{| cookie_name := lit "token"; cookie_value := lit "abc" |}])
  /\ @utils.session Fixtures.cookie_server Fixtures.plain_library unit
       (lit "cache/cookie.jar") (@Fixtures.failing_body Fixtures.cookie_server) Fixtures.st0
     = (Raise RuntimeError, Fixtures.visited).
Proof.
  split.
  - apply (proj1 (@C2_session_release Fixtures.cookie_server Fixtures.plain_library unit
                    (lit "cache/cookie.jar") (@Fixtures.visiting_body Fixtures.cookie_server)
                    Fixtures.st0 0%nat _ eq_refl) tt Fixtures.visited).
    + reflexivity.
    + repeat split; try right; reflexivity.
  - apply (proj2 (@C2_session_release Fixtures.cookie_server Fixtures.plain_library unit
                    (lit "cache/cookie.jar") (@Fixtures.failing_body Fixtures.cookie_server)
                    Fixtures.st0 0%nat _ eq_refl) RuntimeError Fixtures.visited).
    reflexivity.
Defined.

(** C2 as stated fails: a body that receives a cookie and then raises
    leaves the [with] block with its exception, and no directory is made,
    no cookie file written and no mode set. *)
Lemma C2_error_path_counterexample :
  fst (@utils.session Fixtures.cookie_server Fixtures.plain_library unit
         (lit "cache/cookie.jar") (@Fixtures.failing_body Fixtures.cookie_server) Fixtures.st0)
  = Raise RuntimeError
  /\ Spec.cookies_of 0
       (snd (@utils.session Fixtures.cookie_server Fixtures.plain_library unit
               (lit "cache/cookie.jar") (@Fixtures.failing_body Fixtures.cookie_server)
               Fixtures.st0))
     = [{| cookie_name := lit "token"; cookie_value := lit "abc" |}]
  /\ List.filter Spec.is_file_write
       (trace (snd (@utils.session Fixtures.cookie_server Fixtures.plain_library unit
                      (lit "cache/cookie.jar") (@Fixtures.failing_body Fixtures.cookie_server)
                      Fixtures.st0)))
     = [].
Proof. vm_compute. repeat split; reflexivity. Qed.

(** ** The form helper *)

Section Form.
Import utils Spec.
Context {U : unicode} {E : environment} {L : library}.

Lemma prefilled_field_of input k v : prefilled input k v <-> field_of input = Some (k, v).
Proof.
  unfold prefilled, field_of. split.
  - intros (-> & Hk & -> & Hv). destruct k; [done|]. destruct v; done.
  - destruct (bs4.attr input (lit "name")) as [[|c k']|]; try discriminate.
    destruct (bs4.attr input (lit "value")) as [[|d v']|]; try discriminate.
    intros [= <- <-]. done.
Qed.

Lemma take_input_tag nm ats cs pl :
  take_input (Tag nm ats cs) pl
  = Ok match field_of (Tag nm ats cs) with
       | Some (k, v) => <[k := v]> pl
       | None => pl
       end.
Proof.
  unfold take_input, field_of. cbn.
  destruct (ats !! lit "name") as [[|c k]|]; try reflexivity.
  destruct (ats !! lit "value") as [[|d v]|]; reflexivity.
Qed.

Lemma init_inputs_tags inputs pl st :
  Forall (fun i => bs4.is_tag i = true) inputs ->
  exists st',
    init_inputs inputs pl st = (Ok (fold_left take_field inputs pl), st')
    /\ sessions st' = sessions st.
Proof.
  intros H. revert pl st. induction H as [|i inputs Hi _ IH]; intros pl st.
  - eexists. split; reflexivity.
  - destruct i as [nm ats cs|]; [|discriminate].
    cbn [init_inputs fold_left]. io_unfold. rewrite take_input_tag.
    edestruct IH as (st' & -> & Hs). eexists. split; [reflexivity|]. by rewrite Hs.
Qed.

Lemma fold_take_field_lookup inputs pl k v :
  fold_left take_field inputs pl !! k = Some v
  <-> last_prefilled inputs k v
      \/ (pl !! k = Some v /\ forall j w, In j inputs -> ~ prefilled j k w).
Proof.
  revert pl. induction inputs as [|i rest IH]; intros pl.
  - cbn. split.
    + intros H. right. split; [done|]. intros j w [].
    + intros [(before & input & after & Heq & _)|[H _]]; [|done].
      by destruct before.
  - cbn [fold_left]. rewrite IH. unfold take_field. split.
    + intros [(before & input & after & -> & Hp & Hafter)|[Hl Hnone]].
      * left. exists (i :: before), input, after. done.
      * destruct (field_of i) as [[k' v']|] eqn:Hf.
        -- destruct (decide (k' = k)) as [->|Hne].
           ++ rewrite lookup_insert_eq in Hl. injection Hl as ->.
              left. exists [], i, rest. split; [done|].
              split; [by apply prefilled_field_of|done].
           ++ rewrite lookup_insert_ne in Hl by done. right. split; [done|].
              intros j w [<-|Hj]; [|by apply Hnone].
              intros Hp%prefilled_field_of. congruence.
        -- right. split; [done|]. intros j w [<-|Hj]; [|by apply Hnone].
           intros Hp%prefilled_field_of. congruence.
    + intros [(before & input & after & Heq & Hp & Hafter)|[Hl Hnone]].
      * destruct before as [|b before]; cbn in Heq; injection Heq as <- ->.
        -- right. apply prefilled_field_of in Hp. rewrite Hp.
           by rewrite lookup_insert_eq.
        -- left. by exists before, input, after.
      * right. split; [|intros j w Hj; apply Hnone; by right].
        destruct (field_of i) as [[k' v']|] eqn:Hf; [|done].
        rewrite lookup_insert_ne; [done|]. intros ->.
        apply (Hnone i v'); [by left|]. by apply prefilled_field_of.
Qed.

Lemma find_all_tags_only n nm : Forall (fun i => bs4.is_tag i = true) (bs4.find_all n nm).
Proof.
  unfold bs4.find_all. apply List.Forall_forall. intros i [_ Hi]%List.filter_In.
  by destruct i.
Qed.

(** C8.  Constructing a [FormSender] from a [form] tag succeeds, and its
    field map binds a name [k] to [v] exactly when some [input] below the
    form has the non-empty name [k] and the non-empty value [v], the last
    such input giving the value when several share the name; a name no
    input carries together with a non-empty value is absent from the
    map. *)
Theorem C8_form_fields fm u st :
  bs4.has_name (lit "form") fm = true ->
  exists sender st',
    FormSender_init fm u st = (Ok sender, st')
    /\ form sender = fm /\ form_url sender = u
    /\ (forall k v,
          payload sender !! k = Some v
          <-> last_prefilled (bs4.find_all fm (lit "input")) k v)
    /\ (forall k,
          payload sender !! k = None
          <-> forall input v, In input (bs4.find_all fm (lit "input")) ->
                              ~ prefilled input k v).
Proof.
  intros Hform. unfold FormSender_init.
  assert (Htag : bs4.is_tag fm = true) by (by destruct fm).
  rewrite Htag, Hform. io_unfold. cbn [fst snd].
  destruct (init_inputs_tags (bs4.find_all fm (lit "input")) ∅ st
              (find_all_tags_only _ _)) as (st' & Hrun & _).
  unfold World.assert, ret, bind in *.
  rewrite Hrun. eexists _, st'. split; [reflexivity|]. cbn [form form_url payload].
  split; [done|]. split; [done|].
  assert (Hchar : forall k v,
            fold_left take_field (bs4.find_all fm (lit "input")) ∅ !! k = Some v
            <-> last_prefilled (bs4.find_all fm (lit "input")) k v).
  { intros k v. rewrite fold_take_field_lookup. split; [|by left].
    intros [H|[H _]]; [done|]. by rewrite lookup_empty in H. }
  split; [exact Hchar|].
  intros k. split.
  - intros Hnone input v Hin Hp.
    apply List.in_split in Hin as (before & after & Heq).
    assert (Hex : exists w, last_prefilled (bs4.find_all fm (lit "input")) k w).
    { rewrite Heq. clear Heq Hchar Hnone. revert input v Hp before.
      induction after as [|a after IH] using rev_ind; intros input v Hp before.
      - exists v, before, input, []. done.
      - destruct (field_of a) as [[k' v']|] eqn:Hf.
        + destruct (decide (k' = k)) as [->|Hne].
          * exists v', (before ++ input :: after), a, [].
            split; [by rewrite <- app_assoc|]. split; [by apply prefilled_field_of|done].
          * destruct (IH input v Hp before) as (w & b' & i' & a' & Heq & Hp' & Hafter).
            exists w, b', i', (a' ++ [a]). split.
            { rewrite app_comm_cons, app_assoc, Heq. by rewrite <- app_assoc. }
            split; [done|]. intros j w' [Hj|[<-|[]]]%List.in_app_or; [by apply Hafter|].
            intros Hq%prefilled_field_of. congruence.
        + destruct (IH input v Hp before) as (w & b' & i' & a' & Heq & Hp' & Hafter).
          exists w, b', i', (a' ++ [a]). split.
          { rewrite app_comm_cons, app_assoc, Heq. by rewrite <- app_assoc. }
          split; [done|]. intros j w' [Hj|[<-|[]]]%List.in_app_or; [by apply Hafter|].
          intros Hq%prefilled_field_of. congruence. }
    destruct Hex as (w & Hw). apply Hchar in Hw. congruence.
  - intros Hnone. destruct (_ !! k) as [v|] eqn:Hl; [|done].
    apply Hchar in Hl as (before & input & after & Heq & Hp & _).
    exfalso. apply (Hnone input v); [|done]. rewrite Heq. apply List.in_elt.
Qed.
End Form.

Lemma C8_form_fields_witness :
  exists sender st',
    @utils.FormSender_init Fixtures.plain_library Fixtures.login_form
      (lit "https://example.com/login") Fixtures.st0 = (Ok sender, st')
    /\ utils.form sender = Fixtures.login_form
    /\ utils.form_url sender = lit "https://example.com/login"
    /\ (forall k v,
          utils.payload sender !! k = Some v
          <-> Spec.last_prefilled (bs4.find_all Fixtures.login_form (lit "input")) k v)
    /\ (forall k,
          utils.payload sender !! k = None
          <-> forall input v, In input (bs4.find_all Fixtures.login_form (lit "input")) ->
                              ~ Spec.prefilled input k v).
Proof.
  apply (@C8_form_fields Fixtures.plain_library Fixtures.login_form
           (lit "https://example.com/login") Fixtures.st0).
  reflexivity.
Defined.

(** ** Computations that leave the credentials provider alone *)

Section Quiet.
Import Spec.
Context {U : unicode} {E : environment} {L : library}.

Lemma credential_calls_app tr tr' :
  credential_calls (tr ++ tr') = (credential_calls tr + credential_calls tr')%nat.
Proof. unfold credential_calls. by rewrite List.filter_app, List.length_app. Qed.

Lemma quiet_ret {A} (a : A) : quiet (ret a).
Proof. by intros st. Qed.

Lemma quiet_raise {A} e : quiet (@raise A e).
Proof. by intros st. Qed.

Lemma quiet_lift {A} (r : result A) : quiet (lift r).
Proof. by intros st. Qed.

Lemma quiet_bind {A B} (m : IO A) (k : A -> IO B) :
  quiet m -> (forall a, quiet (k a)) -> quiet (bind m k).
Proof.
  intros Hm Hk st. unfold bind. specialize (Hm st).
  destruct (m st) as [[a|e] st']; cbn in *; [|done].
  by rewrite Hk.
Qed.

Lemma quiet_emit e : is_credentials e = false -> quiet (emit e).
Proof.
  intros He st. unfold emit. cbn [snd trace]. rewrite credential_calls_app.
  unfold credential_calls at 2. cbn. rewrite He. cbn. lia.
Qed.

Lemma quiet_emit_log r : quiet (emit_log r).
Proof. by apply quiet_emit. Qed.

Lemma quiet_emit_logs rs : quiet (emit_logs rs).
Proof.
  induction rs as [|r rs IH]; [apply quiet_ret|].
  apply quiet_bind; [apply quiet_emit_log | by intros _].
Qed.

Lemma quiet_assert c : quiet (World.assert c).
Proof. destruct c; [apply quiet_ret | apply quiet_raise]. Qed.

Lemma quiet_new_session : quiet new_session.
Proof. by intros st. Qed.

Lemma quiet_get_cookies s : quiet (get_cookies s).
Proof. by intros st. Qed.

Lemma quiet_session_request s method target data redirects :
  quiet (session_request s method target data redirects).
Proof.
  unfold session_request. apply quiet_bind; [apply quiet_get_cookies|]. intros jar.
  apply quiet_bind; [by apply quiet_emit|]. intros _.
  apply quiet_bind; [by intros st|]. intros resp.
  apply quiet_bind; [by apply quiet_emit|]. intros _.
  apply quiet_bind; [by intros st|]. intros _. apply quiet_ret.
Qed.

Lemma quiet_raise_for_status r : quiet (raise_for_status r).
Proof. unfold raise_for_status. destruct (_ && _); [apply quiet_raise | apply quiet_ret]. Qed.

Lemma quiet_utils_request method target s data redirects :
  quiet (atcoder.utils_request method target s data redirects).
Proof.
  unfold atcoder.utils_request. apply quiet_bind; [apply quiet_emit_log|]. intros _.
  apply quiet_bind; [apply quiet_session_request|]. intros resp.
  destruct (_ =? _)%Z; (apply quiet_bind; [apply quiet_emit_log|]; intros _);
    [apply quiet_ret | apply quiet_raise].
Qed.

Lemma quiet_request method target s data redirects :
  quiet (atcoder._request method target s data redirects).
Proof.
  unfold atcoder._request. apply quiet_bind; [apply quiet_utils_request|]. intros resp.
  apply quiet_bind; [apply quiet_emit_log|]. intros _. apply quiet_ret.
Qed.

Lemma quiet_message_tags cookies : quiet (atcoder.message_tags cookies).
Proof.
  induction cookies as [|c more IH]; [apply quiet_ret|]. cbn [atcoder.message_tags].
  apply quiet_bind; [apply quiet_emit_log|]. intros _.
  destruct (startswith _ _); [|exact IH].
  apply quiet_bind; [apply quiet_lift|]. intros tag.
  apply quiet_bind; [apply quiet_emit_log|]. intros _.
  apply quiet_bind; [exact IH|]. intros tags. apply quiet_ret.
Qed.

Lemma quiet_message_texts tags : quiet (atcoder.message_texts tags).
Proof.
  induction tags as [|t more IH]; [apply quiet_ret|]. cbn [atcoder.message_texts].
  destruct (List.find _ _).
  - apply quiet_bind; [exact IH|]. intros msgs. apply quiet_ret.
  - apply quiet_bind; [apply quiet_emit_log|]. by intros _.
Qed.

Lemma quiet_get_messages cookies : quiet (atcoder._get_messages_from_cookie cookies).
Proof.
  unfold atcoder._get_messages_from_cookie.
  apply quiet_bind; [apply quiet_message_tags|]. intros tags. apply quiet_message_texts.
Qed.

(** The outcome of a computation that only logs does not depend on the
    state it starts from. *)
Lemma message_tags_result cookies st st' :
  fst (atcoder.message_tags cookies st) = fst (atcoder.message_tags cookies st').
Proof.
  revert st st'. induction cookies as [|c more IH]; intros st st'; [reflexivity|].
  cbn [atcoder.message_tags]. io_unfold. cbn [fst snd].
  destruct (startswith _ _); [|apply IH].
  destruct (json_message _) as [tag|e]; [|reflexivity].
  match goal with
  | |- fst (match atcoder.message_tags more ?a with _ => _ end)
       = fst (match atcoder.message_tags more ?b with _ => _ end) =>
      specialize (IH a b);
      destruct (atcoder.message_tags more a) as [[x|x] ?],
               (atcoder.message_tags more b) as [[y|y] ?]
  end; cbn in *; congruence.
Qed.

Lemma message_texts_result tags st st' :
  fst (atcoder.message_texts tags st) = fst (atcoder.message_texts tags st').
Proof.
  revert st st'. induction tags as [|t more IH]; intros st st'; [reflexivity|].
  cbn [atcoder.message_texts]. io_unfold.
  destruct (List.find _ _); [|apply IH].
  specialize (IH st st').
  destruct (atcoder.message_texts more st) as [[x|x] ?],
           (atcoder.message_texts more st') as [[y|y] ?]; cbn in *; congruence.
Qed.

Lemma get_messages_result cookies st :
  fst (atcoder._get_messages_from_cookie cookies st) = messages_of cookies.
Proof.
  unfold messages_of, atcoder._get_messages_from_cookie, bind.
  pose proof (message_tags_result cookies st empty_state) as Ht.
  destruct (atcoder.message_tags cookies st) as [[x|x] s1],
           (atcoder.message_tags cookies empty_state) as [[y|y] s2];
    cbn in Ht |- *; try congruence.
  injection Ht as ->. apply message_texts_result.
Qed.

Lemma quiet_report_messages msgs unexpected : quiet (atcoder._report_messages msgs unexpected).
Proof.
  unfold atcoder._report_messages.
  apply quiet_bind; [apply quiet_emit_logs|]. intros _.
  apply quiet_bind; [|intros _; apply quiet_ret].
  destruct msgs; [apply quiet_ret|]. destruct unexpected; [apply quiet_emit_log | apply quiet_ret].
Qed.
End Quiet.

(** ** Logging in *)

Section Login.
Import Spec.
Context {U : unicode} {E : environment} {L : library}.

(** [_request] once the server has answered 200. *)
Lemma request_answered method target s data redirects st resp :
  http (trace st ++ [EvLog (log Status (lit "%s: %s") [method; target]);
                     EvRequest s method target data redirects])
       method target data redirects (cookies_of s st) = Ok resp ->
  status_code resp = 200%Z ->
  exists st',
    atcoder._request method target s data redirects st = (Ok resp, st')
    /\ credential_calls (trace st') = credential_calls (trace st).
Proof.
  intros H H200.
  pose proof (quiet_request method target s data redirects st) as Hq.
  unfold atcoder._request, atcoder.utils_request in *. unfold cookies_of in H.
  revert Hq. io_unfold. cbn [fst snd trace sessions next_session].
  rewrite <- app_assoc. cbn [app]. rewrite H, H200. cbn. intros Hq.
  eexists. split; [reflexivity|]. exact Hq.
Qed.

Lemma credential_calls_logs tr (evs : list event) :
  Forall (fun e => is_credentials e = false) evs ->
  credential_calls (tr ++ evs) = credential_calls tr.
Proof.
  intros H. rewrite credential_calls_app. unfold credential_calls at 2.
  induction H as [|e evs He _ IH]; cbn; [lia|]. rewrite He. exact IH.
Qed.

(** The probe of [AtCoderService.login] once the server has answered
    200. *)
Lemma atcoder_probe_answered session st resp :
  http (atcoder_probe_asks session st) (lit "GET") atcoder.login_url [] false
       (session_jar session st) = Ok resp ->
  status_code resp = 200%Z ->
  exists st0 st1,
    atcoder.session_or_default session st = (Ok (session_ref session st), st0)
    /\ atcoder._request (lit "GET") atcoder.login_url (session_ref session st)
         [] false st0 = (Ok resp, st1)
    /\ credential_calls (trace st1) = credential_calls (trace st).
Proof.
  intros H H200. unfold atcoder_probe_asks, session_ref, session_jar in *.
  destruct session as [s|]; cbn [atcoder.session_or_default].
  - destruct (request_answered (lit "GET") atcoder.login_url s [] false st resp H H200)
      as (st1 & Hr & Hc).
    by exists st, st1.
  - unfold atcoder.new_default_session, new_session, ret.
    edestruct (request_answered (lit "GET") atcoder.login_url (next_session st) [] false
                 {| trace := trace st;
                    sessions := <[next_session st := []]> (sessions st);
                    next_session := S (next_session st) |} resp) as (st1 & Hr & Hc).
    + unfold cookies_of. cbn [trace sessions]. rewrite lookup_insert_eq. exact H.
    + exact H200.
    + eexists _, st1. split; [reflexivity|]. split; [exact Hr | exact Hc].
Qed.

(** C6.  When the probe of a login shows that the user is logged in
    already, the login returns and the credentials provider is not
    invoked.  AtCoder: the GET of the login page succeeds and at least one
    message is read from the cookies of the answer.  What counts is the
    list of messages read, not the cookies: when no message is read from
    the answer, as from a message cookie whose markup holds no text, the
    credentials provider is invoked, once.  Yukicoder: the answer
    to the GET of the GitHub authorisation comes from the host
    [yukicoder.me]; the login returns [True] when that answer has a
    status that is not an error. *)
Theorem C6_already_logged_in_never_prompts :
  (forall (self : atcoder.AtCoderService) session st resp m ms,
     http (atcoder_probe_asks session st) (lit "GET") atcoder.login_url [] false
          (session_jar session st) = Ok resp ->
     status_code resp = 200%Z ->
     messages_of (resp_cookies resp) = Ok (m :: ms) ->
     fst (atcoder.login self session st) = Ok (negb (contains (url resp) (lit "login")))
     /\ credential_calls (trace (snd (atcoder.login self session st)))
        = credential_calls (trace st))
  /\ (forall (self : atcoder.AtCoderService) session st resp,
        http (atcoder_probe_asks session st) (lit "GET") atcoder.login_url [] false
             (session_jar session st) = Ok resp ->
        status_code resp = 200%Z ->
        messages_of (resp_cookies resp) = Ok [] ->
        credential_calls (trace (snd (atcoder.login self session st)))
        = S (credential_calls (trace st)))
  /\ (forall (self : yukicoder.Yukicoder) s st resp,
        http (yukicoder_probe_asks s st) (lit "GET") (lit "https://yukicoder.me/auth/github")
             [] true (cookies_of s st) = Ok resp ->
        yukicoder.on_yukicoder resp = Ok true ->
        credential_calls (trace (snd (yukicoder.login_with_github self (Some s) st)))
        = credential_calls (trace st)
        /\ (is_Ok (utils.describe_status_code (status_code resp)) = true ->
            ((400 <=? status_code resp) && (status_code resp <? 600))%Z = false ->
            fst (yukicoder.login_with_github self (Some s) st) = Ok true)).
Proof.
  split; [|split].
  - intros self session st resp m ms H H200 Hmsgs.
    assert (Hrun : exists st3,
               atcoder.login self session st
               = (Ok (negb (contains (url resp) (lit "login"))), st3)
               /\ credential_calls (trace st3) = credential_calls (trace st)).
    2: { destruct Hrun as (st3 & -> & Hc). by split. }
    unfold atcoder.login. unfold bind at 1.
    destruct (atcoder_probe_answered session st resp H H200) as (st0 & st1 & -> & Hr & Hc).
    unfold bind at 1. rewrite Hr. unfold bind at 1.
    pose proof (get_messages_result (resp_cookies resp) st1) as Hres.
    pose proof (quiet_get_messages (resp_cookies resp) st1) as Hq.
    destruct (atcoder._get_messages_from_cookie (resp_cookies resp) st1) as [r st2].
    cbn [fst snd] in Hres, Hq. rewrite Hres, Hmsgs.
    unfold bind at 1.
    pose proof (quiet_emit_logs
                  (List.map (fun m0 => log Status (lit "message: %s") [m0]) (m :: ms)) st2) as Hq2.
    destruct (emit_logs _ st2) as [[[]|e] st3] eqn:Hlogs.
    + cbn [fst snd ret] in *. exists st3. split; [reflexivity|]. congruence.
    + exfalso. clear -Hlogs.
      assert (Hok : forall rs st, is_Ok (fst (emit_logs rs st)) = true).
      { clear. induction rs as [|r rs IH]; intros st; [reflexivity|].
        cbn [emit_logs]. io_unfold. apply IH. }
      specialize (Hok (List.map (fun m0 => log Status (lit "message: %s") [m0]) (m :: ms)) st2).
      by rewrite Hlogs in Hok.
  - intros self session st resp H H200 Hmsgs.
    unfold atcoder.login. unfold bind at 1.
    destruct (atcoder_probe_answered session st resp H H200) as (st0 & st1 & -> & Hr & Hc).
    unfold bind at 1. rewrite Hr. unfold bind at 1.
    pose proof (get_messages_result (resp_cookies resp) st1) as Hres.
    pose proof (quiet_get_messages (resp_cookies resp) st1) as Hq.
    destruct (atcoder._get_messages_from_cookie (resp_cookies resp) st1) as [r st2].
    cbn [fst snd] in Hres, Hq. rewrite Hres, Hmsgs.
    cbn [List.map emit_logs]. unfold bind at 1, ret at 1.
    unfold bind at 1, call_credentials. unfold bind at 1, emit at 1.
    set (st2' := {| trace := trace st2 ++ [EvCredentials];
                    sessions := sessions st2; next_session := next_session st2 |}).
    assert (Hc' : credential_calls (trace st2') = S (credential_calls (trace st))).
    { subst st2'. cbn [trace]. rewrite credential_calls_app, Hq, Hc. cbn. lia. }
    destruct (credentials (trace st2')) as [up|e]; [|exact Hc'].
    rewrite <- Hc'. apply quiet_bind; [apply quiet_request|]. intros resp'.
    apply quiet_bind; [apply quiet_get_messages|]. intros msgs.
    apply quiet_bind; [apply quiet_report_messages|]. intros _. apply quiet_ret.
  - intros self s st resp H Hhost.
    unfold yukicoder.login_with_github, yukicoder.session_get, yukicoder_probe_asks,
      cookies_of in *.
    io_unfold. cbn [fst snd trace sessions next_session].
    rewrite <- app_assoc. cbn [app]. rewrite H. cbn [fst snd trace sessions next_session].
    destruct (utils.describe_status_code (status_code resp)) as [d|e] eqn:Hd.
    + cbn [fst snd trace sessions next_session].
      destruct ((400 <=? status_code resp) && (status_code resp <? 600))%Z eqn:Hst.
      * cbn [fst snd trace]. split; [|discriminate].
        rewrite <- !app_assoc. apply credential_calls_logs. cbn. by repeat constructor.
      * cbn [fst snd trace]. rewrite Hhost. cbn [fst snd trace]. split; [|reflexivity].
        rewrite <- !app_assoc. apply credential_calls_logs. cbn. by repeat constructor.
    + cbn [fst snd trace]. split; [|discriminate].
      rewrite <- !app_assoc. apply credential_calls_logs. cbn. by repeat constructor.
Qed.
End Login.

Lemma C6_already_logged_in_never_prompts_witness :
  (fst (@atcoder.login Fixtures.plain_unicode Fixtures.atcoder_logged_in
          Fixtures.message_library atcoder.TheAtCoderService None Fixtures.st0)
   = Ok false
   /\ Spec.credential_calls
        (trace (snd (@atcoder.login Fixtures.plain_unicode Fixtures.atcoder_logged_in
                       Fixtures.message_library atcoder.TheAtCoderService None Fixtures.st0)))
      = 0%nat)
  /\ Spec.credential_calls
       (trace (snd (@atcoder.login Fixtures.plain_unicode Fixtures.atcoder_signing_in
                      Fixtures.plain_library atcoder.TheAtCoderService None Fixtures.st0)))
     = 1%nat
  /\ (Spec.credential_calls
        (trace (snd (@yukicoder.login_with_github Fixtures.plain_unicode
                       Fixtures.yukicoder_logged_in Fixtures.plain_library
                       Fixtures.problem_9 (Some 0%nat) Fixtures.st0)))
      = 0%nat
      /\ fst (@yukicoder.login_with_github Fixtures.plain_unicode
                Fixtures.yukicoder_logged_in Fixtures.plain_library
                Fixtures.problem_9 (Some 0%nat) Fixtures.st0)
         = Ok true).
Proof.
  split; [|split].
  - exact (proj1 (@C6_already_logged_in_never_prompts Fixtures.plain_unicode
                    Fixtures.atcoder_logged_in Fixtures.message_library)
             atcoder.TheAtCoderService None Fixtures.st0 Fixtures.message_response
             (lit "You are logged in.") [] eq_refl eq_refl eq_refl).
  - exact (proj1 (proj2 (@C6_already_logged_in_never_prompts Fixtures.plain_unicode
                           Fixtures.atcoder_signing_in Fixtures.plain_library))
             atcoder.TheAtCoderService None Fixtures.st0
             (Fixtures.page 200 "https://practice.contest.atcoder.jp/login")
             eq_refl eq_refl eq_refl).
  - pose proof (proj2 (proj2 (@C6_already_logged_in_never_prompts Fixtures.plain_unicode
                                Fixtures.yukicoder_logged_in Fixtures.plain_library))
                  Fixtures.problem_9 0%nat Fixtures.st0
                  (Fixtures.page 200 "https://yukicoder.me/") eq_refl eq_refl) as [Hq Hr].
    split; [exact Hq | exact (Hr eq_refl eq_refl)].
Defined.

(** C6 as stated fails: the answer to the probe carries a message cookie,
    but its markup, one empty [div], holds no text; no message is read,
    the test [if msgs] is false and [login] goes on to ask for the
    credentials. *)
Lemma C6_message_without_text_counterexample :
  @http Fixtures.atcoder_wordless_message (Spec.atcoder_probe_asks None Fixtures.st0)
    (lit "GET") atcoder.login_url [] false (Spec.session_jar None Fixtures.st0)
  = Ok Fixtures.wordless_message_response
  /\ List.map cookie_name (resp_cookies Fixtures.wordless_message_response)
     = [lit "__message_1"]
  /\ @Spec.messages_of Fixtures.wordless_message_library Fixtures.plain_unicode
       (resp_cookies Fixtures.wordless_message_response)
     = Ok []
  /\ Spec.credential_calls
       (trace (snd (@atcoder.login Fixtures.plain_unicode Fixtures.atcoder_wordless_message
                      Fixtures.wordless_message_library atcoder.TheAtCoderService None
                      Fixtures.st0)))
     = 1%nat.
Proof. vm_compute. repeat split; reflexivity. Qed.

(** ** Submitting *)

Section Submit.
Import Spec.
Context {U : unicode} {E : environment} {L : library}.

Lemma bind_Ok_inv {A B} (m : IO A) (k : A -> IO B) st b st' :
  bind m k st = (Ok b, st') ->
  exists a st1, m st = (Ok a, st1) /\ k a st1 = (Ok b, st').
Proof.
  unfold bind. destruct (m st) as [[a|e] st1]; [|discriminate].
  intros H. by exists a, st1.
Qed.

Lemma last_response_app_logs tr evs :
  forallb is_log evs = true -> last_response (tr ++ evs) = last_response tr.
Proof.
  intros H. induction tr as [|e tr IH]; cbn.
  - induction evs as [|x evs IH]; [reflexivity|]. cbn in *.
    apply andb_prop in H as [Hx H]. rewrite (IH H). by destruct x.
  - by rewrite IH.
Qed.

Lemma last_posted_app_logs tr evs :
  forallb is_log evs = true -> last_posted (tr ++ evs) = last_posted tr.
Proof.
  intros H. induction tr as [|e tr IH]; cbn.
  - induction evs as [|x evs IH]; [reflexivity|]. cbn in *.
    apply andb_prop in H as [Hx H]. rewrite (IH H). by destruct x.
  - by rewrite IH.
Qed.

Lemma last_response_snoc tr r : last_response (tr ++ [EvResponse r]) = Some r.
Proof. induction tr as [|e tr IH]; cbn; [reflexivity|]. by rewrite IH. Qed.

Lemma last_posted_exchange tr s m t d a r :
  last_posted (tr ++ [EvRequest s m t d a; EvResponse r]) = Some d.
Proof. induction tr as [|e tr IH]; cbn; [reflexivity|]. by rewrite IH. Qed.

Lemma logs_only_ret {A} (a : A) : logs_only (ret a).
Proof. intros st. exists []. by rewrite app_nil_r. Qed.

Lemma logs_only_raise {A} e : logs_only (@raise A e).
Proof. intros st. exists []. by rewrite app_nil_r. Qed.

Lemma logs_only_lift {A} (r : result A) : logs_only (lift r).
Proof. intros st. exists []. by rewrite app_nil_r. Qed.

Lemma logs_only_emit_log r : logs_only (emit_log r).
Proof. intros st. by exists [EvLog r]. Qed.

Lemma logs_only_bind {A B} (m : IO A) (k : A -> IO B) :
  logs_only m -> (forall a, logs_only (k a)) -> logs_only (bind m k).
Proof.
  intros Hm Hk st. unfold bind. destruct (Hm st) as (evs & Ht & Hl).
  destruct (m st) as [[a|e] st1]; cbn [snd] in *.
  - destruct (Hk a st1) as (evs' & Ht' & Hl'). exists (evs ++ evs').
    rewrite Ht', Ht, <- app_assoc. split; [done|]. by rewrite forallb_app, Hl, Hl'.
  - by exists evs.
Qed.

Lemma logs_only_emit_logs rs : logs_only (emit_logs rs).
Proof.
  induction rs as [|r rs IH]; [apply logs_only_ret|].
  apply logs_only_bind; [apply logs_only_emit_log | by intros _].
Qed.

Lemma logs_only_raise_for_status r : logs_only (raise_for_status r).
Proof.
  unfold raise_for_status. destruct (_ && _); [apply logs_only_raise | apply logs_only_ret].
Qed.

Lemma logs_only_message_tags cookies : logs_only (atcoder.message_tags cookies).
Proof.
  induction cookies as [|c more IH]; [apply logs_only_ret|]. cbn [atcoder.message_tags].
  apply logs_only_bind; [apply logs_only_emit_log|]. intros _.
  destruct (startswith _ _); [|exact IH].
  apply logs_only_bind; [apply logs_only_lift|]. intros tag.
  apply logs_only_bind; [apply logs_only_emit_log|]. intros _.
  apply logs_only_bind; [exact IH|]. intros tags. apply logs_only_ret.
Qed.

Lemma logs_only_message_texts tags : logs_only (atcoder.message_texts tags).
Proof.
  induction tags as [|t more IH]; [apply logs_only_ret|]. cbn [atcoder.message_texts].
  destruct (List.find _ _).
  - apply logs_only_bind; [exact IH|]. intros msgs. apply logs_only_ret.
  - apply logs_only_bind; [apply logs_only_emit_log|]. by intros _.
Qed.

Lemma logs_only_get_messages cookies : logs_only (atcoder._get_messages_from_cookie cookies).
Proof.
  unfold atcoder._get_messages_from_cookie.
  apply logs_only_bind; [apply logs_only_message_tags|]. intros tags.
  apply logs_only_message_texts.
Qed.

Lemma logs_only_report_messages msgs unexpected :
  logs_only (atcoder._report_messages msgs unexpected).
Proof.
  unfold atcoder._report_messages.
  apply logs_only_bind; [apply logs_only_emit_logs|]. intros _.
  apply logs_only_bind; [|intros _; apply logs_only_ret].
  destruct msgs; [apply logs_only_ret|].
  destruct unexpected; [apply logs_only_emit_log | apply logs_only_ret].
Qed.

Lemma logs_only_atcoder_result self resp : logs_only (atcoder.submit_result self resp).
Proof.
  unfold atcoder.submit_result.
  apply logs_only_bind; [apply logs_only_get_messages|]. intros msgs.
  apply logs_only_bind; [apply logs_only_report_messages|]. intros _.
  destruct (contains _ _).
  - apply logs_only_bind; [apply logs_only_emit_log|]. intros _. apply logs_only_ret.
  - apply logs_only_bind; [apply logs_only_emit_log|]. intros _.
    apply logs_only_bind; [apply logs_only_emit_log|]. intros _. apply logs_only_raise.
Qed.

Lemma logs_only_yukicoder_result resp : logs_only (yukicoder.submit_result resp).
Proof.
  unfold yukicoder.submit_result.
  destruct (re.match_ _ _);
    (apply logs_only_bind; [apply logs_only_emit_log|]; intros _; apply logs_only_ret).
Qed.

(** A request that was answered leaves the exchange at the end of the
    trace. *)
Lemma session_request_Ok_inv s method target data redirects st resp st' :
  session_request s method target data redirects st = (Ok resp, st') ->
  trace st' = trace st ++ [EvRequest s method target data redirects; EvResponse resp].
Proof.
  unfold session_request. io_unfold. cbn [fst snd trace].
  destruct (http _ _ _ _ _ _) as [r|e]; [|discriminate].
  cbn [fst snd trace]. intros [= <- <-]. cbn [trace]. by rewrite <- app_assoc.
Qed.

(** A form that was sent and answered: the posted fields are those of
    the payload, and the answer is the last response. *)
Lemma form_request_Ok_inv sender session st resp st' :
  utils.request sender session st = (Ok resp, st') ->
  last_response (trace st') = Some resp
  /\ last_posted (trace st') = Some (map_to_list (utils.payload sender)).
Proof.
  unfold utils.request. intros H.
  apply bind_Ok_inv in H as (action & st1 & H1 & H).
  apply bind_Ok_inv in H as (m & st2 & H2 & H).
  apply bind_Ok_inv in H as ([] & st3 & H3 & H).
  apply bind_Ok_inv in H as (s & st4 & H4 & H).
  apply bind_Ok_inv in H as (r & st5 & H5 & H).
  apply bind_Ok_inv in H as (d & st6 & H6 & H).
  apply bind_Ok_inv in H as ([] & st7 & H7 & H).
  injection H as <- <-.
  apply session_request_Ok_inv in H5.
  unfold lift in H6. injection H6 as _ <-.
  unfold emit_log, emit in H7. injection H7 as <-. cbn [trace]. rewrite H5.
  split.
  - rewrite (last_response_app_logs _ [_]) by reflexivity.
    change [EvRequest s (upper m) (urljoin (utils.form_url sender) action)
              (map_to_list (utils.payload sender)) true; EvResponse r]
      with ([EvRequest s (upper m) (urljoin (utils.form_url sender) action)
               (map_to_list (utils.payload sender)) true] ++ [EvResponse r]).
    rewrite app_assoc. apply last_response_snoc.
  - rewrite (last_posted_app_logs _ [_]) by reflexivity. apply last_posted_exchange.
Qed.

Lemma raise_for_status_Ok_inv r st u st' :
  raise_for_status r st = (Ok u, st') -> st' = st.
Proof.
  unfold raise_for_status. destruct (_ && _); [discriminate|]. by intros [= _ <-].
Qed.

Lemma report_messages_run msgs unexpected st :
  fst (atcoder._report_messages msgs unexpected st)
  = Ok (match msgs with [] => false | _ => true end).
Proof.
  unfold atcoder._report_messages. unfold bind at 1.
  assert (Hok : forall rs st, exists st', emit_logs rs st = (Ok tt, st')).
  { clear. induction rs as [|r rs IH]; intros st; [by eexists|].
    cbn [emit_logs]. io_unfold. apply IH. }
  destruct (Hok (List.map (fun m => log Status (lit "message: %s") [m]) msgs) st) as (st' & ->).
  destruct msgs as [|m ms]; [reflexivity|]. by destruct unexpected.
Qed.

(** The verdict of AtCoder's result block. *)
Lemma atcoder_result_verdict self resp st msgs :
  messages_of (resp_cookies resp) = Ok msgs ->
  fst (atcoder.submit_result self resp st)
  = if contains (url resp) (lit "/submissions/me")
    then Ok (submissions_page self) else Raise SubmissionError.
Proof.
  intros Hm. unfold atcoder.submit_result. unfold bind at 1.
  pose proof (get_messages_result (resp_cookies resp) st) as Hres.
  destruct (atcoder._get_messages_from_cookie (resp_cookies resp) st) as [r st1].
  cbn [fst] in Hres. rewrite Hres, Hm. unfold bind at 1.
  pose proof (report_messages_run msgs false st1) as Hrep.
  destruct (atcoder._report_messages msgs false st1) as [r2 st2]. cbn [fst] in Hrep.
  rewrite Hrep. by destruct (contains _ _).
Qed.

Lemma atcoder_result_Ok_inv self resp st sub st' :
  atcoder.submit_result self resp st = (Ok sub, st') ->
  contains (url resp) (lit "/submissions/me") = true /\ sub = submissions_page self.
Proof.
  intros H. pose proof (f_equal fst H) as Hf. cbn [fst] in Hf.
  destruct (messages_of (resp_cookies resp)) as [msgs|e] eqn:Hm.
  - rewrite (atcoder_result_verdict _ _ _ _ Hm) in Hf.
    destruct (contains _ _); [|discriminate]. by injection Hf as <-.
  - exfalso. rewrite <- (get_messages_result (resp_cookies resp) st) in Hm.
    unfold atcoder.submit_result, bind in H.
    destruct (atcoder._get_messages_from_cookie (resp_cookies resp) st) as [[?|?] ?];
      cbn in Hm; [discriminate|]. discriminate H.
Qed.

Lemma yukicoder_result_verdict resp st :
  fst (yukicoder.submit_result resp st) = Ok (yukicoder_submitted resp).
Proof.
  unfold yukicoder.submit_result, yukicoder_submitted.
  by destruct (re.match_ _ _).
Qed.

Lemma posted_field (pl : gmap str str) k v :
  pl !! k = Some v -> In (k, v) (map_to_list pl).
Proof. intros H. apply list_elem_of_In. by apply elem_of_map_to_list. Qed.

Lemma atcoder_get_answered target session st resp :
  http (atcoder_get_asks target session st) (lit "GET") target [] true (session_jar session st)
  = Ok resp ->
  status_code resp = 200%Z ->
  exists st0 st1,
    atcoder.session_or_default session st = (Ok (session_ref session st), st0)
    /\ atcoder._request (lit "GET") target (session_ref session st) [] true st0 = (Ok resp, st1).
Proof.
  intros H H200. unfold atcoder_get_asks, session_ref, session_jar in *.
  destruct session as [s|]; cbn [atcoder.session_or_default].
  - destruct (request_answered (lit "GET") target s [] true st resp H H200) as (st1 & Hr & _).
    by exists st, st1.
  - unfold atcoder.new_default_session, new_session, ret.
    edestruct (request_answered (lit "GET") target (next_session st) [] true
                 {| trace := trace st;
                    sessions := <[next_session st := []]> (sessions st);
                    next_session := S (next_session st) |} resp) as (st1 & Hr & _).
    + unfold cookies_of. cbn [trace sessions]. rewrite lookup_insert_eq. exact H.
    + exact H200.
    + eexists _, st1. split; [reflexivity | exact Hr].
Qed.

(** The page [get_language_dict], [submit_code] and [_get_task_id] fetch
    first, once the server has answered 200: the run up to the report of
    the messages. *)
Lemma atcoder_page_fetched {A} target session st resp msgs
    (k : nat -> response -> list str -> bool -> IO A) :
  http (atcoder_get_asks target session st) (lit "GET") target [] true (session_jar session st)
  = Ok resp ->
  status_code resp = 200%Z ->
  messages_of (resp_cookies resp) = Ok msgs ->
  exists st4,
    bind (atcoder.session_or_default session) (fun s =>
      bind (atcoder._request (lit "GET") target s [] true) (fun resp =>
        bind (atcoder._get_messages_from_cookie (resp_cookies resp)) (fun msgs =>
          bind (atcoder._report_messages msgs true) (fun bad => k s resp msgs bad)))) st
    = k (session_ref session st) resp msgs (match msgs with [] => false | _ => true end) st4.
Proof.
  intros H H200 Hm.
  destruct (atcoder_get_answered _ _ _ _ H H200) as (st0 & st2 & Hs & Hr).
  unfold bind at 1. rewrite Hs. cbn beta iota.
  unfold bind at 1. rewrite Hr. cbn beta iota. unfold bind at 1.
  pose proof (get_messages_result (resp_cookies resp) st2) as Hres.
  destruct (atcoder._get_messages_from_cookie (resp_cookies resp) st2) as [r st3].
  cbn [fst] in Hres. rewrite Hres, Hm. unfold bind at 1.
  pose proof (report_messages_run msgs true st3) as Hrep.
  destruct (atcoder._report_messages msgs true st3) as [r2 st4]. cbn [fst] in Hrep.
  rewrite Hrep. by exists st4.
Qed.

Lemma language_dict_empty self session st resp msgs :
  http (atcoder_get_asks (atcoder.submit_url self) session st) (lit "GET")
       (atcoder.submit_url self) [] true (session_jar session st) = Ok resp ->
  status_code resp = 200%Z ->
  messages_of (resp_cookies resp) = Ok msgs ->
  msgs <> [] \/ atcoder.at_login resp = Ok true ->
  fst (atcoder.get_language_dict self session st) = Ok ∅.
Proof.
  intros H H200 Hm Hcase. unfold atcoder.get_language_dict.
  destruct (atcoder_page_fetched _ _ _ _ _
              (fun s resp msgs (bad : bool) =>
                 if bad then ret ∅
                 else bind (lift (atcoder.at_login resp)) (fun login_page : bool =>
                        if login_page
                        then bind (emit_log (log Error (lit "not logged in") []))
                                  (fun _ => ret ∅)
                        else match atcoder.find_language_selector
                                     (BeautifulSoup (content resp)) with
                             | None => raise AttributeError
                             | Some select =>
                                 lift (atcoder.language_options
                                         (bs4.find_all select (lit "option")) ∅)
                             end))
              H H200 Hm) as (st4 & ->).
  destruct Hcase as [Hmsgs|Hlogin].
  - by destruct msgs.
  - destruct msgs; [|reflexivity]. unfold bind, lift. by rewrite Hlogin.
Qed.

Tactic Notation "inv_bind" hyp(H) "as" ident(a) ident(st) ident(Ha) :=
  apply bind_Ok_inv in H as (a & st & Ha & H).

(** C3, as the code has it.

    AtCoder.  The result block returns the submissions page exactly when
    the URL of the final response contains [/submissions/me] and raises
    [SubmissionError] otherwise.  Whenever [submit_code] returns, the code
    was posted and the URL of the last response contains
    [/submissions/me]: every failure leaves by an exception.  Which
    exception depends on where the failure shows.  [submit_code] first
    asserts that the language is among those [get_language_dict] reads
    off the submit page: a language that is not offered fails the
    assertion, and so do unexpected messages and a redirect to the login
    page when they show at that first fetch, since the dictionary is then
    empty; these end in [AssertionError].  Once the language is accepted
    and the submit page is fetched again, unexpected messages, a redirect
    to the login page and a missing form each raise [SubmissionError].

    Yukicoder.  The result block returns [True] exactly when the URL of
    the final response matches the pattern of a submission and [False]
    otherwise; it does not raise.  Whenever [submit] returns [True], the
    code was posted and the last response matches the pattern.  A submit
    page without the form makes [submit] return [False]. *)
Theorem C3_submission_verdict :
  (forall self resp st msgs,
     messages_of (resp_cookies resp) = Ok msgs ->
     fst (atcoder.submit_result self resp st)
     = if contains (url resp) (lit "/submissions/me")
       then Ok (submissions_page self) else Raise SubmissionError)
  /\ (forall self code language session st sub st',
        atcoder.submit_code self code language session st = (Ok sub, st') ->
        sub = submissions_page self
        /\ exists resp data,
             last_response (trace st') = Some resp
             /\ contains (url resp) (lit "/submissions/me") = true
             /\ last_posted (trace st') = Some data
             /\ In (lit "source_code", code) data)
  /\ (forall self code language session st langs st1,
        atcoder.get_language_dict self session st = (Ok langs, st1) ->
        langs !! language = None ->
        atcoder.submit_code self code language session st = (Raise AssertionError, st1))
  /\ (forall self code language session st resp msgs,
        http (atcoder_get_asks (atcoder.submit_url self) session st) (lit "GET")
             (atcoder.submit_url self) [] true (session_jar session st) = Ok resp ->
        status_code resp = 200%Z ->
        messages_of (resp_cookies resp) = Ok msgs ->
        msgs <> [] \/ atcoder.at_login resp = Ok true ->
        fst (atcoder.get_language_dict self session st) = Ok ∅
        /\ fst (atcoder.submit_code self code language session st) = Raise AssertionError)
  /\ (forall self code language session st langs st1 resp msgs,
        atcoder.get_language_dict self session st = (Ok langs, st1) ->
        is_Some (langs !! language) ->
        http (atcoder_get_asks (atcoder.submit_url self) session st1) (lit "GET")
             (atcoder.submit_url self) [] true (session_jar session st1) = Ok resp ->
        status_code resp = 200%Z ->
        messages_of (resp_cookies resp) = Ok msgs ->
        msgs <> [] \/ atcoder.at_login resp = Ok true
        \/ (atcoder.at_login resp = Ok false /\ atcoder_form resp = None) ->
        fst (atcoder.submit_code self code language session st) = Raise SubmissionError)
  /\ (forall resp st,
        fst (yukicoder.submit_result resp st) = Ok (yukicoder_submitted resp))
  /\ (forall self code language session st st',
        yukicoder.submit self code language session st = (Ok true, st') ->
        exists resp data,
          last_response (trace st') = Some resp
          /\ yukicoder_submitted resp = true
          /\ last_posted (trace st') = Some data
          /\ In (lit "source", code) data)
  /\ (forall self code language s st target resp,
        existsb (str_eqb language) (yukicoder.get_languages self) = true ->
        yukicoder.get_url self = Ok target ->
        http (yukicoder_get_asks (target ++ lit "/submit") s st) (lit "GET")
             (target ++ lit "/submit") [] true (cookies_of s st) = Ok resp ->
        is_Ok (utils.describe_status_code (status_code resp)) = true ->
        ((400 <=? status_code resp) && (status_code resp <? 600))%Z = false ->
        yukicoder_form resp = None ->
        fst (yukicoder.submit self code (Some language) (Some s) st) = Ok false).
Proof.
  split; [exact atcoder_result_verdict|].
  split.
  { intros self code language session st sub st' H.
    unfold atcoder.submit_code in H.
    inv_bind H as langs s1 H1. inv_bind H as u2 s2 H2. inv_bind H as s s3 H3.
    inv_bind H as resp1 s4 H4. inv_bind H as msgs s5 H5. inv_bind H as bad s6 H6.
    destruct bad; [discriminate H|].
    inv_bind H as lp s7 H7. destruct lp.
    { inv_bind H as u s8 H8. discriminate H. }
    destruct (bs4.find_by_attr _ _ _ _) as [fm|]; [|inv_bind H as u s8 H8; discriminate H].
    inv_bind H as u8 s8 H8. inv_bind H as tid s9 H9. inv_bind H as sd s10 H10.
    match type of H with context [utils.request ?x _] => set (sender := x) in H end.
    inv_bind H as resp2 s11 H11. inv_bind H as u12 s12 H12.
    apply form_request_Ok_inv in H11 as [Hlast Hposted].
    apply raise_for_status_Ok_inv in H12 as ->.
    pose proof (logs_only_atcoder_result self resp2 s11) as (evs & Ht & Hl).
    rewrite H in Ht. cbn [snd] in Ht.
    apply atcoder_result_Ok_inv in H as [Hc ->].
    split; [reflexivity|]. exists resp2, (map_to_list (utils.payload sender)).
    rewrite Ht, last_response_app_logs, last_posted_app_logs by done.
    split; [done|]. split; [done|]. split; [done|].
    apply posted_field. subst sender. unfold utils.set. cbn [utils.payload].
    rewrite lookup_insert_ne.
    - apply lookup_insert_eq.
    - intros Heq. apply (f_equal (@List.head _)) in Heq. vm_compute in Heq. discriminate Heq. }
  split.
  { intros self code language session st langs st1 Hl Hnone.
    unfold atcoder.submit_code. unfold bind at 1. rewrite Hl. cbn beta iota.
    rewrite bool_decide_eq_false_2 by (rewrite Hnone; by intros [? ?]).
    reflexivity. }
  split.
  { intros self code language session st resp msgs H H200 Hm Hcase.
    pose proof (language_dict_empty self session st resp msgs H H200 Hm Hcase) as Hempty.
    split; [exact Hempty|].
    destruct (atcoder.get_language_dict self session st) as [r st1] eqn:Hd.
    cbn [fst] in Hempty. subst r.
    unfold atcoder.submit_code. unfold bind at 1. rewrite Hd. cbn beta iota.
    unfold bind at 1. by rewrite lookup_empty. }
  split.
  { intros self code language session st langs st1 resp msgs Hl Hlang H H200 Hm Hcase.
    unfold atcoder.submit_code. unfold bind at 1. rewrite Hl. cbn beta iota.
    rewrite bool_decide_eq_true_2 by done. unfold World.assert, ret, bind at 1.
    destruct (atcoder_get_answered _ _ _ _ H H200) as (st0 & st2 & Hs & Hr).
    unfold bind at 1. rewrite Hs. cbn beta iota.
    unfold bind at 1. rewrite Hr. cbn beta iota. unfold bind at 1.
    pose proof (get_messages_result (resp_cookies resp) st2) as Hres.
    destruct (atcoder._get_messages_from_cookie (resp_cookies resp) st2) as [r st3].
    cbn [fst] in Hres. rewrite Hres, Hm. unfold bind at 1.
    pose proof (report_messages_run msgs true st3) as Hrep.
    destruct (atcoder._report_messages msgs true st3) as [r2 st4]. cbn [fst] in Hrep.
    rewrite Hrep. destruct msgs as [|m ms]; [|reflexivity].
    destruct Hcase as [Hc|[Hc|[Hc Hf]]]; [done| |].
    - unfold bind at 1, lift. by rewrite Hc.
    - unfold bind at 1, lift. rewrite Hc. unfold atcoder_form in Hf. by rewrite Hf. }
  split; [exact yukicoder_result_verdict|].
  split.
  { intros self code language session st st' H.
    unfold yukicoder.submit in H.
    inv_bind H as u1 s1 H1. inv_bind H as base s2 H2. inv_bind H as u3 s3 H3.
    inv_bind H as resp1 s4 H4. inv_bind H as d s5 H5. inv_bind H as u6 s6 H6.
    inv_bind H as u7 s7 H7.
    destruct (bs4.find_by_attr _ _ _ _) as [fm|].
    2: { inv_bind H as u8 s8 H8. inv_bind H as u9 s9 H9. discriminate H. }
    inv_bind H as sd s8 H8.
    match type of H with context [utils.request ?x _] => set (sender := x) in H end.
    inv_bind H as resp2 s9 H9. inv_bind H as u10 s10 H10.
    apply form_request_Ok_inv in H9 as [Hlast Hposted].
    apply raise_for_status_Ok_inv in H10 as ->.
    pose proof (logs_only_yukicoder_result resp2 s9) as (evs & Ht & Hl).
    pose proof (yukicoder_result_verdict resp2 s9) as Hv.
    rewrite H in Ht, Hv. cbn [fst snd] in Ht, Hv. injection Hv as Hv.
    exists resp2, (map_to_list (utils.payload sender)).
    rewrite Ht, last_response_app_logs, last_posted_app_logs by done.
    split; [done|]. split; [done|]. split; [done|].
    apply posted_field. subst sender. unfold utils.set. cbn [utils.payload].
    rewrite lookup_insert_ne.
    - apply lookup_insert_eq.
    - intros Heq. vm_compute in Heq. discriminate Heq. }
  intros self code language s st target resp Hlang Hurl H Hd Hst Hf.
  unfold yukicoder.submit, yukicoder.session_get, yukicoder_get_asks, cookies_of,
    yukicoder_form in *.
  change (trace st ++ [?a; ?b]) with (trace st ++ ([a] ++ [b])) in H.
  rewrite app_assoc in H.
  rewrite Hlang, Hurl. io_unfold. cbn [fst snd trace sessions next_session].
  match goal with
  | |- context [http ?a ?b ?c ?d ?e ?f] =>
      replace (http a b c d e f) with (Ok resp) by (symmetry; exact H)
  end.
  cbn [fst snd trace sessions next_session].
  destruct (utils.describe_status_code (status_code resp)) as [d|e]; [|discriminate Hd].
  cbn [fst snd]. rewrite Hst. cbn [fst snd]. by rewrite Hf.
Qed.
End Submit.

Lemma C3_submission_verdict_witness :
  (fst (@atcoder.submit_result Fixtures.plain_unicode Fixtures.plain_library Fixtures.abc001_1
          (Fixtures.page 200 "https://practice.contest.atcoder.jp/submissions/me#32174")
          Fixtures.st0)
   = Ok (Spec.submissions_page Fixtures.abc001_1)
   /\ fst (@atcoder.submit_result Fixtures.plain_unicode Fixtures.plain_library
             Fixtures.abc001_1
             (Fixtures.page 200 "https://practice.contest.atcoder.jp/submit") Fixtures.st0)
      = Raise SubmissionError)
  /\ (exists resp data,
        Spec.last_response (trace Fixtures.atcoder_accepted) = Some resp
        /\ contains (url resp) (lit "/submissions/me") = true
        /\ Spec.last_posted (trace Fixtures.atcoder_accepted) = Some data
        /\ In (lit "source_code", lit "int main(){}") data)
  /\ @atcoder.submit_code Fixtures.plain_unicode Fixtures.atcoder_accepting
       Fixtures.atcoder_library Fixtures.abc001_1 (lit "int main(){}") (lit "9999") None
       Fixtures.st0
     = (Raise AssertionError, Fixtures.atcoder_languages_read)
  /\ (fst (@atcoder.submit_code Fixtures.plain_unicode Fixtures.atcoder_noticing_at_once
             Fixtures.atcoder_library_with_notice Fixtures.abc001_1
             (lit "int main(){}") (lit "3003") None Fixtures.st0)
      = Raise AssertionError
      /\ fst (@atcoder.submit_code Fixtures.plain_unicode Fixtures.atcoder_asking_login
                Fixtures.atcoder_library Fixtures.abc001_1
                (lit "int main(){}") (lit "3003") None Fixtures.st0)
         = Raise AssertionError)
  /\ (fst (@atcoder.submit_code Fixtures.plain_unicode Fixtures.atcoder_accepting
             Fixtures.atcoder_library_without_form Fixtures.abc001_1
             (lit "int main(){}") (lit "3003") None Fixtures.st0)
      = Raise SubmissionError
      /\ fst (@atcoder.submit_code Fixtures.plain_unicode Fixtures.atcoder_noticing
                Fixtures.atcoder_library_with_notice Fixtures.abc001_1
                (lit "int main(){}") (lit "3003") None Fixtures.st0)
         = Raise SubmissionError
      /\ fst (@atcoder.submit_code Fixtures.plain_unicode Fixtures.atcoder_signing_out
                Fixtures.atcoder_library Fixtures.abc001_1
                (lit "int main(){}") (lit "3003") None Fixtures.st0)
         = Raise SubmissionError)
  /\ (exists resp data,
        Spec.last_response (trace Fixtures.yukicoder_accepted) = Some resp
        /\ Spec.yukicoder_submitted resp = true
        /\ Spec.last_posted (trace Fixtures.yukicoder_accepted) = Some data
        /\ In (lit "source", lit "print(1)") data)
  /\ fst (@yukicoder.submit Fixtures.plain_unicode Fixtures.yukicoder_rejecting
            Fixtures.plain_library Fixtures.problem_9 (lit "print(1)")
            (Some (lit "python3")) (Some 0%nat) Fixtures.st0)
     = Ok false.
Proof.
  split; [split|split; [|split; [|split; [split|split; [split; [|split]|split]]]]].
  - exact (proj1 (@C3_submission_verdict Fixtures.plain_unicode Fixtures.atcoder_accepting
                    Fixtures.plain_library)
             Fixtures.abc001_1
             (Fixtures.page 200 "https://practice.contest.atcoder.jp/submissions/me#32174")
             Fixtures.st0 [] eq_refl).
  - exact (proj1 (@C3_submission_verdict Fixtures.plain_unicode Fixtures.atcoder_accepting
                    Fixtures.plain_library)
             Fixtures.abc001_1
             (Fixtures.page 200 "https://practice.contest.atcoder.jp/submit")
             Fixtures.st0 [] eq_refl).
  - apply (proj1 (proj2 (@C3_submission_verdict Fixtures.plain_unicode
                           Fixtures.atcoder_accepting Fixtures.atcoder_library))
             Fixtures.abc001_1 (lit "int main(){}") (lit "3003") None Fixtures.st0
             (Spec.submissions_page Fixtures.abc001_1) Fixtures.atcoder_accepted).
    vm_compute. reflexivity.
  - apply (proj1 (proj2 (proj2 (@C3_submission_verdict Fixtures.plain_unicode
                                  Fixtures.atcoder_accepting Fixtures.atcoder_library)))
             Fixtures.abc001_1 (lit "int main(){}") (lit "9999") None Fixtures.st0
             Fixtures.atcoder_languages Fixtures.atcoder_languages_read).
    + vm_compute. reflexivity.
    + vm_compute. reflexivity.
  - apply (proj1 (proj2 (proj2 (proj2 (@C3_submission_verdict Fixtures.plain_unicode
                                         Fixtures.atcoder_noticing_at_once
                                         Fixtures.atcoder_library_with_notice))))
             Fixtures.abc001_1 (lit "int main(){}") (lit "3003") None Fixtures.st0
             Fixtures.sign_in_notice [lit "Please sign in."]).
    + reflexivity.
    + reflexivity.
    + vm_compute. reflexivity.
    + left. discriminate.
  - apply (proj1 (proj2 (proj2 (proj2 (@C3_submission_verdict Fixtures.plain_unicode
                                         Fixtures.atcoder_asking_login
                                         Fixtures.atcoder_library))))
             Fixtures.abc001_1 (lit "int main(){}") (lit "3003") None Fixtures.st0
             (Fixtures.page 200 "https://practice.contest.atcoder.jp/login?next=submit") []).
    + reflexivity.
    + reflexivity.
    + reflexivity.
    + right. vm_compute. reflexivity.
  - apply (proj1 (proj2 (proj2 (proj2 (proj2 (@C3_submission_verdict Fixtures.plain_unicode
                                  Fixtures.atcoder_accepting
                                  Fixtures.atcoder_library_without_form)))))
             Fixtures.abc001_1 (lit "int main(){}") (lit "3003") None Fixtures.st0
             Fixtures.atcoder_languages Fixtures.atcoder_languages_read
             (Fixtures.page 200 "http://abc001.contest.atcoder.jp/submit") []).
    + vm_compute. reflexivity.
    + by eexists.
    + reflexivity.
    + reflexivity.
    + reflexivity.
    + right. right. split; reflexivity.
  - apply (proj1 (proj2 (proj2 (proj2 (proj2 (@C3_submission_verdict Fixtures.plain_unicode
                                  Fixtures.atcoder_noticing
                                  Fixtures.atcoder_library_with_notice)))))
             Fixtures.abc001_1 (lit "int main(){}") (lit "3003") None Fixtures.st0
             Fixtures.atcoder_languages Fixtures.atcoder_languages_read
             Fixtures.sign_in_notice [lit "Please sign in."]).
    + vm_compute. reflexivity.
    + by eexists.
    + reflexivity.
    + reflexivity.
    + vm_compute. reflexivity.
    + left. discriminate.
  - apply (proj1 (proj2 (proj2 (proj2 (proj2 (@C3_submission_verdict Fixtures.plain_unicode
                                  Fixtures.atcoder_signing_out Fixtures.atcoder_library)))))
             Fixtures.abc001_1 (lit "int main(){}") (lit "3003") None Fixtures.st0
             Fixtures.atcoder_languages Fixtures.atcoder_languages_read
             (Fixtures.page 200 "https://abc001.contest.atcoder.jp/login") []).
    + vm_compute. reflexivity.
    + by eexists.
    + reflexivity.
    + reflexivity.
    + reflexivity.
    + right. left. vm_compute. reflexivity.
  - apply (proj1 (proj2 (proj2 (proj2 (proj2 (proj2 (proj2
             (@C3_submission_verdict Fixtures.plain_unicode
                Fixtures.yukicoder_accepting Fixtures.yukicoder_library)))))))
             Fixtures.problem_9 (lit "print(1)") (Some (lit "python3")) (Some 0%nat)
             Fixtures.st0 Fixtures.yukicoder_accepted).
    vm_compute. reflexivity.
  - apply (proj2 (proj2 (proj2 (proj2 (proj2 (proj2 (proj2
             (@C3_submission_verdict Fixtures.plain_unicode
                Fixtures.yukicoder_rejecting Fixtures.plain_library)))))))
             Fixtures.problem_9 (lit "print(1)") (lit "python3") 0%nat Fixtures.st0
             (lit "https://yukicoder.me/problems/no/9")
             (Fixtures.page 200 "https://yukicoder.me/problems/no/9/submit"));
      reflexivity.
Defined.

(** C3 as stated fails: Yukicoder sends the browser back to the submit
    page after the post, a destination that does not match the pattern of
    a submission, and [submit] returns [False] instead of raising; so it
    does when the page has no form at all. *)
Lemma C3_silent_failure_counterexample :
  (fst (@yukicoder.submit Fixtures.plain_unicode Fixtures.yukicoder_rejecting
          Fixtures.yukicoder_library Fixtures.problem_9 (lit "print(1)")
          (Some (lit "python3")) (Some 0%nat) Fixtures.st0)
   = Ok false
   /\ Spec.last_response
        (trace (snd (@yukicoder.submit Fixtures.plain_unicode Fixtures.yukicoder_rejecting
                       Fixtures.yukicoder_library Fixtures.problem_9 (lit "print(1)")
                       (Some (lit "python3")) (Some 0%nat) Fixtures.st0)))
      = Some (Fixtures.page 200 "https://yukicoder.me/problems/no/9/submit")
   /\ Spec.yukicoder_submitted (Fixtures.page 200 "https://yukicoder.me/problems/no/9/submit")
      = false)
  /\ fst (@yukicoder.submit Fixtures.plain_unicode Fixtures.yukicoder_rejecting
            Fixtures.plain_library Fixtures.problem_9 (lit "print(1)")
            (Some (lit "python3")) (Some 0%nat) Fixtures.st0)
     = Ok false.
Proof. vm_compute. repeat split; reflexivity. Qed.

(** ** Recognizing URLs *)

Section Recognizers.
Import Spec.
Context {U : unicode}.

(** C10.  [AtCoderSubmission.from_url] declines every URL whose network
    location is [atcoder.jp] or [beta.atcoder.jp], whatever its path; what
    it recognizes is on a host [<contest>.contest.atcoder.jp] with a path
    that normalizes to [/submissions/<number>]; and the host test of the
    second branch, a string compared with a tuple, is never true. *)
Theorem C10_submission_hosts :
  (forall s pid r,
     urllib_parse.urlparse s = Ok r ->
     urllib_parse.netloc r = lit "atcoder.jp" \/ urllib_parse.netloc r = lit "beta.atcoder.jp" ->
     atcoder.Submission_from_url s pid = Ok None)
  /\ (forall s pid sub,
        atcoder.Submission_from_url s pid = Ok (Some sub) ->
        exists r basename,
          urllib_parse.urlparse s = Ok r
          /\ endswith (urllib_parse.netloc r) atcoder.contest_suffix = true
          /\ count (urllib_parse.netloc r) 46 = 3%nat
          /\ atcoder.sub_contest_id sub = atcoder.first_label (urllib_parse.netloc r)
          /\ atcoder.sub_contest_id sub <> []
          /\ posixpath.split (atcoder.normpath (urllib_parse.path r))
             = (lit "/submissions", basename)
          /\ Py.int basename = Some (atcoder.submission_id sub)
          /\ atcoder.sub_problem_id sub = pid)
  /\ (forall loc, atcoder.py_eq (atcoder.PStr loc) (atcoder.PTuple atcoder.atcoder_hosts) = false).
Proof.
  split; [|split].
  - intros s pid r Hr Hloc. unfold atcoder.Submission_from_url. rewrite Hr.
    destruct (posixpath.split _) as [dirname basename].
    assert (He : endswith (urllib_parse.netloc r) atcoder.contest_suffix = false)
      by (destruct Hloc as [-> | ->]; reflexivity).
    rewrite He, !andb_false_r. cbn [andb].
    destruct (re.match_ _ _); reflexivity.
  - intros s pid sub H. unfold atcoder.Submission_from_url in H.
    destruct (urllib_parse.urlparse s) as [r|e]; [|discriminate].
    destruct (posixpath.split _) as [dirname basename] eqn:Hsplit.
    destruct (_ && _) eqn:Hc.
    + destruct (Py.int basename) as [n|] eqn:Hint.
      * injection H as <-. cbn.
        repeat (apply andb_prop in Hc as [Hc ?]).
        exists r, basename. split; [done|]. split; [done|].
        split; [by apply Nat.eqb_eq|]. split; [done|].
        split.
        { intros Hnil. rewrite Hnil in *. discriminate. }
        split; [|done]. rewrite Hsplit. f_equal.
        unfold str_eqb in H. by apply bool_decide_eq_true_1 in H.
      * exfalso. destruct (re.match_ _ _); [|discriminate].
        cbn [atcoder.py_eq] in H. rewrite andb_false_r in H. discriminate.
    + exfalso. destruct (re.match_ _ _); [|discriminate].
      cbn [atcoder.py_eq] in H. rewrite andb_false_r in H. discriminate.
  - reflexivity.
Qed.
End Recognizers.

Lemma C10_submission_hosts_witness :
  @atcoder.Submission_from_url Fixtures.plain_unicode
    (lit "https://beta.atcoder.jp/contests/abc073/submissions/1592381") None = Ok None
  /\ exists r basename,
       urllib_parse.urlparse (lit "http://agc001.contest.atcoder.jp/submissions/1246803") = Ok r
       /\ endswith (urllib_parse.netloc r) atcoder.contest_suffix = true
       /\ count (urllib_parse.netloc r) 46 = 3%nat
       /\ lit "agc001" = atcoder.first_label (urllib_parse.netloc r)
       /\ lit "agc001" <> []
       /\ posixpath.split (atcoder.normpath (urllib_parse.path r))
          = (lit "/submissions", basename)
       /\ @Py.int Fixtures.plain_unicode basename = Some 1246803%Z
       /\ (None : option str) = None.
Proof.
  split.
  - apply (proj1 (@C10_submission_hosts Fixtures.plain_unicode)
             (lit "https://beta.atcoder.jp/contests/abc073/submissions/1592381") None
             {| urllib_parse.scheme := lit "https"; urllib_parse.netloc := lit "beta.atcoder.jp";
                urllib_parse.path := lit "/contests/abc073/submissions/1592381";
                urllib_parse.params := []; urllib_parse.query := [];
                urllib_parse.fragment := [] |}).
    + reflexivity.
    + right. reflexivity.
  - apply (proj1 (proj2 (@C10_submission_hosts Fixtures.plain_unicode))
             (lit "http://agc001.contest.atcoder.jp/submissions/1246803") None
             {| atcoder.sub_contest_id := lit "agc001"; atcoder.submission_id := 1246803;
                atcoder.sub_problem_id := None |}).
    reflexivity.
Defined.

(** ** Orderings and [sorted] *)

Section Orders.
Import Spec.

Lemma strict_total_asym {A} (ltb : A -> A -> bool) :
  strict_total ltb -> forall x y, ltb x y = true -> ltb y x = false.
Proof.
  intros H x y Hxy. destruct (ltb y x) eqn:Hyx; [|reflexivity].
  by rewrite <- (st_irrefl _ H x), (st_trans _ H x y x Hxy Hyx).
Qed.

Lemma not_after_trans {A} (ltb : A -> A -> bool) :
  strict_total ltb ->
  forall x y z, not_after ltb x y -> not_after ltb y z -> not_after ltb x z.
Proof.
  unfold not_after. intros H x y z Hxy Hyz.
  destruct (ltb z x) eqn:Hzx; [|reflexivity].
  destruct (ltb x y) eqn:Hlt.
  - by rewrite (st_trans _ H z x y Hzx Hlt) in Hyz.
  - rewrite (st_total _ H x y Hlt Hxy) in Hzx. congruence.
Qed.

Section Lexicographic.
Context {A : Type} (ltb eqb : A -> A -> bool).
Hypothesis eqb_eq : forall x y, eqb x y = true <-> x = y.
Hypothesis order : strict_total ltb.

Lemma list_ltb_irrefl l : list_ltb ltb eqb l l = false.
Proof.
  induction l as [|x l IH]; [reflexivity|]. cbn.
  by rewrite (st_irrefl _ order), IH, andb_false_r.
Qed.

Lemma list_ltb_trans a b c :
  list_ltb ltb eqb a b = true -> list_ltb ltb eqb b c = true -> list_ltb ltb eqb a c = true.
Proof.
  revert b c. induction a as [|x a IH]; intros [|y b] [|z c]; cbn; try done.
  intros [Hxy|[Hxy Hab]%andb_prop]%orb_prop [Hyz|[Hyz Hbc]%andb_prop]%orb_prop.
  - by rewrite (st_trans _ order x y z).
  - apply eqb_eq in Hyz as <-. by rewrite Hxy.
  - apply eqb_eq in Hxy as ->. by rewrite Hyz.
  - apply eqb_eq in Hxy as ->. rewrite Hyz, (IH b c) by done. apply orb_true_r.
Qed.

Lemma list_ltb_total a b :
  list_ltb ltb eqb a b = false -> list_ltb ltb eqb b a = false -> a = b.
Proof.
  revert b. induction a as [|x a IH]; intros [|y b]; cbn; try done.
  intros [Hxy H1]%orb_false_elim [Hyx H2]%orb_false_elim.
  assert (x = y) as -> by (by apply (st_total _ order)).
  assert (He : eqb y y = true) by (by apply eqb_eq).
  rewrite He in H1, H2. f_equal. by apply IH.
Qed.

Lemma list_ltb_strict_total : strict_total (list_ltb ltb eqb).
Proof.
  constructor; [apply list_ltb_irrefl | apply list_ltb_trans | apply list_ltb_total].
Qed.
End Lexicographic.

Lemma N_ltb_strict_total : strict_total N.ltb.
Proof.
  constructor.
  - intros x. apply N.ltb_irrefl.
  - intros x y z Hxy%N.ltb_lt Hyz%N.ltb_lt. apply N.ltb_lt. lia.
  - intros x y Hxy%N.ltb_ge Hyx%N.ltb_ge. lia.
Qed.

Lemma str_ltb_strict_total : strict_total str_ltb.
Proof. apply list_ltb_strict_total; [apply N.eqb_eq | apply N_ltb_strict_total]. Qed.

Lemma str_eqb_eq a b : str_eqb a b = true <-> a = b.
Proof. unfold str_eqb. apply bool_decide_eq_true. Qed.

Lemma pair_ltb_strict_total : strict_total pair_ltb.
Proof.
  pose proof str_ltb_strict_total as H.
  constructor; unfold pair_ltb.
  - intros [a b]. cbn [fst snd]. by rewrite !(st_irrefl _ H), andb_false_r.
  - intros [a1 b1] [a2 b2] [a3 b3]. cbn [fst snd].
    intros [H12|[He12 H12]%andb_prop]%orb_prop [H23|[He23 H23]%andb_prop]%orb_prop.
    + by rewrite (st_trans _ H a1 a2 a3).
    + apply str_eqb_eq in He23 as <-. by rewrite H12.
    + apply str_eqb_eq in He12 as ->. by rewrite H23.
    + apply str_eqb_eq in He12 as ->. rewrite He23, (st_trans _ H b1 b2 b3) by done.
      apply orb_true_r.
  - intros [a1 b1] [a2 b2]. cbn [fst snd].
    intros [H12 H1]%orb_false_elim [H21 H2]%orb_false_elim.
    assert (a1 = a2) as -> by (by apply (st_total _ H)).
    assert (He : str_eqb a2 a2 = true) by (by apply str_eqb_eq).
    rewrite He in H1, H2. f_equal. by apply (st_total _ H).
Qed.

Lemma pairs_ltb_strict_total : strict_total pairs_ltb.
Proof.
  apply list_ltb_strict_total; [|apply pair_ltb_strict_total].
  intros x y. apply bool_decide_eq_true.
Qed.

Section Sorting.
Context {A : Type} (ltb : A -> A -> bool).
Hypothesis order : strict_total ltb.

Lemma insert_sorted_perm x l : Permutation (insert_sorted ltb x l) (x :: l).
Proof.
  induction l as [|y l IH]; cbn; [reflexivity|].
  destruct (ltb y x); [|reflexivity].
  rewrite IH. apply perm_swap.
Qed.

Lemma sorted_perm l : Permutation (sorted ltb l) l.
Proof.
  induction l as [|x l IH]; cbn; [reflexivity|].
  fold (sorted ltb l). by rewrite insert_sorted_perm, IH.
Qed.

Lemma insert_sorted_sorted x l :
  StronglySorted (not_after ltb) l -> StronglySorted (not_after ltb) (insert_sorted ltb x l).
Proof.
  induction 1 as [|y l Hl IH Hy]; cbn; [by repeat constructor|].
  destruct (ltb y x) eqn:Hyx.
  - constructor; [exact IH|].
    apply List.Forall_forall. intros z Hz.
    apply (Permutation_in _ (insert_sorted_perm x l)) in Hz as [<-|Hz].
    + by apply strict_total_asym.
    + by apply (proj1 (List.Forall_forall _ _) Hy).
  - constructor; [by constructor|]. constructor; [exact Hyx|].
    apply List.Forall_forall. intros z Hz.
    apply (not_after_trans _ order x y z); [exact Hyx|].
    by apply (proj1 (List.Forall_forall _ _) Hy).
Qed.

Lemma sorted_sorted l : StronglySorted (not_after ltb) (sorted ltb l).
Proof.
  induction l as [|x l IH]; cbn; [constructor|]. by apply insert_sorted_sorted.
Qed.
End Sorting.
End Orders.

(** ** Batches of sample cases *)

Section Batches.
Import Spec.
Context {U : unicode} {E : environment} {L : library}.

Lemma assoc_group_add key v d k :
  assoc k (yukicoder.group_add key v d)
  = if str_eqb key k then Some (default [] (assoc k d) ++ [v]) else assoc k d.
Proof.
  unfold assoc. induction d as [|[k' vs] d IH]; cbn.
  - by destruct (str_eqb key k).
  - destruct (str_eqb k' key) eqn:Hk; cbn.
    + apply str_eqb_eq in Hk as ->. by destruct (str_eqb key k).
    + destruct (str_eqb k' k) eqn:Hk'; cbn; [|exact IH].
      apply str_eqb_eq in Hk' as ->.
      destruct (str_eqb key k) eqn:Hkk; [|reflexivity].
      apply str_eqb_eq in Hkk as ->.
      assert (str_eqb k k = true) by (by apply str_eqb_eq). congruence.
Qed.

Lemma keys_group_add key v d :
  List.map fst (yukicoder.group_add key v d)
  = if existsb (fun k => str_eqb k key) (List.map fst d)
    then List.map fst d else List.map fst d ++ [key].
Proof.
  induction d as [|[k vs] d IH]; cbn; [reflexivity|].
  destruct (str_eqb k key); cbn; [reflexivity|].
  rewrite IH. by destruct (existsb _ _).
Qed.

Lemma NoDup_group_add key v d :
  NoDup (List.map fst d) -> NoDup (List.map fst (yukicoder.group_add key v d)).
Proof.
  intros H. rewrite keys_group_add.
  destruct (existsb _ _) eqn:Hex; [exact H|].
  apply NoDup_app. split; [exact H|]. split; [|apply NoDup_singleton].
  intros k Hk [<-|[]]%list_elem_of_In. apply list_elem_of_In in Hk.
  assert (existsb (fun k => str_eqb k key) (List.map fst d) = true); [|congruence].
  apply existsb_exists. exists key. split; [done|]. by apply str_eqb_eq.
Qed.

Lemma files_named_snoc entries seen name k :
  files_named entries (seen ++ [name]) k
  = files_named entries seen k
    ++ (if str_eqb (posixpath.basename name) k
        then [(yukicoder.zip_read entries name, name)] else []).
Proof.
  unfold files_named. rewrite List.filter_app, List.map_app. cbn.
  by destruct (str_eqb _ _).
Qed.

Lemma groups_of_names_step entries d seen name :
  groups_of_names entries d seen ->
  groups_of_names entries (archive_step entries d name) (seen ++ [name]).
Proof.
  intros [Hnd Ha]. split; [by apply NoDup_group_add|].
  intros k. unfold archive_step. rewrite assoc_group_add, files_named_snoc, Ha.
  destruct (str_eqb _ k).
  - by destruct (files_named entries seen k).
  - rewrite app_nil_r. by destruct (files_named entries seen k).
Qed.

Lemma groups_of_names_fold entries names d seen :
  groups_of_names entries d seen ->
  groups_of_names entries (fold_left (archive_step entries) names d) (seen ++ names).
Proof.
  revert d seen. induction names as [|name names IH]; intros d seen H; cbn.
  - by rewrite app_nil_r.
  - replace (seen ++ name :: names) with ((seen ++ [name]) ++ names)
      by (by rewrite <- app_assoc).
    apply IH. by apply groups_of_names_step.
Qed.

Lemma archive_groups_spec entries :
  groups_of_names entries (yukicoder.archive_groups entries)
    (sorted str_ltb (List.map fst entries)).
Proof.
  apply (groups_of_names_fold entries _ [] []). split; [constructor|]. by intros k.
Qed.

Lemma assoc_In k vs (d : list (str * list utils.block)) :
  NoDup (List.map fst d) -> (In (k, vs) d <-> assoc k d = Some vs).
Proof.
  unfold assoc. induction d as [|[k' vs'] d IH]; cbn; intros Hnd.
  - split; [done | discriminate].
  - apply NoDup_cons in Hnd as [Hk' Hnd]. destruct (str_eqb k' k) eqn:Hk; cbn.
    + apply str_eqb_eq in Hk as ->. split.
      * intros [[= ->]|Hin]; [done|]. exfalso. apply Hk'.
        apply list_elem_of_In. by apply (List.in_map fst _ _ Hin).
      * intros [= ->]. by left.
    + rewrite <- (IH Hnd). split; [|by right].
      intros [[= -> _]|Hin]; [|done].
      exfalso. assert (str_eqb k k = true) by (by apply str_eqb_eq). congruence.
Qed.

(** The loop over the [pre] tags feeds the accepted blocks to the zipper
    in document order. *)
Lemma add_samples_run pres blocks z st :
  parsed_blocks pres = Ok blocks ->
  exists st', yukicoder.add_samples pres z st = (Ok (feed blocks z), st').
Proof.
  revert blocks z st. induction pres as [|pre pres IH]; intros blocks z st; cbn.
  - intros [= <-]. by eexists.
  - destruct (yukicoder.parse_sample_tag pre) as [it|e]; [|discriminate].
    destruct (parsed_blocks pres) as [bs|e]; [|discriminate]. intros [= <-].
    io_unfold. destruct it as [[s name]|].
    + destruct (utils.add z s name) as [z' logs] eqn:Hadd.
      assert (Hok : forall rs st, exists st', emit_logs rs st = (Ok tt, st')).
      { clear. induction rs as [|r rs IH]; intros st; [by eexists|].
        cbn [emit_logs]. io_unfold. apply IH. }
      destruct (Hok logs st) as (st1 & Hl). unfold bind, emit_log, emit, ret in Hl |- *.
      rewrite Hl. destruct (IH bs z' st1 eq_refl) as (st' & ->).
      exists st'. cbn [feed fold_left fst snd]. by rewrite Hadd.
    + apply IH. reflexivity.
Qed.

Lemma emit_logs_Ok rs st : exists st', emit_logs rs st = (Ok tt, st').
Proof.
  revert st. induction rs as [|r rs IH]; intros st; [by eexists|].
  cbn [emit_logs]. io_unfold. apply IH.
Qed.

Lemma download_200 target session st resp :
  http (download_asks target session st) (lit "GET") target [] true (session_jar session st)
  = Ok resp ->
  status_code resp = 200%Z ->
  exists st', utils.download target session st = (Ok (content resp), st').
Proof.
  intros H H200. rewrite (download_answered _ _ _ _ H). cbn zeta.
  rewrite H200. cbn. by eexists.
Qed.

(** C5, as the code has it.

    Page.  When the page is fetched and every [pre] tag is parsed without
    an exception, [download_samples] returns the accepted blocks two at
    a time in document order.

    Archive.  When the archive is fetched and opened, [download_all]
    returns [sorted(samples.values())]: one group for every base name,
    holding the files of that base name in ascending order of their full
    names, and the groups in ascending order of their contents by the
    comparison of lists of [(text, name)] tuples. *)
Theorem C5_batches_order :
  (forall self session st target resp blocks,
     yukicoder.get_url self = Ok target ->
     http (download_asks target session st) (lit "GET") target [] true
          (session_jar session st) = Ok resp ->
     status_code resp = 200%Z ->
     parsed_blocks (bs4.find_all_located (BeautifulSoup (content resp)) (lit "pre"))
     = Ok blocks ->
     fst (yukicoder.download_samples self session st) = Ok (pair_up blocks))
  /\ (forall self session st resp entries,
        http (download_asks (testcase_url self) session st) (lit "GET") (testcase_url self)
             [] true (session_jar session st) = Ok resp ->
        status_code resp = 200%Z ->
        ZipFile (content resp) = Ok entries ->
        fst (yukicoder.download_all self session st) = Ok (yukicoder.collect_archive entries))
  /\ (forall entries,
        Permutation (yukicoder.collect_archive entries)
                    (List.map snd (yukicoder.archive_groups entries))
        /\ StronglySorted (not_after pairs_ltb) (yukicoder.collect_archive entries)
        /\ NoDup (List.map fst (yukicoder.archive_groups entries))
        /\ forall k vs,
             In (k, vs) (yukicoder.archive_groups entries)
             <-> vs = files_named entries (sorted str_ltb (List.map fst entries)) k
                 /\ vs <> []).
Proof.
  split; [|split].
  - intros self session st target resp blocks Hurl H H200 Hparse.
    unfold yukicoder.download_samples. unfold bind at 1, lift. rewrite Hurl.
    destruct (download_200 _ _ _ _ H H200) as (st1 & Hd).
    unfold bind at 1. rewrite Hd.
    destruct (add_samples_run _ _ utils.SampleZipper_init st1 Hparse) as (st2 & Hrun).
    unfold bind at 1. rewrite Hrun. rewrite feed_init. cbn [utils.get utils.data utils.dangling].
    unfold bind at 1.
    match goal with |- context [emit_logs ?rs st2] =>
      destruct (emit_logs_Ok rs st2) as (st3 & ->) end.
    reflexivity.
  - intros self session st resp entries H H200 Hzip.
    unfold yukicoder.download_all. fold (testcase_url self).
    destruct (download_200 _ _ _ _ H H200) as (st1 & Hd).
    unfold bind at 1. rewrite Hd. unfold bind, lift, ret. by rewrite Hzip.
  - intros entries. split; [apply sorted_perm|].
    split; [apply sorted_sorted, pairs_ltb_strict_total|].
    destruct (archive_groups_spec entries) as [Hnd Ha].
    split; [exact Hnd|]. intros k vs. rewrite (assoc_In _ _ _ Hnd), Ha.
    destruct (files_named entries _ k) as [|f fs]; split.
    + discriminate.
    + by intros [-> ?].
    + by intros [= <-].
    + by intros [-> _].
Qed.
End Batches.

Lemma C5_batches_order_witness :
  fst (@yukicoder.download_samples Fixtures.plain_unicode Fixtures.page_server
         Fixtures.page_library Fixtures.problem_9 None Fixtures.st0)
  = Ok [ ((lit "3", lit "Sample 1 Input"), (lit "9", lit "Sample 1 Output"));
         ((lit "1", lit "Sample 2 Input"), (lit "1", lit "Sample 2 Output")) ]
  /\ fst (@yukicoder.download_all Fixtures.archive_server Fixtures.archive_library
            Fixtures.problem_9 None Fixtures.st0)
     = Ok (yukicoder.collect_archive Fixtures.sample_archive).
Proof.
  split.
  - apply (proj1 (@C5_batches_order Fixtures.plain_unicode Fixtures.page_server
                    Fixtures.page_library)
             Fixtures.problem_9 None Fixtures.st0 (lit "https://yukicoder.me/problems/no/9")
             (Fixtures.page 200 "https://yukicoder.me/problems/no/9")
             [ (lit "3", lit "Sample 1 Input"); (lit "9", lit "Sample 1 Output");
               (lit "1", lit "Sample 2 Input"); (lit "1", lit "Sample 2 Output");
               (lit "7", lit "Sample 3 Input") ]); reflexivity.
  - apply (proj1 (proj2 (@C5_batches_order Fixtures.plain_unicode Fixtures.archive_server
                           Fixtures.archive_library))
             Fixtures.problem_9 None Fixtures.st0
             (Fixtures.page 200 "http://yukicoder.me/problems/no/9/testcase.zip")
             Fixtures.sample_archive); reflexivity.
Defined.

(** C5 as stated fails for the archive: the first case seen, in the
    archive as among the sorted names, is [01]; [download_all] returns it
    after [02], whose input text is the smaller one. *)
Lemma C5_archive_order_counterexample :
  List.map snd (yukicoder.archive_groups Fixtures.sample_archive)
  = [Fixtures.case_01; Fixtures.case_02]
  /\ fst (@yukicoder.download_all Fixtures.archive_server Fixtures.archive_library
            Fixtures.problem_9 None Fixtures.st0)
     = Ok [Fixtures.case_02; Fixtures.case_01].
Proof. vm_compute. split; reflexivity. Qed.

(** ** Strings *)

Section Strings.

Lemma startswith_from_app p t : startswith_from p (p ++ t) = true.
Proof. induction p as [|x p IH]; [reflexivity|]. cbn. by rewrite N.eqb_refl, IH. Qed.

Lemma startswith_app p t : startswith (p ++ t) p = true.
Proof. apply startswith_from_app. Qed.

Lemma endswith_app a p : endswith (a ++ p) p = true.
Proof. unfold endswith. rewrite rev_app_distr. apply startswith_from_app. Qed.

Lemma startswith_from_inv p s : startswith_from p s = true -> exists t, s = p ++ t.
Proof.
  revert s. induction p as [|x p IH]; intros s; [by exists s|].
  destruct s as [|y s]; [discriminate|]. cbn.
  intros [->%N.eqb_eq [t ->]%IH]%andb_prop. by exists t.
Qed.

Lemma endswith_inv s p : endswith s p = true -> exists a, s = a ++ p.
Proof.
  unfold endswith. intros [t Ht]%startswith_from_inv. exists (rev t).
  by rewrite <- (rev_involutive s), Ht, rev_app_distr, rev_involutive.
Qed.

Lemma skipn_length_app (p t : str) : List.skipn (List.length p) (p ++ t) = t.
Proof. induction p as [|x p IH]; [reflexivity | exact IH]. Qed.

Lemma firstn_consumed (g t : str) :
  List.firstn (List.length (g ++ t) - List.length t) (g ++ t) = g.
Proof.
  rewrite List.length_app. replace (_ + _ - _)%nat with (List.length g) by lia.
  induction g as [|x g IH]; cbn; [by destruct t|]. by rewrite IH.
Qed.

Lemma partition_found c a b : ~ In c a -> Py.partition c (a ++ c :: b) = Some (a, b).
Proof.
  induction a as [|x a IH]; cbn; intros H.
  - by rewrite N.eqb_refl.
  - destruct (N.eqb_spec x c) as [->|_]; [exfalso; apply H; by left|].
    rewrite IH; [reflexivity|]. intros Hin. apply H. by right.
Qed.

Lemma partition_missing c s : ~ In c s -> Py.partition c s = None.
Proof.
  induction s as [|x s IH]; cbn; intros H; [reflexivity|].
  destruct (N.eqb_spec x c) as [->|_]; [exfalso; apply H; by left|].
  rewrite IH; [reflexivity|]. intros Hin. apply H. by right.
Qed.

Lemma partition_inv c s a b :
  Py.partition c s = Some (a, b) -> s = a ++ c :: b /\ ~ In c a.
Proof.
  revert a. induction s as [|x s IH]; cbn; intros a; [discriminate|].
  destruct (N.eqb_spec x c) as [->|Hne].
  - intros [= <- <-]. split; [reflexivity | intros []].
  - destruct (Py.partition c s) as [[a' b']|]; [|discriminate].
    intros [= <- <-]. destruct (IH a' eq_refl) as [-> Hnot].
    split; [reflexivity|]. intros [?|?]; [congruence | done].
Qed.

Lemma rpartition_found c a b : ~ In c b -> Py.rpartition c (a ++ c :: b) = Some (a, b).
Proof.
  intros H. unfold Py.rpartition.
  rewrite rev_app_distr. cbn [rev]. rewrite <- app_assoc. cbn [app].
  rewrite partition_found by (by rewrite <- in_rev).
  by rewrite !rev_involutive.
Qed.

Lemma rpartition_inv c s a b :
  Py.rpartition c s = Some (a, b) -> s = a ++ c :: b /\ ~ In c b.
Proof.
  unfold Py.rpartition. destruct (Py.partition c (rev s)) as [[b' a']|] eqn:Hp; [|discriminate].
  intros [= <- <-]. apply partition_inv in Hp as [Hs Hnot].
  split; [|by rewrite <- in_rev].
  rewrite <- (rev_involutive s), Hs, rev_app_distr. cbn [rev]. by rewrite <- app_assoc.
Qed.

Lemma split_no_sep c s : ~ In c s -> Py.split c s = [s].
Proof.
  induction s as [|x s IH]; cbn; intros H; [reflexivity|].
  destruct (N.eqb_spec x c) as [->|_]; [exfalso; apply H; by left|].
  rewrite IH; [reflexivity|]. intros Hin. apply H. by right.
Qed.

Lemma split_at_sep c a b : ~ In c a -> Py.split c (a ++ c :: b) = a :: Py.split c b.
Proof.
  induction a as [|x a IH]; cbn; intros H.
  - by rewrite N.eqb_refl.
  - destruct (N.eqb_spec x c) as [->|_]; [exfalso; apply H; by left|].
    rewrite IH; [reflexivity|]. intros Hin. apply H. by right.
Qed.

Lemma split_parts c s w : In w (Py.split c s) -> ~ In c w /\ forall x, In x w -> In x s.
Proof.
  revert w. induction s as [|x s IH]; cbn; intros w.
  - intros [<-|[]]. split; [intros [] | done].
  - destruct (N.eqb_spec x c) as [->|Hne].
    + intros [<-|Hw]; [split; [intros [] | intros ? []]|].
      destruct (IH w Hw) as [H1 H2]. split; [done|]. intros y Hy. right. by apply H2.
    + destruct (Py.split c s) as [|w0 ws] eqn:Hs.
      * intros [<-|[]]. split; [intros [?|[]]; congruence | intros y [<-|[]]; by left].
      * intros [<-|Hw].
        -- destruct (IH w0 (or_introl eq_refl)) as [H1 H2]. split.
           ++ intros [?|?]; [congruence | done].
           ++ intros y [<-|Hy]; [by left | right; by apply H2].
        -- destruct (IH w (or_intror Hw)) as [H1 H2]. split; [done|].
           intros y Hy. right. by apply H2.
Qed.

Lemma count_app a b c : count (a ++ b) c = (count a c + count b c)%nat.
Proof. unfold count. by rewrite List.filter_app, List.length_app. Qed.

Lemma count_zero s c : count s c = 0%nat -> ~ In c s.
Proof.
  unfold count. induction s as [|x s IH]; cbn; [by intros _ []|].
  destruct (N.eqb_spec c x) as [->|Hne]; cbn; [discriminate|].
  intros H [?|?]; [congruence | by apply IH].
Qed.

Lemma count_missing s c : ~ In c s -> count s c = 0%nat.
Proof.
  unfold count. induction s as [|x s IH]; cbn; [done|]. intros H.
  destruct (N.eqb_spec c x) as [->|Hne]; [exfalso; apply H; by left|].
  apply IH. intros ?. apply H. by right.
Qed.

Lemma lstrip_chars_head p x s : p x = false -> lstrip_chars p (x :: s) = x :: s.
Proof. intros H. cbn. by rewrite H. Qed.

Lemma rstrip_chars_last p s x : p x = false -> rstrip_chars p (s ++ [x]) = s ++ [x].
Proof.
  intros H. unfold rstrip_chars. rewrite rev_app_distr. cbn [rev app].
  rewrite lstrip_chars_head by done. cbn [rev]. by rewrite rev_involutive.
Qed.

Lemma lstrip_chars_Forall p s : Forall (fun x => p x = false) s -> lstrip_chars p s = s.
Proof. destruct 1 as [|x s Hx _]; [reflexivity|]. by apply lstrip_chars_head. Qed.

Lemma rstrip_chars_Forall p s : Forall (fun x => p x = false) s -> rstrip_chars p s = s.
Proof.
  intros H. destruct s as [|x s] using rev_ind; [reflexivity|].
  apply rstrip_chars_last. apply Forall_app in H as [_ H]. by inversion H.
Qed.
End Strings.

(** ** Numbers and their decimal text *)

Section Numbers.
Context {U : unicode}.

Lemma digit_value_digit x : is_digit x = true -> digit_value x = Some (x - 48).
Proof.
  unfold digit_value, is_ascii. intros H. rewrite H.
  unfold is_digit in H. apply andb_prop in H as [_ H%N.leb_le].
  destruct (N.ltb_spec x 128); [reflexivity | lia].
Qed.

Lemma space_digit x : is_digit x = true -> space x = false.
Proof.
  unfold space, is_ascii, is_digit, is_space.
  intros [H1%N.leb_le H2%N.leb_le]%andb_prop.
  destruct (N.ltb_spec x 128); [|lia].
  destruct (N.leb_spec 9 x), (N.leb_spec x 13), (N.leb_spec 28 x), (N.leb_spec x 32);
    cbn; try reflexivity; lia.
Qed.

Lemma digits_of_uint_digits d : Forall (fun x => is_digit x = true) (digits_of_uint d).
Proof. induction d; cbn [digits_of_uint]; constructor; done. Qed.

Lemma digits_of_uint_nonnil d : d <> Decimal.Nil -> digits_of_uint d <> [].
Proof. by destruct d. Qed.

Lemma uint_of_digits_of_uint prev d :
  prev = true \/ d <> Decimal.Nil ->
  uint_of_digits prev (digits_of_uint d) = Some d.
Proof.
  revert prev. induction d; intros prev H; cbn [digits_of_uint uint_of_digits];
    try (rewrite digit_value_digit by reflexivity; cbn [N.sub Pos.sub Pos.sub_mask];
         rewrite IHd by (by left); reflexivity).
  destruct H as [->|H]; [reflexivity | done].
Qed.

Lemma uint_of_digits_digits prev ds :
  Forall (fun x => is_digit x = true) ds -> prev = true \/ ds <> [] ->
  exists d, uint_of_digits prev ds = Some d.
Proof.
  intros H. revert prev. induction H as [|x ds Hx _ IH]; intros prev Hp; cbn.
  - destruct Hp as [->|?]; [by eexists | done].
  - rewrite (digit_value_digit _ Hx). destruct (IH true (or_introl eq_refl)) as (d & ->).
    by eexists.
Qed.

Lemma strip_digits ds : Forall (fun x => is_digit x = true) ds -> strip ds = ds.
Proof.
  intros H. unfold strip.
  assert (Hs : Forall (fun x => space x = false) ds).
  { eapply Forall_impl; [exact H|]. apply space_digit. }
  by rewrite lstrip_chars_Forall, rstrip_chars_Forall.
Qed.

(** [int] of a string of digits. *)
Lemma int_digits ds :
  Forall (fun x => is_digit x = true) ds ->
  Py.int ds = option_map (fun d => Z.of_int (Decimal.Pos d)) (uint_of_digits false ds).
Proof.
  intros H. unfold Py.int. rewrite (strip_digits _ H).
  destruct H as [|x ds Hx Hds]; [reflexivity|].
  assert (x <> 45 /\ x <> 43) as [H1 H2].
  { split; intros ->; discriminate Hx. }
  apply N.eqb_neq in H1, H2. by rewrite H1, H2.
Qed.

Lemma int_digits_nonneg ds :
  Forall (fun x => is_digit x = true) ds -> ds <> [] ->
  exists n, Py.int ds = Some n /\ (0 <= n)%Z.
Proof.
  intros H Hne. rewrite (int_digits _ H).
  destruct (uint_of_digits_digits false ds H (or_intror Hne)) as (d & ->).
  eexists. split; [reflexivity|]. cbn. unfold Z.of_uint. lia.
Qed.

(** [int(str(n)) = n] *)
Lemma int_str_of_int n : Py.int (str_of_int n) = Some n.
Proof.
  unfold str_of_int. pose proof (DecimalZ.of_to n) as Hn.
  destruct (Z.to_int n) as [d|d] eqn:Hd.
  - assert (Hnn : d <> Decimal.Nil).
    { destruct n; cbn in Hd; try discriminate Hd; injection Hd as <-;
        [discriminate | apply DecimalPos.Unsigned.to_uint_nonnil]. }
    rewrite (int_digits _ (digits_of_uint_digits d)).
    rewrite uint_of_digits_of_uint by (by right). cbn [option_map]. by rewrite Hn.
  - assert (Hnn : d <> Decimal.Nil).
    { destruct n; cbn in Hd; try discriminate. injection Hd as <-.
      apply DecimalPos.Unsigned.to_uint_nonnil. }
    unfold Py.int, strip.
    rewrite (lstrip_chars_head space 45) by reflexivity.
    assert (Hr : rstrip_chars space (45 :: digits_of_uint d) = 45 :: digits_of_uint d).
    { apply rstrip_chars_Forall. constructor; [reflexivity|].
      eapply Forall_impl; [apply digits_of_uint_digits|]. apply space_digit. }
    rewrite Hr. cbn [N.eqb Pos.eqb].
    rewrite uint_of_digits_of_uint by (by right). cbn [option_map]. by rewrite Hn.
Qed.

Lemma str_of_int_positive n :
  (0 < n)%Z ->
  Forall (fun x => is_digit x = true) (str_of_int n) /\ str_of_int n <> [].
Proof.
  intros Hn. unfold str_of_int. destruct n as [|p|p]; try lia. cbn.
  split; [apply digits_of_uint_digits|].
  apply digits_of_uint_nonnil, DecimalPos.Unsigned.to_uint_nonnil.
Qed.

(** Leading zeros do not change the value: [int(s.lstrip('0') or '0')]. *)
Lemma int_without_leading_zeros ds :
  Forall (fun x => is_digit x = true) ds -> ds <> [] ->
  Py.int (match lstrip_chars (N.eqb 48) ds with [] => lit "0" | d => d end) = Py.int ds.
Proof.
  intros H. induction H as [|x ds Hx Hds IH]; [done|]. intros _.
  cbn [lstrip_chars]. destruct (N.eqb_spec 48 x) as [<-|Hne].
  - destruct ds as [|y ds]; [reflexivity|].
    rewrite IH by done.
    rewrite (int_digits _ Hds), (int_digits (48 :: y :: ds)) by (by constructor).
    cbn [uint_of_digits]. rewrite (digit_value_digit 48) by reflexivity.
    cbn [N.sub Pos.sub Pos.sub_mask digit_cons].
    rewrite (digit_value_digit y) by (by inversion Hds).
    destruct (uint_of_digits true ds); reflexivity.
  - reflexivity.
Qed.
End Numbers.

(** ** Parsing URLs *)

Section Parsing.
Import Spec.

Lemma has_false c s : urllib_parse.has c s = false <-> ~ In c s.
Proof.
  unfold urllib_parse.has. induction s as [|x s IH]; cbn; [by split; [intros _ [] |]|].
  destruct (N.eqb_spec c x) as [->|Hne]; cbn.
  - split; [discriminate|]. intros H. exfalso. apply H. by left.
  - rewrite IH. split; [intros H [?|?]; [congruence | done] | intros H ?; apply H; by right].
Qed.

Lemma cut_missing c s : ~ In c s -> urllib_parse.cut c s = (s, []).
Proof. intros H. unfold urllib_parse.cut. by rewrite partition_missing. Qed.

Lemma cut_fst c s : ~ In c (fst (urllib_parse.cut c s)) /\ forall x, In x (fst (urllib_parse.cut c s)) -> In x s.
Proof.
  unfold urllib_parse.cut. destruct (Py.partition c s) as [[a b]|] eqn:Hp; cbn.
  - apply partition_inv in Hp as [-> Hnot]. split; [done|].
    intros x Hx. apply in_or_app. by left.
  - split; [|done]. intros Hin.
    assert (Hex : exists a b, s = a ++ c :: b /\ ~ In c a).
    { clear Hp. induction s as [|y s IH]; [done|].
      destruct (N.eq_dec y c) as [->|Hne]; [exists [], s; split; [reflexivity | intros []]|].
      destruct Hin as [?|Hin]; [congruence|].
      destruct (IH Hin) as (a & b & -> & Hn). exists (y :: a), b.
      split; [done|]. intros [?|?]; [congruence | done]. }
    destruct Hex as (a & b & -> & Hn). by rewrite partition_found in Hp.
Qed.

Lemma splitnetloc_shape s :
  Forall (fun x => urllib_parse.is_delim x = false) (fst (urllib_parse.splitnetloc s)).
Proof.
  induction s as [|x s IH]; cbn; [constructor|].
  destruct (urllib_parse.is_delim x) eqn:Hx; cbn; [constructor|].
  destruct (urllib_parse.splitnetloc s) as [a b]. cbn in *. by constructor.
Qed.

Lemma splitnetloc_app loc rest :
  Forall (fun x => urllib_parse.is_delim x = false) loc ->
  urllib_parse.splitnetloc (loc ++ 47 :: rest) = (loc, 47 :: rest).
Proof.
  induction 1 as [|x loc Hx _ IH]; cbn; [reflexivity|]. by rewrite Hx, IH.
Qed.

Lemma urlsplit_shape s r :
  urllib_parse.urlsplit s = Ok r ->
  netloc_shaped (urllib_parse.netloc r)
  /\ ~ In 35 (urllib_parse.path r) /\ ~ In 63 (urllib_parse.path r).
Proof.
  unfold urllib_parse.urlsplit.
  destruct (urllib_parse.split_scheme s) as [sch url1].
  destruct (if startswith url1 (lit "//") then _ else _) as [loc url2] eqn:Hloc.
  destruct (_ || _) eqn:Hbr; [discriminate|].
  pose proof (cut_fst 35 url2) as [H35 Hsub35].
  destruct (urllib_parse.cut 35 url2) as [url3 frag].
  pose proof (cut_fst 63 url3) as [H63 Hsub63].
  destruct (urllib_parse.cut 63 url3) as [url4 qry].
  intros [= <-]. cbn in *. split; [split; [|exact Hbr]|].
  - destruct (startswith url1 (lit "//")).
    + pose proof (splitnetloc_shape (List.skipn 2 url1)) as Hs. by rewrite Hloc in Hs.
    + injection Hloc as <- _. constructor.
  - split; [|done]. intros Hin. apply H35. by apply Hsub63.
Qed.

Lemma splitparams_sub url x : In x (fst (urllib_parse.splitparams url)) -> In x url.
Proof.
  unfold urllib_parse.splitparams.
  destruct (Py.rpartition 47 url) as [[before last]|] eqn:Hr.
  - apply rpartition_inv in Hr as [-> _].
    destruct (Py.partition 59 last) as [[a b]|] eqn:Hp; cbn; [|done].
    apply partition_inv in Hp as [-> _]. intros [Hx|[<-|Hx]]%in_app_or.
    + apply in_or_app. by left.
    + apply in_or_app. right. by left.
    + apply in_or_app. right. right. apply in_or_app. by left.
  - apply cut_fst.
Qed.

Lemma urlparse_shape s r :
  urllib_parse.urlparse s = Ok r ->
  netloc_shaped (urllib_parse.netloc r)
  /\ ~ In 35 (urllib_parse.path r) /\ ~ In 63 (urllib_parse.path r).
Proof.
  unfold urllib_parse.urlparse.
  destruct (urllib_parse.urlsplit s) as [r0|e] eqn:Hs; [|discriminate].
  apply urlsplit_shape in Hs as (Hloc & H35 & H63).
  destruct (_ && _); [|by intros [= <-]].
  pose proof (splitparams_sub (urllib_parse.path r0)) as Hsub.
  destruct (urllib_parse.splitparams _) as [p prm]. intros [= <-]. cbn in *.
  split; [done|]. split; intros Hin; [apply H35 | apply H63]; by apply Hsub.
Qed.

Lemma split_scheme_http rest :
  urllib_parse.split_scheme (lit "http" ++ 58 :: rest) = (lit "http", rest).
Proof.
  unfold urllib_parse.split_scheme.
  rewrite partition_found by (vm_compute; intuition discriminate).
  reflexivity.
Qed.

(** The URL that [get_url] builds parses into its parts. *)
Lemma urlparse_http loc p :
  netloc_shaped loc -> url_safe p ->
  urllib_parse.urlparse (lit "http://" ++ loc ++ 47 :: p) = Ok (http_parts loc p).
Proof.
  intros [Hd Hb] (H35 & H63 & H59).
  unfold urllib_parse.urlparse, urllib_parse.urlsplit.
  change (lit "http://" ++ loc ++ 47 :: p)
    with (lit "http" ++ 58 :: (lit "//" ++ loc ++ 47 :: p)).
  rewrite split_scheme_http, startswith_app.
  change 2%nat with (List.length (lit "//")). rewrite skipn_length_app.
  rewrite (splitnetloc_app _ _ Hd), Hb.
  assert (H35' : ~ In 35 (47 :: p)) by (intros [?|?]; [discriminate | done]).
  assert (H63' : ~ In 63 (47 :: p)) by (intros [?|?]; [discriminate | done]).
  assert (H59' : ~ In 59 (47 :: p)) by (intros [?|?]; [discriminate | done]).
  rewrite (cut_missing 35) by done. rewrite (cut_missing 63) by done.
  cbn [urllib_parse.scheme urllib_parse.path].
  apply has_false in H59'. rewrite H59', andb_false_r. reflexivity.
Qed.
End Parsing.

(** ** Normalizing paths *)

Section Normalizing.
Import Spec.

Lemma str_eqb_false a b : a <> b -> str_eqb a b = false.
Proof. intros H. unfold str_eqb. by apply bool_decide_eq_false_2. Qed.

Lemma str_eqb_refl a : str_eqb a a = true.
Proof. by apply str_eqb_eq. Qed.

Lemma lstrip_chars_suffix p s : exists t, s = t ++ lstrip_chars p s.
Proof.
  induction s as [|x s [t IH]]; [by exists []|]. cbn.
  destruct (p x); [|by exists []]. exists (x :: t). cbn. by rewrite <- IH.
Qed.

Lemma rstrip_chars_prefix p s : exists t, s = rstrip_chars p s ++ t.
Proof.
  unfold rstrip_chars. destruct (lstrip_chars_suffix p (rev s)) as [t Ht].
  exists (rev t). by rewrite <- rev_app_distr, <- Ht, rev_involutive.
Qed.

Lemma neq_slash y : y <> 47 -> (47 =? y) = false.
Proof. intros H. apply N.eqb_neq. congruence. Qed.

Lemma lstrip_head_not_slash s : head_not_slash s -> lstrip_chars (N.eqb 47) s = s.
Proof.
  destruct s as [|y s]; [reflexivity|]. cbn [head_not_slash lstrip_chars]. intros H.
  by rewrite neq_slash.
Qed.

Lemma startswith_double_slash s :
  head_not_slash s -> startswith s (lit "//") = false /\ startswith (47 :: s) (lit "//") = false.
Proof.
  change (lit "//") with [47; 47]. destruct s as [|y s]; [done|].
  cbn [head_not_slash startswith startswith_from]. intros H.
  by rewrite N.eqb_refl, neq_slash.
Qed.

Lemma join_head_not_slash i comps : Forall (kept i) comps -> head_not_slash (join 47 comps).
Proof.
  destruct 1 as [|c comps (Hne & Hns & _) _]; [exact I|].
  destruct c as [|y c]; [done|].
  assert (y <> 47) by (intros ->; apply Hns; by left).
  by destruct comps.
Qed.

Lemma join_last comps :
  comps <> [] ->
  exists X l, 47 :: join 47 comps = X ++ 47 :: l /\ In l comps.
Proof.
  induction comps as [|w comps IH]; [done|]. intros _.
  destruct comps as [|w' ws].
  - exists [], w. split; [reflexivity | by left].
  - destruct IH as (X & l & HX & Hl); [done|].
    exists (47 :: w ++ X), l. split; [|by right].
    cbn [join] in *. cbn [app]. rewrite <- app_assoc. by rewrite <- HX.
Qed.

Lemma last_split_unique c (a b a' b' : str) :
  a ++ c :: b = a' ++ c :: b' -> ~ In c b -> ~ In c b' -> a = a' /\ b = b'.
Proof.
  intros Heq Hb Hb'. pose proof (rpartition_found c a b Hb) as H1.
  rewrite Heq, (rpartition_found c a' b' Hb') in H1. by injection H1 as -> ->.
Qed.

Lemma Forall_removelast {A} (P : A -> Prop) l : Forall P l -> Forall P (removelast l).
Proof.
  induction 1 as [|x l Hx Hl IH]; [constructor|]. cbn.
  destruct l; [constructor | by constructor].
Qed.

Lemma In_removelast {A} (x : A) l : In x (removelast l) -> In x l.
Proof.
  induction l as [|y l IH]; [done|]. cbn. destruct l as [|z l]; [done|].
  intros [<-|H]; [by left | right; by apply IH].
Qed.

Lemma normpath_comps_kept i acc comps :
  Forall (fun c => ~ In 47 c) comps -> Forall (kept i) acc ->
  Forall (kept i) (posixpath.normpath_comps i acc comps).
Proof.
  intros Hc. revert acc. induction Hc as [|comp comps Hns _ IH]; intros acc Hacc; cbn.
  - exact Hacc.
  - destruct (str_eqb comp [] || str_eqb comp (lit ".")) eqn:Hskip; [by apply IH|].
    apply orb_false_elim in Hskip as [He Hd].
    assert (comp <> []) by (intros ->; by rewrite str_eqb_refl in He).
    assert (comp <> lit ".") by (intros ->; by rewrite str_eqb_refl in Hd).
    destruct (_ || _) eqn:Hcond.
    + apply IH. apply Forall_app. split; [exact Hacc|]. constructor; [|constructor].
      split; [done|]. split; [done|]. split; [done|]. intros Hi ->.
      rewrite str_eqb_refl in Hcond. cbn [negb orb] in Hcond.
      destruct i; [done|]. cbn [Nat.eqb andb orb] in Hcond.
      destruct (last acc) as [l|] eqn:Hl; [|discriminate].
      apply str_eqb_eq in Hcond as ->.
      apply last_Some in Hl as [acc' ->]. apply Forall_app in Hacc as [_ Hacc].
      inversion Hacc as [|? ? (_ & _ & _ & Hk) _]; subst. by apply Hk.
    + apply IH. by apply Forall_removelast.
Qed.

Lemma normpath_comps_sub i acc comps c :
  In c (posixpath.normpath_comps i acc comps) -> In c acc \/ In c comps.
Proof.
  revert acc. induction comps as [|comp comps IH]; intros acc; cbn; [by left|].
  destruct (_ || _).
  - intros [?|?]%IH; [by left | right; by right].
  - destruct (_ || _).
    + intros [[?|[<-|[]]]%in_app_or|?]%IH; [by left | right; by left | right; by right].
    + intros [?%In_removelast|?]%IH; [by left | right; by right].
Qed.

(** An absolute normalized path is a slash followed by segments joined by
    slashes, each of them a component of the path that was normalized. *)
Lemma normpath_absolute path N' :
  atcoder.normpath path = 47 :: N' ->
  exists comps,
    N' = join 47 comps /\ Forall segment comps
    /\ forall c, In c comps -> ~ In 47 c /\ forall x, In x c -> In x path.
Proof.
  unfold atcoder.normpath, posixpath.normpath.
  destruct path as [|x0 path']; [discriminate|].
  set (path := x0 :: path'). set (i := if startswith path (lit "/") then _ else _).
  set (comps := posixpath.normpath_comps i [] (Py.split posixpath.slash path)).
  assert (Hparts : forall c, In c comps -> ~ In 47 c /\ forall x, In x c -> In x path).
  { intros c [[]|Hc]%normpath_comps_sub. by apply (split_parts posixpath.slash path). }
  assert (Hkept : Forall (kept i) comps).
  { apply normpath_comps_kept; [|constructor].
    apply List.Forall_forall. intros c Hc. by apply (split_parts posixpath.slash path). }
  pose proof (join_head_not_slash i comps Hkept) as Hhead.
  pose proof (startswith_double_slash _ Hhead) as [Hs0 Hs1].
  assert (Hi : i = 0%nat \/ i = 1%nat \/ i = 2%nat).
  { subst i. destruct (startswith path (lit "/")); [|by left].
    destruct (_ && _); [right; by right | right; by left]. }
  change posixpath.slash with 47 in *.
  destruct Hi as [Hi|[Hi|Hi]]; rewrite Hi in *; cbn [List.repeat app].
  - destruct (join 47 comps) as [|y t] eqn:Hj.
    + intros H. vm_compute in H. discriminate H.
    + rewrite Hs0. intros [= -> _]. done.
  - rewrite Hs1. intros [= <-].
    exists comps. split; [reflexivity|]. split; [|exact Hparts].
    eapply Forall_impl; [exact Hkept|]. intros c (? & ? & ? & Hk). repeat split; try done.
    by apply Hk.
  - change posixpath.slash with 47.
    change (startswith (47 :: 47 :: join 47 comps) (lit "//")) with true. cbn iota.
    cbn [lstrip_chars N.eqb Pos.eqb]. rewrite (lstrip_head_not_slash _ Hhead).
    intros [= <-]. exists comps. split; [reflexivity|]. split; [|exact Hparts].
    eapply Forall_impl; [exact Hkept|]. intros c (? & ? & ? & Hk). repeat split; try done.
    by apply Hk.
Qed.

Lemma split_dir_inv N dir b :
  posixpath.split N = (47 :: dir, b) -> segment dir ->
  exists N' before, N = 47 :: N' /\ N = before ++ 47 :: b /\ ~ In 47 b.
Proof.
  unfold posixpath.split. intros H (Hne & Hns & _).
  destruct (Py.rpartition posixpath.slash N) as [[before tail]|] eqn:Hr; [|discriminate].
  apply rpartition_inv in Hr as [-> Htail]. injection H as Hdir <-.
  assert (Hpre : exists t, before ++ [posixpath.slash] = (47 :: dir) ++ t).
  { destruct (posixpath.all_slashes _) eqn:Hall.
    - exists []. by rewrite app_nil_r.
    - rewrite <- Hdir. apply rstrip_chars_prefix. }
  destruct Hpre as [t Ht]. destruct before as [|y before].
  - exfalso. destruct dir; [done|]. discriminate Ht.
  - injection Ht as -> _. by exists (before ++ 47 :: tail), (47 :: before).
Qed.

(** The last name of a normalized path below a directory is a segment
    made of characters of the path. *)
Lemma split_normpath_segment path dir b :
  posixpath.split (atcoder.normpath path) = (47 :: dir, b) ->
  segment dir -> b <> [] ->
  segment b /\ forall x, In x b -> In x path.
Proof.
  intros Hsplit Hdir Hb.
  destruct (split_dir_inv _ _ _ Hsplit Hdir) as (N' & before & HN & Hbefore & Hns).
  destruct (normpath_absolute _ _ HN) as (comps & -> & Hseg & Hparts).
  assert (Hcomps : comps <> []).
  { intros ->. rewrite HN in Hbefore. cbn in Hbefore.
    destruct before as [|y [|z before]]; [|discriminate..].
    injection Hbefore as <-. done. }
  destruct (join_last comps Hcomps) as (X & l & HX & Hl).
  rewrite HN, HX in Hbefore.
  destruct (Hparts l Hl) as [Hls Hlsub].
  destruct (last_split_unique _ _ _ _ _ Hbefore Hls Hns) as [_ ->].
  split; [|exact Hlsub]. by apply (proj1 (List.Forall_forall _ _) Hseg).
Qed.

(** A path of two segments is normalized already. *)
Lemma normpath_segments dir b :
  segment dir -> segment b ->
  atcoder.normpath (47 :: dir ++ 47 :: b) = 47 :: dir ++ 47 :: b
  /\ posixpath.split (47 :: dir ++ 47 :: b) = (47 :: dir, b).
Proof.
  intros (Hd1 & Hd2 & Hd3 & Hd4) (Hb1 & Hb2 & Hb3 & Hb4).
  destruct dir as [|d0 dir]; [done|].
  assert (Hd0 : d0 <> 47) by (intros ->; apply Hd2; by left).
  split.
  - unfold atcoder.normpath, posixpath.normpath. cbn [app].
    change (lit "/") with [47]. change (lit "//") with [47; 47].
    change (startswith (47 :: d0 :: dir ++ 47 :: b) [47]) with true.
    assert (Hss : startswith (47 :: d0 :: dir ++ 47 :: b) [47; 47] = false).
    { cbn [startswith startswith_from app]. by rewrite N.eqb_refl, neq_slash. }
    rewrite Hss. cbn [andb].
    change (47 :: d0 :: dir ++ 47 :: b) with ([] ++ 47 :: (d0 :: dir) ++ 47 :: b).
    change posixpath.slash with 47.
    rewrite (split_at_sep 47 []) by (intros []).
    rewrite (split_at_sep 47 (d0 :: dir)) by done.
    rewrite (split_no_sep 47 b) by done.
    cbn [posixpath.normpath_comps]. rewrite str_eqb_refl. cbn [orb].
    rewrite (str_eqb_false (d0 :: dir) []), (str_eqb_false (d0 :: dir) (lit ".")) by done.
    rewrite (str_eqb_false (d0 :: dir) (lit "..")) by done. cbn [orb negb app].
    rewrite (str_eqb_false b []), (str_eqb_false b (lit ".")) by done.
    rewrite (str_eqb_false b (lit "..")) by done. cbn [orb negb app].
    cbn [join List.repeat app].
    by rewrite Hss.
  - unfold posixpath.split. change posixpath.slash with 47.
    change (47 :: (d0 :: dir) ++ 47 :: b) with ((47 :: d0 :: dir) ++ 47 :: b).
    rewrite rpartition_found by done.
    assert (Hall : posixpath.all_slashes ((47 :: d0 :: dir) ++ [47]) = false).
    { cbn [posixpath.all_slashes forallb app]. change posixpath.slash with 47.
      by rewrite N.eqb_refl, neq_slash. }
    rewrite Hall. f_equal.
    destruct (exists_last (l := d0 :: dir)) as (dir' & y & Hy); [done|].
    assert (Hy47 : y <> 47).
    { intros ->. apply Hd2. rewrite Hy. apply in_or_app. right. by left. }
    rewrite Hy. unfold rstrip_chars. rewrite app_comm_cons, !rev_app_distr. cbn [rev app].
    cbn [lstrip_chars]. rewrite N.eqb_refl. cbn [lstrip_chars]. rewrite neq_slash by done.
    cbn [rev]. rewrite rev_app_distr, rev_involutive. reflexivity.
Qed.
End Normalizing.

(** ** What a match binds *)

Section Matching.

Lemma many_inv p s t :
  In t (re.many p s) -> exists g, Forall (fun x => p x = true) g /\ s = g ++ t.
Proof.
  revert t. induction s as [|x s IH]; intros t; cbn [re.many].
  - intros [<-|[]]. by exists [].
  - destruct (p x) eqn:Hp.
    + intros [Ht|[<-|[]]]%in_app_or.
      * destruct (IH _ Ht) as (g & Hg & ->). exists (x :: g). split; [by constructor | done].
      * by exists [].
    + intros [<-|[]]. by exists [].
Qed.

Lemma many_head p s : Forall (fun x => p x = true) s -> List.head (re.many p s) = Some [].
Proof.
  induction 1 as [|x s Hx _ IH]; [reflexivity|]. cbn [re.many]. rewrite Hx.
  destruct (re.many p s); [discriminate | exact IH].
Qed.

Lemma run_Seq_inv a b st st' :
  In st' (re.run (re.Seq a b) st) -> exists st1, In st1 (re.run a st) /\ In st' (re.run b st1).
Proof. cbn [re.run]. by intros ?%in_flat_map. Qed.

Lemma run_Lit_inv s st st' : In st' (re.run (re.Lit s) st) -> re.groups st' = re.groups st.
Proof. cbn [re.run]. destruct (startswith _ _); [|done]. by intros [<-|[]]. Qed.

Lemma run_Bol_inv st st' : In st' (re.run re.Bol st) -> st' = st.
Proof. cbn [re.run]. destruct (re.bol st); [|done]. by intros [<-|[]]. Qed.

Lemma run_Eol_inv st st' : In st' (re.run re.Eol st) -> st' = st.
Proof.
  cbn [re.run]. destruct (re.rest st) as [|x [|y t]]; [by intros [<-|[]] | | done].
  destruct (x =? 10); [|done]. by intros [<-|[]].
Qed.

Lemma run_Opt_inv a st st' :
  In st' (re.run (re.Opt a) st) -> In st' (re.run a st) \/ st' = st.
Proof. cbn [re.run]. intros [?|[<-|[]]]%in_app_or; [by left | by right]. Qed.

(** A group around [[class]+] binds a non-empty run of the class. *)
Lemma run_Group_Many1_inv n p st st' :
  In st' (re.run (re.Group n (re.Many1 p)) st) ->
  exists g, g <> [] /\ Forall (fun x => p x = true) g
            /\ re.groups st' = <[n := g]> (re.groups st).
Proof.
  cbn [re.run]. intros (st1 & <- & Hst1)%in_map_iff. cbn [re.groups].
  destruct (re.rest st) as [|x s] eqn:Hrest; [done|].
  destruct (p x) eqn:Hp; [|done].
  apply in_map_iff in Hst1 as (t & <- & (g & Hg & ->)%many_inv).
  cbn [re.advance re.rest re.groups].
  exists (x :: g). split; [done|]. split; [by constructor|].
  change (x :: g ++ t) with ((x :: g) ++ t). by rewrite firstn_consumed.
Qed.

Lemma match_In r s m : re.match_ r s = Some m -> exists st, In st (re.run r (re.start s)) /\ re.groups st = m.
Proof.
  unfold re.match_. destruct (re.run r (re.start s)) as [|st l]; [discriminate|].
  intros [= <-]. exists st. split; [by left | done].
Qed.

(** The first way a sequence matches, when each part matches at once. *)
Lemma head_run_Seq a b st st1 st' :
  List.head (re.run a st) = Some st1 -> List.head (re.run b st1) = Some st' ->
  List.head (re.run (re.Seq a b) st) = Some st'.
Proof.
  cbn [re.run]. destruct (re.run a st) as [|x l]; [discriminate|]. intros [= ->].
  cbn [flat_map]. by destruct (re.run b st1).
Qed.

Lemma head_run_Opt a st st1 :
  List.head (re.run a st) = Some st1 -> List.head (re.run (re.Opt a) st) = Some st1.
Proof. cbn [re.run]. by destruct (re.run a st). Qed.

Lemma head_run_Opt_skip a st : re.run a st = [] -> List.head (re.run (re.Opt a) st) = Some st.
Proof. cbn [re.run]. by intros ->. Qed.

Lemma run_Lit_app s t b g :
  s <> [] ->
  re.run (re.Lit s) {| re.bol := b; re.rest := s ++ t; re.groups := g |}
  = [ {| re.bol := false; re.rest := t; re.groups := g |} ].
Proof.
  intros Hs. cbn [re.run re.rest re.bol re.groups].
  rewrite startswith_app, skipn_length_app. destruct s; [done|].
  by rewrite andb_false_r.
Qed.

Lemma run_Group_Lit_app n s t b g :
  s <> [] ->
  re.run (re.Group n (re.Lit s)) {| re.bol := b; re.rest := s ++ t; re.groups := g |}
  = [ {| re.bol := false; re.rest := t; re.groups := <[n := s]> g |} ].
Proof.
  intros Hs. change (re.run (re.Group n (re.Lit s)) ?st)
    with (List.map (fun st' =>
            {| re.bol := re.bol st'; re.rest := re.rest st';
               re.groups := <[n := List.firstn (List.length (re.rest st) - List.length (re.rest st'))
                                     (re.rest st)]> (re.groups st') |})
            (re.run (re.Lit s) st)).
  rewrite run_Lit_app by done. cbn [List.map re.bol re.rest re.groups].
  by rewrite firstn_consumed.
Qed.

(** [([class]+)] at the end of the text takes all of it first. *)
Lemma head_run_Group_Many1 n p ds b g :
  ds <> [] -> Forall (fun x => p x = true) ds ->
  List.head (re.run (re.Group n (re.Many1 p)) {| re.bol := b; re.rest := ds; re.groups := g |})
  = Some {| re.bol := false; re.rest := []; re.groups := <[n := ds]> g |}.
Proof.
  intros Hne Hds. destruct Hds as [|x s Hx Hs]; [done|].
  cbn [re.run re.rest re.groups]. rewrite Hx.
  pose proof (many_head p s Hs) as Hh.
  destruct (re.many p s) as [|t l]; [discriminate|]. injection Hh as ->.
  cbn [List.map List.head re.advance re.bol re.rest re.groups List.length].
  change (S (List.length s) - 0)%nat with (List.length (x :: s)). by rewrite firstn_all.
Qed.

Lemma head_run_end b g :
  List.head (re.run (re.Seq (re.Opt (re.Lit (lit "/"))) re.Eol)
               {| re.bol := b; re.rest := []; re.groups := g |})
  = Some {| re.bol := b; re.rest := []; re.groups := g |}.
Proof. reflexivity. Qed.
End Matching.

(** ** From an entity to its URL and back *)

Section RoundTrip.
Import Spec.
Context {U : unicode}.

Lemma Forall_not_In {A} (P : A -> Prop) c l : ~ P c -> Forall P l -> ~ In c l.
Proof. intros Hc Hl Hin. apply Hc. by apply (proj1 (List.Forall_forall _ _) Hl). Qed.

Lemma word_dash_not c g :
  re.word_dash c = false -> Forall (fun x => re.word_dash x = true) g -> ~ In c g.
Proof. intros Hc. apply Forall_not_In. by rewrite Hc. Qed.

Lemma segment_without b : b <> [] -> ~ In 47 b -> ~ In 46 b -> segment b.
Proof.
  intros Hne H47 H46. split; [done|]. split; [done|].
  split; intros ->; apply H46; by left.
Qed.

Lemma not_In_literal (x : N) (l : str) : forallb (fun y => negb (x =? y)) l = true -> ~ In x l.
Proof.
  intros H Hin. apply (proj1 (forallb_forall _ _) H) in Hin.
  by rewrite N.eqb_refl in Hin.
Qed.

Lemma not_In_contest_suffix c x :
  ~ In x c -> ~ In x atcoder.contest_suffix -> ~ In x (c ++ atcoder.contest_suffix).
Proof. intros Hc Hs [?|?]%in_app_or; tauto. Qed.

Lemma netloc_shaped_contest c :
  ~ In 47 c -> ~ In 63 c -> ~ In 35 c -> ~ In 91 c -> ~ In 93 c ->
  netloc_shaped (c ++ atcoder.contest_suffix).
Proof.
  intros H47 H63 H35 H91 H93. split.
  - apply Forall_app. split.
    + apply List.Forall_forall. intros x Hx. unfold urllib_parse.is_delim.
      destruct (N.eqb_spec x 47) as [->|_]; [done|].
      destruct (N.eqb_spec x 63) as [->|_]; [done|].
      by destruct (N.eqb_spec x 35) as [->|_].
    + vm_compute. repeat constructor.
  - assert (H1 : urllib_parse.has 91 (c ++ atcoder.contest_suffix) = false).
    { apply has_false, not_In_contest_suffix; [done|]. apply not_In_literal. reflexivity. }
    assert (H2 : urllib_parse.has 93 (c ++ atcoder.contest_suffix) = false).
    { apply has_false, not_In_contest_suffix; [done|]. apply not_In_literal. reflexivity. }
    by rewrite H1, H2.
Qed.

(** A host [<c>.contest.atcoder.jp] with three dots has no dot in [<c>],
    which is its first label. *)
Lemma first_label_contest c :
  ~ In 46 c -> atcoder.first_label (c ++ atcoder.contest_suffix) = c.
Proof.
  intros Hc. unfold atcoder.first_label.
  change atcoder.contest_suffix with (46 :: lit "contest.atcoder.jp").
  by rewrite split_at_sep.
Qed.

Lemma contest_host_inv loc :
  count loc 46 = 3%nat -> endswith loc atcoder.contest_suffix = true ->
  ~ In 46 (atcoder.first_label loc) /\ loc = atcoder.first_label loc ++ atcoder.contest_suffix.
Proof.
  intros Hcount [a ->]%endswith_inv. rewrite count_app in Hcount.
  change (count atcoder.contest_suffix 46) with 3%nat in Hcount.
  assert (Ha : ~ In 46 a) by (apply count_zero; lia).
  by rewrite first_label_contest.
Qed.

Lemma contest_host_accepted c :
  c <> [] -> ~ In 46 c ->
  Nat.eqb (count (c ++ atcoder.contest_suffix) 46) 3
  && endswith (c ++ atcoder.contest_suffix) atcoder.contest_suffix
  && negb (str_eqb (atcoder.first_label (c ++ atcoder.contest_suffix)) []) = true.
Proof.
  intros Hne Hc. rewrite count_app, (count_missing c) by done.
  change (count atcoder.contest_suffix 46) with 3%nat.
  rewrite endswith_app, first_label_contest by done.
  by rewrite (str_eqb_false c []).
Qed.

Lemma str_of_int_chars n :
  str_of_int n <> [] /\ Forall (fun x => is_digit x = true \/ x = 45) (str_of_int n).
Proof.
  unfold str_of_int. destruct (Z.to_int n) as [d|d] eqn:Hd.
  - split.
    + apply digits_of_uint_nonnil.
      destruct n; cbn in Hd; try discriminate Hd; injection Hd as <-;
        [discriminate | apply DecimalPos.Unsigned.to_uint_nonnil].
    + eapply Forall_impl; [apply digits_of_uint_digits|]. by left.
  - split; [done|]. constructor; [by right|].
    eapply Forall_impl; [apply digits_of_uint_digits|]. by left.
Qed.

Lemma str_of_int_without c n :
  is_digit c = false -> c <> 45 -> ~ In c (str_of_int n).
Proof.
  intros Hc H45. eapply Forall_not_In; [|apply str_of_int_chars].
  intros [H|H]; [by rewrite Hc in H | done].
Qed.

Lemma url_safe_below dir b : url_safe dir -> url_safe b -> url_safe (dir ++ 47 :: b).
Proof.
  intros (? & ? & ?) (? & ? & ?).
  repeat split; intros [?|[?|?]]%in_app_or; done.
Qed.

Lemma segment_literals : segment (lit "tasks") /\ segment (lit "submissions").
Proof.
  split; (split; [|split; [by apply not_In_literal|split]]);
    intros H; vm_compute in H; discriminate H.
Qed.

Lemma py_in_http : atcoder.py_in (atcoder.PStr (lit "http")) atcoder.http_schemes = true.
Proof. reflexivity. Qed.

(** The URL of a problem of contest [c] named [b] is recognized as that
    problem. *)
Lemma problem_url_recognized c b :
  c <> [] -> ~ In 46 c -> netloc_shaped (c ++ atcoder.contest_suffix) ->
  segment b -> url_safe b ->
  atcoder.Problem_from_url (atcoder.Problem_get_url (atcoder.Problem_init c b))
  = Ok (Some (atcoder.Problem_init c b)).
Proof.
  intros Hne Hdot Hloc Hseg (H35 & H63 & H59).
  unfold atcoder.Problem_get_url, atcoder.Problem_from_url.
  cbn [atcoder.contest_id atcoder.problem_id atcoder.Problem_init].
  change (lit ".contest.atcoder.jp/tasks/")
    with (atcoder.contest_suffix ++ 47 :: lit "tasks" ++ [47]).
  replace (lit "http://" ++ c ++ (atcoder.contest_suffix ++ 47 :: lit "tasks" ++ [47]) ++ b)
    with (lit "http://" ++ (c ++ atcoder.contest_suffix) ++ 47 :: (lit "tasks" ++ 47 :: b))
    by (rewrite <- !app_assoc; cbn [app]; by rewrite <- !app_assoc).
  rewrite urlparse_http; [|done|].
  2:{ apply url_safe_below; [|done]. repeat split; by apply not_In_literal. }
  cbn [http_parts urllib_parse.path urllib_parse.netloc urllib_parse.scheme].
  destruct (normpath_segments (lit "tasks") b) as [-> ->]; [apply segment_literals | done |].
  rewrite py_in_http. cbn [andb]. rewrite contest_host_accepted by done.
  rewrite first_label_contest by done.
  change (str_eqb (47 :: lit "tasks") (lit "/tasks")) with true.
  rewrite (str_eqb_false b []) by apply Hseg. reflexivity.
Qed.

(** The URL of submission [n] to contest [c] is recognized as that
    submission, with the problem the caller names. *)
Lemma submission_url_recognized c n pid0 pid :
  c <> [] -> ~ In 46 c -> netloc_shaped (c ++ atcoder.contest_suffix) ->
  atcoder.Submission_from_url
    (atcoder.Submission_get_url
       {| atcoder.sub_contest_id := c; atcoder.submission_id := n;
          atcoder.sub_problem_id := pid0 |}) pid
  = Ok (Some {| atcoder.sub_contest_id := c; atcoder.submission_id := n;
                atcoder.sub_problem_id := pid |}).
Proof.
  intros Hne Hdot Hloc.
  destruct (str_of_int_chars n) as [Hnn _].
  assert (Hseg : segment (str_of_int n))
    by (apply segment_without; [done | by apply str_of_int_without..]).
  assert (Hsafe : url_safe (str_of_int n))
    by (repeat split; by apply str_of_int_without).
  unfold atcoder.Submission_get_url, atcoder.Submission_from_url.
  cbn [atcoder.sub_contest_id atcoder.submission_id].
  change (lit ".contest.atcoder.jp/submissions/")
    with (atcoder.contest_suffix ++ 47 :: lit "submissions" ++ [47]).
  replace (lit "http://" ++ c ++ (atcoder.contest_suffix ++ 47 :: lit "submissions" ++ [47])
             ++ str_of_int n)
    with (lit "http://" ++ (c ++ atcoder.contest_suffix)
            ++ 47 :: (lit "submissions" ++ 47 :: str_of_int n))
    by (rewrite <- !app_assoc; cbn [app]; by rewrite <- !app_assoc).
  rewrite urlparse_http; [|done|].
  2:{ apply url_safe_below; [|done]. repeat split; by apply not_In_literal. }
  cbn [http_parts urllib_parse.path urllib_parse.netloc urllib_parse.scheme].
  destruct (normpath_segments (lit "submissions") (str_of_int n)) as [-> ->];
    [apply segment_literals | done |].
  rewrite py_in_http. cbn [andb]. rewrite contest_host_accepted by done.
  rewrite first_label_contest by done.
  change (str_eqb (47 :: lit "submissions") (lit "/submissions")) with true.
  by rewrite int_str_of_int.
Qed.

(** What a match of the task path binds: two non-empty runs of
    [[\w\-_]]. *)
Lemma task_path_match p m :
  re.match_ atcoder.re_task_path p = Some m ->
  exists g1 g2,
    m !! 1%nat = Some g1 /\ m !! 2%nat = Some g2 /\ g1 <> [] /\ g2 <> []
    /\ Forall (fun x => re.word_dash x = true) g1
    /\ Forall (fun x => re.word_dash x = true) g2.
Proof.
  intros (st & Hin & <-)%match_In. unfold atcoder.re_task_path in Hin. cbn [re.seq] in Hin.
  apply run_Seq_inv in Hin as (s1 & ->%run_Bol_inv & Hin).
  apply run_Seq_inv in Hin as (s2 & H2%run_Lit_inv & Hin).
  apply run_Seq_inv in Hin as (s3 & (g1 & Hg1 & Hw1 & H3)%run_Group_Many1_inv & Hin).
  apply run_Seq_inv in Hin as (s4 & H4%run_Lit_inv & Hin).
  apply run_Seq_inv in Hin as (s5 & (g2 & Hg2 & Hw2 & H5)%run_Group_Many1_inv & ->%run_Eol_inv).
  exists g1, g2. rewrite H5, H4, H3, H2.
  rewrite lookup_insert_ne by done. rewrite !lookup_insert_eq. done.
Qed.

(** What a match of a Yukicoder problem URL binds to its second group:
    a non-empty run of ASCII digits. *)
Lemma yukicoder_match_digits s m :
  re.match_ yukicoder.re_problem s = Some m ->
  exists g2, m !! 2%nat = Some g2 /\ g2 <> [] /\ Forall (fun x => is_digit x = true) g2.
Proof.
  intros (st & Hin & <-)%match_In. unfold yukicoder.re_problem in Hin. cbn [re.seq] in Hin.
  apply run_Seq_inv in Hin as (s1 & _ & Hin).
  apply run_Seq_inv in Hin as (s2 & _ & Hin).
  apply run_Seq_inv in Hin as (s3 & _ & Hin).
  apply run_Seq_inv in Hin as (s4 & _ & Hin).
  apply run_Seq_inv in Hin as (s5 & _ & Hin).
  apply run_Seq_inv in Hin as (s6 & (g2 & Hg2 & Hw2 & H6)%run_Group_Many1_inv & Hin).
  apply run_Seq_inv in Hin as (s7 & H7 & ->%run_Eol_inv).
  exists g2. split; [|done].
  apply run_Opt_inv in H7 as [->%run_Lit_inv| ->]; by rewrite H6, lookup_insert_eq.
Qed.

(** The two URLs [get_url] writes are matched, the digits bound to the
    second group and [no/] to the first when it is there. *)
Lemma yukicoder_no_matched ds :
  ds <> [] -> Forall (fun x => is_digit x = true) ds ->
  exists m,
    re.match_ yukicoder.re_problem (lit "https://yukicoder.me/problems/no/" ++ ds) = Some m
    /\ m !! 1%nat = Some (lit "no/") /\ m !! 2%nat = Some ds.
Proof.
  intros Hne Hds. eexists. split.
  - unfold re.match_, yukicoder.re_problem, re.start. cbn [re.seq].
    change (lit "https://yukicoder.me/problems/no/" ++ ds)
      with (lit "http" ++ lit "s" ++ lit "://yukicoder.me/problems/" ++ lit "no/" ++ ds).
    erewrite head_run_Seq; [reflexivity | reflexivity |].
    eapply head_run_Seq; [by rewrite run_Lit_app|].
    eapply head_run_Seq; [apply head_run_Opt; by rewrite run_Lit_app|].
    eapply head_run_Seq; [by rewrite run_Lit_app|].
    eapply head_run_Seq; [apply head_run_Opt; by rewrite run_Group_Lit_app|].
    eapply head_run_Seq; [by apply head_run_Group_Many1|].
    apply head_run_end.
  - cbn [re.groups]. rewrite lookup_insert_ne by done. by rewrite !lookup_insert_eq.
Qed.

Lemma yukicoder_id_matched ds :
  ds <> [] -> Forall (fun x => is_digit x = true) ds ->
  exists m,
    re.match_ yukicoder.re_problem (lit "https://yukicoder.me/problems/" ++ ds) = Some m
    /\ m !! 1%nat = None /\ m !! 2%nat = Some ds.
Proof.
  intros Hne Hds. eexists. split.
  - unfold re.match_, yukicoder.re_problem, re.start. cbn [re.seq].
    change (lit "https://yukicoder.me/problems/" ++ ds)
      with (lit "http" ++ lit "s" ++ lit "://yukicoder.me/problems/" ++ ds).
    erewrite head_run_Seq; [reflexivity | reflexivity |].
    eapply head_run_Seq; [by rewrite run_Lit_app|].
    eapply head_run_Seq; [apply head_run_Opt; by rewrite run_Lit_app|].
    eapply head_run_Seq; [by rewrite run_Lit_app|].
    eapply head_run_Seq.
    { apply head_run_Opt_skip. cbn [re.run re.rest].
      destruct Hds as [|d ds Hd _]; [done|].
      assert (Hs : startswith (d :: ds) (lit "no/") = false).
      { change (lit "no/") with [110; 110 + 1; 47]. cbn [startswith startswith_from].
        destruct (N.eqb_spec 110 d) as [<-|_]; [discriminate Hd | reflexivity]. }
      by rewrite Hs. }
    eapply head_run_Seq; [by apply head_run_Group_Many1|].
    apply head_run_end.
  - cbn [re.groups]. by rewrite lookup_insert_ne, lookup_empty, lookup_insert_eq.
Qed.

(** A positive number survives [str] followed by the recognizer's
    [int(... .lstrip('0') or '0')]. *)
Lemma yukicoder_number n :
  (0 < n)%Z ->
  Py.int (match lstrip_chars (N.eqb 48) (str_of_int n) with
          | [] => lit "0"
          | d => d
          end) = Some n.
Proof.
  intros Hn. destruct (str_of_int_positive n Hn) as [Hds Hne].
  rewrite int_without_leading_zeros by done. apply int_str_of_int.
Qed.

Lemma yukicoder_no_recognized n :
  (0 < n)%Z ->
  yukicoder.from_url (lit "https://yukicoder.me/problems/no/" ++ str_of_int n)
  = Ok (Some {| yukicoder.problem_no := Some n; yukicoder.problem_id := None |}).
Proof.
  intros Hn. destruct (str_of_int_positive n Hn) as [Hds Hne].
  destruct (yukicoder_no_matched _ Hne Hds) as (m & Hm & H1 & H2).
  unfold yukicoder.from_url. rewrite Hm. cbv beta iota zeta. rewrite H2.
  change (default [] (Some (str_of_int n))) with (str_of_int n).
  rewrite yukicoder_number by done. unfold str in *. rewrite H1.
  change (lit "no/") with (110 :: lit "o/"). cbv beta iota.
  unfold yukicoder.Yukicoder_init, yukicoder.truthy.
  destruct (Z.eqb_spec n 0) as [->|_]; [lia | reflexivity].
Qed.

Lemma yukicoder_id_recognized n :
  (0 < n)%Z ->
  yukicoder.from_url (lit "https://yukicoder.me/problems/" ++ str_of_int n)
  = Ok (Some {| yukicoder.problem_no := None; yukicoder.problem_id := Some n |}).
Proof.
  intros Hn. destruct (str_of_int_positive n Hn) as [Hds Hne].
  destruct (yukicoder_id_matched _ Hne Hds) as (m & Hm & H1 & H2).
  unfold yukicoder.from_url. rewrite Hm. cbv beta iota zeta. rewrite H2.
  change (default [] (Some (str_of_int n))) with (str_of_int n).
  rewrite yukicoder_number by done. unfold str in *. rewrite H1.
  unfold yukicoder.Yukicoder_init, yukicoder.truthy.
  destruct (Z.eqb_spec n 0) as [->|_]; [lia | reflexivity].
Qed.

(** What is read again from its own URL: the AtCoder service; an AtCoder
    problem whose name holds no semicolon; an AtCoder submission, contest
    and number kept and the problem being the one the caller names; a
    Yukicoder problem, whose URL is always written. *)
Theorem round_trip_recognized :
  (forall s e,
     atcoder.Service_from_url s = Ok (Some e) ->
     atcoder.Service_from_url (atcoder.Service_get_url e) = Ok (Some e))
  /\ (forall s e,
        atcoder.Problem_from_url s = Ok (Some e) ->
        ~ In 59 (atcoder.problem_id e) ->
        atcoder.Problem_from_url (atcoder.Problem_get_url e) = Ok (Some e))
  /\ (forall s pid e pid',
        atcoder.Submission_from_url s pid = Ok (Some e) ->
        atcoder.Submission_from_url (atcoder.Submission_get_url e) pid'
        = Ok (Some {| atcoder.sub_contest_id := atcoder.sub_contest_id e;
                      atcoder.submission_id := atcoder.submission_id e;
                      atcoder.sub_problem_id := pid' |}))
  /\ (forall s e,
        yukicoder.from_url s = Ok (Some e) ->
        exists u, yukicoder.get_url e = Ok u /\ yukicoder.from_url u = Ok (Some e)).
Proof.
  split; [|split; [|split]].
  - intros s [] _. reflexivity.
  - intros s e H Hsemi. unfold atcoder.Problem_from_url in H.
    destruct (urllib_parse.urlparse s) as [r|?] eqn:Hparse; [|discriminate].
    destruct (urlparse_shape _ _ Hparse) as (Hloc & H35 & H63).
    destruct (posixpath.split _) as [dirname basename] eqn:Hsplit.
    destruct (_ && _) eqn:Hc.
    + injection H as <-. cbn [atcoder.Problem_init atcoder.problem_id] in Hsemi.
      repeat (apply andb_prop in Hc as [Hc ?]).
      match goal with H : str_eqb dirname _ = true |- _ => apply str_eqb_eq in H as -> end.
      match goal with H : Nat.eqb _ _ = true |- _ => apply Nat.eqb_eq in H; rename H into Hcount end.
      match goal with H : endswith _ _ = true |- _ => rename H into Hend end.
      destruct (contest_host_inv _ Hcount Hend) as [Hdot Heq].
      assert (Hb : basename <> []) by (intros ->; discriminate).
      assert (Hc1 : atcoder.first_label (urllib_parse.netloc r) <> []).
      { intros Hnil. rewrite Hnil in *. discriminate. }
      destruct (split_normpath_segment _ (lit "tasks") _ Hsplit) as [Hseg Hsub];
        [apply segment_literals | done |].
      apply problem_url_recognized; try done.
      * by rewrite <- Heq.
      * repeat split; [intros ?%Hsub.. | ]; done.
    + destruct (re.match_ _ _) as [m|] eqn:Hm; [|discriminate].
      destruct (atcoder.py_in _ _ && atcoder.py_in _ _); [|discriminate]. injection H as <-.
      destruct (task_path_match _ _ Hm) as (g1 & g2 & -> & -> & Hg1 & Hg2 & Hw1 & Hw2).
      cbn [default from_option id].
      apply problem_url_recognized; try done.
      * by apply word_dash_not.
      * apply netloc_shaped_contest; by apply word_dash_not.
      * apply segment_without; [done | by apply word_dash_not..].
      * repeat split; by apply word_dash_not.
  - intros s pid e pid' H. unfold atcoder.Submission_from_url in H.
    destruct (urllib_parse.urlparse s) as [r|?] eqn:Hparse; [|discriminate].
    destruct (urlparse_shape _ _ Hparse) as (Hloc & _).
    destruct (posixpath.split _) as [dirname basename] eqn:Hsplit.
    assert (Hsecond :
      match re.match_ atcoder.re_submission_path (atcoder.normpath (urllib_parse.path r)) with
      | Some m =>
          if atcoder.py_in (atcoder.PStr (urllib_parse.scheme r)) atcoder.http_schemes
             && atcoder.py_eq (atcoder.PStr (urllib_parse.netloc r))
                  (atcoder.PTuple atcoder.atcoder_hosts)
          then
            match Py.int (default [] (m !! 2%nat)) with
            | Some n =>
                Ok (Some {| atcoder.sub_contest_id := default [] (m !! 1%nat);
                            atcoder.submission_id := n; atcoder.sub_problem_id := pid |})
            | None => Ok None
            end
          else Ok None
      | None => Ok None
      end = Ok None).
    { destruct (re.match_ _ _); [|done]. cbn [atcoder.py_eq]. by rewrite andb_false_r. }
    destruct (_ && _) eqn:Hc; [|rewrite Hsecond in H; discriminate H].
    destruct (Py.int basename) as [n|]; [|rewrite Hsecond in H; discriminate H].
    injection H as <-. cbn [atcoder.sub_contest_id atcoder.submission_id].
    repeat (apply andb_prop in Hc as [Hc ?]).
    match goal with H : Nat.eqb _ _ = true |- _ => apply Nat.eqb_eq in H; rename H into Hcount end.
    match goal with H : endswith _ _ = true |- _ => rename H into Hend end.
    destruct (contest_host_inv _ Hcount Hend) as [Hdot Heq].
    assert (Hc1 : atcoder.first_label (urllib_parse.netloc r) <> []).
    { intros Hnil. rewrite Hnil in *. discriminate. }
    apply submission_url_recognized; try done. by rewrite <- Heq.
  - intros s e H. unfold yukicoder.from_url in H.
    destruct (re.match_ _ _) as [m|] eqn:Hm; [|discriminate].
    destruct (yukicoder_match_digits _ _ Hm) as (g2 & H2 & Hne & Hds).
    cbv zeta in H. rewrite H2 in H. cbn [default from_option id] in H.
    rewrite int_without_leading_zeros in H by done.
    destruct (int_digits_nonneg _ Hds Hne) as (n & Hn & Hpos). rewrite Hn in H.
    assert (Hinit : forall no id y,
      match yukicoder.Yukicoder_init no id with
      | Ok y => Ok (Some y) | Raise e => Raise e end = Ok (Some y) ->
      yukicoder.truthy no || yukicoder.truthy id = true
      /\ y = {| yukicoder.problem_no := no; yukicoder.problem_id := id |}).
    { intros no id y. unfold yukicoder.Yukicoder_init.
      destruct (_ || _); [|discriminate]. by intros [= <-]. }
    assert (Htruthy : yukicoder.truthy (Some n) = true -> (0 < n)%Z).
    { cbn [yukicoder.truthy]. destruct (Z.eqb_spec n 0); [discriminate | lia]. }
    destruct (m !! 1%nat) as [[|x g1]|].
    + apply Hinit in H as [Ht ->]. cbn [yukicoder.truthy orb] in Ht.
      exists (lit "https://yukicoder.me/problems/" ++ str_of_int n).
      unfold yukicoder.get_url. cbn [yukicoder.problem_no yukicoder.problem_id].
      cbn [yukicoder.truthy]. rewrite Ht. split; [reflexivity|].
      apply yukicoder_id_recognized. by apply Htruthy.
    + apply Hinit in H as [Ht ->]. rewrite orb_false_r in Ht.
      exists (lit "https://yukicoder.me/problems/no/" ++ str_of_int n).
      unfold yukicoder.get_url. cbn [yukicoder.problem_no yukicoder.problem_id].
      rewrite Ht. split; [reflexivity|].
      apply yukicoder_no_recognized. by apply Htruthy.
    + apply Hinit in H as [Ht ->]. cbn [yukicoder.truthy orb] in Ht.
      exists (lit "https://yukicoder.me/problems/" ++ str_of_int n).
      unfold yukicoder.get_url. cbn [yukicoder.problem_no yukicoder.problem_id].
      cbn [yukicoder.truthy]. rewrite Ht. split; [reflexivity|].
      apply yukicoder_id_recognized. by apply Htruthy.
Qed.
End RoundTrip.

(** The round trip on the URLs the sources give as examples. *)
Example round_trip_examples :
  @atcoder.Problem_from_url Fixtures.plain_unicode
    (atcoder.Problem_get_url Fixtures.abc001_1) = Ok (Some Fixtures.abc001_1)
  /\ @atcoder.Submission_from_url Fixtures.plain_unicode
       (atcoder.Submission_get_url
          {| atcoder.sub_contest_id := lit "agc001"; atcoder.submission_id := 1246803;
             atcoder.sub_problem_id := None |}) None
     = Ok (Some {| atcoder.sub_contest_id := lit "agc001"; atcoder.submission_id := 1246803;
                   atcoder.sub_problem_id := None |})
  /\ exists u, yukicoder.get_url Fixtures.problem_9 = Ok u
               /\ @yukicoder.from_url Fixtures.plain_unicode u = Ok (Some Fixtures.problem_9).
Proof.
  pose proof (@round_trip_recognized Fixtures.plain_unicode) as (_ & Hp & Hs & Hy).
  split; [|split].
  - apply (Hp (lit "https://beta.atcoder.jp/contests/abc001/tasks/abc001_1"));
      [reflexivity | by apply not_In_literal].
  - apply (Hs (lit "http://agc001.contest.atcoder.jp/submissions/1246803") None
              {| atcoder.sub_contest_id := lit "agc001"; atcoder.submission_id := 1246803;
                 atcoder.sub_problem_id := None |} None).
    reflexivity.
  - apply (Hy (lit "http://yukicoder.me/problems/no/0009/")). reflexivity.
Qed.

(** C7.  [AtCoderProblem.from_url] reads the problem [abc001_1;x] of
    contest [abc001] from a URL whose path ends in a slash; the URL
    [get_url] writes for it has no such slash, [urlparse] takes [;x] for
    the parameters of the last segment, and what is read back is the
    problem [abc001_1], another one.  The sibling branch for
    [atcoder.jp/contests/...] admits only names of [[\w\-_]+] and has no
    such case. *)
Theorem C7_semicolon_name_not_restored :
  @atcoder.Problem_from_url Fixtures.plain_unicode
    (lit "http://abc001.contest.atcoder.jp/tasks/abc001_1;x/")
  = Ok (Some Fixtures.abc001_1_x)
  /\ atcoder.Problem_get_url Fixtures.abc001_1_x
     = lit "http://abc001.contest.atcoder.jp/tasks/abc001_1;x"
  /\ @atcoder.Problem_from_url Fixtures.plain_unicode
       (atcoder.Problem_get_url Fixtures.abc001_1_x)
     = Ok (Some Fixtures.abc001_1)
  /\ @atcoder.Problem_from_url Fixtures.plain_unicode
       (atcoder.Problem_get_url Fixtures.abc001_1_x)
     <> Ok (Some Fixtures.abc001_1_x)
  /\ @atcoder.Problem_from_url Fixtures.plain_unicode
       (lit "https://atcoder.jp/contests/abc001/tasks/abc001_1;x/") = Ok None.
Proof.
  split; [reflexivity|]. split; [reflexivity|]. split; [reflexivity|].
  split; [|reflexivity]. intros H. vm_compute in H. discriminate H.
Qed.

(** ** What the operations add to the trace *)

Section Emissions.
Import Spec.
Context {U : unicode} {E : environment} {L : library}.

Section Passing.
Variable P : event -> bool.
Hypothesis P_log : forall r, P (EvLog r) = true.
Hypothesis P_response : forall r, P (EvResponse r) = true.

Lemma emits_only_logs {A} (m : IO A) : logs_only m -> emits_only P m.
Proof.
  intros H st. destruct (H st) as (evs & Ht & Hl). exists evs. split; [exact Ht|].
  apply forallb_forall. intros e He.
  apply (proj1 (forallb_forall _ _) Hl) in He. destruct e; try discriminate He. apply P_log.
Qed.

Lemma emits_only_ret {A} (a : A) : emits_only P (ret a).
Proof. apply emits_only_logs, logs_only_ret. Qed.

Lemma emits_only_raise {A} e : emits_only P (@raise A e).
Proof. apply emits_only_logs, logs_only_raise. Qed.

Lemma emits_only_lift {A} (r : result A) : emits_only P (lift r).
Proof. apply emits_only_logs, logs_only_lift. Qed.

Lemma emits_only_bind {A B} (m : IO A) (k : A -> IO B) :
  emits_only P m -> (forall a, emits_only P (k a)) -> emits_only P (bind m k).
Proof.
  intros Hm Hk st. unfold bind. destruct (Hm st) as (evs & Ht & Hl).
  destruct (m st) as [[a|e] st1]; cbn [snd] in *.
  - destruct (Hk a st1) as (evs' & Ht' & Hl'). exists (evs ++ evs').
    rewrite Ht', Ht, <- app_assoc. split; [reflexivity|].
    by rewrite forallb_app, Hl, Hl'.
  - by exists evs.
Qed.

Lemma emits_only_emit e : P e = true -> emits_only P (emit e).
Proof. intros He st. exists [e]. cbn. by rewrite He. Qed.

Lemma emits_only_silent {A} (m : IO A) :
  (forall st, trace (snd (m st)) = trace st) -> emits_only P m.
Proof. intros H st. exists []. by rewrite app_nil_r. Qed.

Lemma emits_only_session_request s method target data redirects :
  P (EvRequest s method target data redirects) = true ->
  emits_only P (session_request s method target data redirects).
Proof.
  intros HP. unfold session_request.
  apply emits_only_bind; [by apply emits_only_silent|]. intros jar.
  apply emits_only_bind; [by apply emits_only_emit|]. intros _.
  apply emits_only_bind; [by apply emits_only_silent|]. intros resp.
  apply emits_only_bind; [by apply emits_only_emit|]. intros _.
  apply emits_only_bind; [by apply emits_only_silent|]. intros _.
  apply emits_only_ret.
Qed.

Lemma emits_only_atcoder_request s method target data redirects :
  P (EvRequest s method target data redirects) = true ->
  emits_only P (atcoder._request method target s data redirects).
Proof.
  intros HP. unfold atcoder._request, atcoder.utils_request.
  apply emits_only_bind; [|intros resp; apply emits_only_bind;
                            [by apply emits_only_emit | intros _; apply emits_only_ret]].
  apply emits_only_bind; [by apply emits_only_emit|]. intros _.
  apply emits_only_bind; [by apply emits_only_session_request|]. intros resp.
  destruct (_ =? _)%Z; (apply emits_only_bind; [by apply emits_only_emit|]; intros _);
    [apply emits_only_ret | apply emits_only_raise].
Qed.

Lemma emits_only_session_or_default session :
  emits_only P (atcoder.session_or_default session).
Proof. destruct session; by apply emits_only_silent. Qed.
End Passing.

Lemma emits_only_call_credentials P :
  P EvCredentials = true -> emits_only P call_credentials.
Proof.
  intros HP st. exists [EvCredentials]. unfold call_credentials, bind, emit. cbn.
  by rewrite HP.
Qed.

(** X2.  Logging in to AtCoder, and asking whether one is logged in, talk to
    the login page only and never follow a redirect; what they send with
    data is a [POST]; they touch no file. *)
Theorem atcoder_login_talks_to_login_page self session :
  emits_only atcoder_login_traffic (atcoder.login self session)
  /\ emits_only atcoder_login_traffic (atcoder.is_logged_in self session).
Proof.
  assert (Hlog : forall r, atcoder_login_traffic (EvLog r) = true) by done.
  assert (Hresp : forall r, atcoder_login_traffic (EvResponse r) = true) by done.
  split.
  - unfold atcoder.login.
    apply emits_only_bind; [by apply emits_only_session_or_default|]. intros s.
    apply emits_only_bind; [by apply emits_only_atcoder_request|]. intros resp.
    apply emits_only_bind; [by apply emits_only_logs, logs_only_get_messages|]. intros msgs.
    apply emits_only_bind; [by apply emits_only_logs, logs_only_emit_logs|]. intros _.
    destruct msgs as [|m ms]; [|by apply emits_only_ret].
    apply emits_only_bind; [by apply emits_only_call_credentials|]. intros up.
    apply emits_only_bind; [by apply emits_only_atcoder_request|]. intros resp'.
    apply emits_only_bind; [by apply emits_only_logs, logs_only_get_messages|]. intros msgs.
    apply emits_only_bind; [by apply emits_only_logs, logs_only_report_messages|]. intros _.
    by apply emits_only_ret.
  - unfold atcoder.is_logged_in.
    apply emits_only_bind; [by apply emits_only_session_or_default|]. intros s.
    apply emits_only_bind; [by apply emits_only_atcoder_request|]. intros resp.
    apply emits_only_bind; [by apply emits_only_logs, logs_only_get_messages|]. intros msgs.
    by apply emits_only_ret.
Qed.

(** *** How often the credentials are asked for *)

Lemma prompts_quiet {A} (m : IO A) k : quiet m -> prompts_at_most k m.
Proof. intros H st. rewrite H. lia. Qed.

Lemma prompts_bind {A B} (m : IO A) (f : A -> IO B) a b :
  prompts_at_most a m -> (forall x, prompts_at_most b (f x)) ->
  prompts_at_most (a + b) (bind m f).
Proof.
  intros Hm Hf st. unfold bind. specialize (Hm st).
  destruct (m st) as [[x|e] st1]; cbn [snd] in *; [|lia].
  specialize (Hf x st1). lia.
Qed.

Lemma prompts_call_credentials : prompts_at_most 1 call_credentials.
Proof.
  intros st. unfold call_credentials, bind, emit. cbn [snd trace].
  rewrite credential_calls_app. cbn. lia.
Qed.

Lemma quiet_init_inputs inputs pl : quiet (utils.init_inputs inputs pl).
Proof.
  revert pl. induction inputs as [|i more IH]; intros pl; [apply quiet_ret|].
  cbn [utils.init_inputs].
  apply quiet_bind; [apply quiet_emit_log|]. intros _.
  apply quiet_bind; [apply quiet_lift|]. intros pl'. apply IH.
Qed.

Lemma quiet_FormSender_init fm u : quiet (utils.FormSender_init fm u).
Proof.
  unfold utils.FormSender_init.
  apply quiet_bind; [apply quiet_assert|]. intros _.
  apply quiet_bind; [apply quiet_assert|]. intros _.
  apply quiet_bind; [apply quiet_init_inputs|]. intros pl. apply quiet_ret.
Qed.

Lemma quiet_form_request sender session : quiet (utils.request sender session).
Proof.
  unfold utils.request.
  apply quiet_bind; [apply quiet_lift|]. intros action.
  apply quiet_bind; [apply quiet_lift|]. intros m.
  apply quiet_bind; [apply quiet_emit_log|]. intros _.
  apply quiet_bind; [destruct session; [apply quiet_ret | apply quiet_raise]|]. intros s.
  apply quiet_bind; [apply quiet_session_request|]. intros resp.
  apply quiet_bind; [apply quiet_lift|]. intros d.
  apply quiet_bind; [apply quiet_emit_log|]. intros _. apply quiet_ret.
Qed.

Lemma quiet_session_get session target : quiet (yukicoder.session_get session target).
Proof. destruct session; [apply quiet_session_request | apply quiet_raise]. Qed.

Lemma quiet_session_or_default session : quiet (atcoder.session_or_default session).
Proof. destruct session; [apply quiet_ret | apply quiet_new_session]. Qed.

(** X1.  [AtCoderService.login] asks for the credentials at most once, whatever
    the server answers; [is_logged_in] never asks. *)
Theorem atcoder_login_prompts_once self session :
  prompts_at_most 1 (atcoder.login self session)
  /\ quiet (atcoder.is_logged_in self session).
Proof.
  split.
  - unfold atcoder.login.
    apply (prompts_bind _ _ 0 1); [apply prompts_quiet, quiet_session_or_default|]. intros s.
    apply (prompts_bind _ _ 0 1); [apply prompts_quiet, quiet_request|]. intros resp.
    apply (prompts_bind _ _ 0 1); [apply prompts_quiet, quiet_get_messages|]. intros msgs.
    apply (prompts_bind _ _ 0 1); [apply prompts_quiet, quiet_emit_logs|]. intros _.
    destruct msgs as [|m ms]; [|apply prompts_quiet, quiet_ret].
    apply (prompts_bind _ _ 1 0); [apply prompts_call_credentials|]. intros up.
    apply prompts_quiet.
    apply quiet_bind; [apply quiet_request|]. intros resp'.
    apply quiet_bind; [apply quiet_get_messages|]. intros msgs.
    apply quiet_bind; [apply quiet_report_messages|]. intros _. apply quiet_ret.
  - unfold atcoder.is_logged_in.
    apply quiet_bind; [apply quiet_session_or_default|]. intros s.
    apply quiet_bind; [apply quiet_request|]. intros resp.
    apply quiet_bind; [apply quiet_get_messages|]. intros msgs. apply quiet_ret.
Qed.

(** X5.  [Yukicoder.login] asks for the credentials at most once; with a
    method other than ['github'] it raises at once, [NotImplementedError]
    for ['twitter'] and [AssertionError] otherwise, and nothing is sent
    or asked. *)
Theorem yukicoder_login_prompts_once self session method :
  prompts_at_most 1 (yukicoder.login self session method)
  /\ (method <> Some (lit "github") ->
      forall st,
        yukicoder.login self session method st
        = (Raise (if bool_decide (method = Some (lit "twitter"))
                  then NotImplementedError else AssertionError), st)).
Proof.
  split.
  - unfold yukicoder.login.
    destruct (bool_decide _); [|destruct (bool_decide _); apply prompts_quiet, quiet_raise].
    unfold yukicoder.login_with_github.
    apply (prompts_bind _ _ 0 1); [apply prompts_quiet, quiet_emit_log|]. intros _.
    apply (prompts_bind _ _ 0 1); [apply prompts_quiet, quiet_session_get|]. intros resp.
    apply (prompts_bind _ _ 0 1); [apply prompts_quiet, quiet_lift|]. intros d.
    apply (prompts_bind _ _ 0 1); [apply prompts_quiet, quiet_emit_log|]. intros _.
    apply (prompts_bind _ _ 0 1); [apply prompts_quiet, quiet_raise_for_status|]. intros _.
    apply (prompts_bind _ _ 0 1); [apply prompts_quiet, quiet_lift|]. intros here.
    destruct here.
    { apply prompts_quiet. apply quiet_bind; [apply quiet_emit_log|]. intros _. apply quiet_ret. }
    destruct (List.head _) as [fm|].
    + apply (prompts_bind _ _ 0 1); [apply prompts_quiet, quiet_emit_log|]. intros _.
      apply (prompts_bind _ _ 1 0); [apply prompts_call_credentials|]. intros up.
      apply prompts_quiet.
      apply quiet_bind; [apply quiet_FormSender_init|]. intros sender.
      apply quiet_bind; [apply quiet_form_request|]. intros resp'.
      apply quiet_bind; [apply quiet_raise_for_status|]. intros _.
      apply quiet_bind; [apply quiet_lift|]. intros here.
      destruct here; (apply quiet_bind; [apply quiet_emit_log|]; intros _; apply quiet_ret).
    + apply prompts_quiet.
      apply quiet_bind; [apply quiet_emit_log|]. intros _.
      apply quiet_bind; [apply quiet_emit_log|]. intros _. apply quiet_ret.
  - intros Hm st. unfold yukicoder.login.
    rewrite bool_decide_eq_false_2 by done.
    by destruct (bool_decide _).
Qed.
End Emissions.

(** ** What was sent and what came back *)

Section Exchanges.
Import Spec.
Context {U : unicode} {E : environment} {L : library}.

Ltac inv_bind H a st Ha := apply bind_Ok_inv in H as (a & st & Ha & H).

Lemma logs_keep_exchange {A} (m : IO A) st :
  logs_only m ->
  last_response (trace (snd (m st))) = last_response (trace st)
  /\ last_posted (trace (snd (m st))) = last_posted (trace st).
Proof.
  intros H. destruct (H st) as (evs & -> & Hl).
  by rewrite last_response_app_logs, last_posted_app_logs.
Qed.

Tactic Notation "keep_by" hyp(H) tactic3(t) :=
  match type of H with
  | ?m ?s = _ =>
      let Kr := fresh "Kr" in
      let Kp := fresh "Kp" in
      let Hl := fresh "Hl" in
      assert (Hl : logs_only m) by t;
      pose proof (logs_keep_exchange m s Hl) as [Kr Kp];
      rewrite H in Kr, Kp; cbn [snd] in Kr, Kp; clear Hl
  end.

Lemma ret_Ok_inv {A} (a b : A) st st' : ret a st = (Ok b, st') -> a = b /\ st = st'.
Proof. by intros [= -> ->]. Qed.

(** A request of [atcoder.py] that returns was answered with 200; its
    answer is the last response and its data the last data sent. *)
Lemma atcoder_request_Ok_inv method target s data redirects st resp st' :
  atcoder._request method target s data redirects st = (Ok resp, st') ->
  status_code resp = 200%Z
  /\ last_response (trace st') = Some resp
  /\ last_posted (trace st') = Some data.
Proof.
  unfold atcoder._request, atcoder.utils_request. intros H.
  inv_bind H r s1 H1. inv_bind H u s2 H2. apply ret_Ok_inv in H as [-> ->].
  keep_by H2 (apply logs_only_emit_log).
  inv_bind H1 u1 s3 H3. inv_bind H1 r' s4 H4.
  apply session_request_Ok_inv in H4.
  destruct (status_code r' =? 200)%Z eqn:Hs;
    inv_bind H1 u5 s5 H5; [|discriminate H1].
  apply ret_Ok_inv in H1 as [-> ->].
  keep_by H5 (apply logs_only_emit_log).
  split; [by apply Z.eqb_eq|].
  rewrite Kr, Kp, Kr0, Kp0, H4. split.
  - change [EvRequest s method target data redirects; EvResponse resp]
      with ([EvRequest s method target data redirects] ++ [EvResponse resp]).
    rewrite app_assoc. apply last_response_snoc.
  - apply last_posted_exchange.
Qed.

(** X3.  What [AtCoderService.login] returns is read off the last response:
    whether its URL is free of [login].  That response had status 200. *)
Theorem atcoder_login_verdict self session st b st' :
  atcoder.login self session st = (Ok b, st') ->
  exists resp,
    last_response (trace st') = Some resp
    /\ status_code resp = 200%Z
    /\ b = negb (contains (url resp) (lit "login")).
Proof.
  unfold atcoder.login. intros H.
  inv_bind H s s1 H1. inv_bind H resp s2 H2. inv_bind H msgs s3 H3. inv_bind H u s4 H4.
  apply atcoder_request_Ok_inv in H2 as (H200 & Hlast & _).
  keep_by H3 (apply logs_only_get_messages). keep_by H4 (apply logs_only_emit_logs).
  destruct msgs as [|m ms].
  - inv_bind H up s5 H5. inv_bind H resp' s6 H6. inv_bind H msgs' s7 H7.
    inv_bind H bad s8 H8. apply ret_Ok_inv in H as [<- <-].
    apply atcoder_request_Ok_inv in H6 as (H200' & Hlast' & _).
    keep_by H7 (apply logs_only_get_messages). keep_by H8 (apply logs_only_report_messages).
    exists resp'. by rewrite Kr2, Kr1.
  - apply ret_Ok_inv in H as [<- <-]. exists resp. by rewrite Kr0, Kr.
Qed.

Lemma lift_Ok_inv {A} (r : result A) st a st' : lift r st = (Ok a, st') -> r = Ok a /\ st' = st.
Proof. by intros [= -> ->]. Qed.

Lemma session_get_Ok_inv session target st resp st' :
  yukicoder.session_get session target st = (Ok resp, st') ->
  last_response (trace st') = Some resp /\ last_posted (trace st') = Some [].
Proof.
  destruct session as [s|]; [|discriminate]. cbn [yukicoder.session_get].
  intros ->%session_request_Ok_inv. split.
  - change [EvRequest s (lit "GET") target [] true; EvResponse resp]
      with ([EvRequest s (lit "GET") target [] true] ++ [EvResponse resp]).
    rewrite app_assoc. apply last_response_snoc.
  - apply last_posted_exchange.
Qed.

Lemma logs_only_log_then_ret {A} r (a : A) : logs_only (bind (emit_log r) (fun _ => ret a)).
Proof. apply logs_only_bind; [apply logs_only_emit_log|]. intros _. apply logs_only_ret. Qed.

(** X6.  What [login_with_github] returns is whether the last response came
    from the host [yukicoder.me]. *)
Theorem yukicoder_login_verdict self session st b st' :
  yukicoder.login_with_github self session st = (Ok b, st') ->
  exists resp,
    last_response (trace st') = Some resp /\ yukicoder.on_yukicoder resp = Ok b.
Proof.
  unfold yukicoder.login_with_github. intros H.
  inv_bind H u1 s1 H1. inv_bind H resp s2 H2. inv_bind H d s3 H3. inv_bind H u4 s4 H4.
  inv_bind H u5 s5 H5. inv_bind H here s6 H6.
  apply session_get_Ok_inv in H2 as [Hlast _].
  apply lift_Ok_inv in H3 as [_ ->]. keep_by H4 (apply logs_only_emit_log).
  apply raise_for_status_Ok_inv in H5 as ->. apply lift_Ok_inv in H6 as [Hhere ->].
  destruct here.
  { keep_by H (apply logs_only_log_then_ret).
    inv_bind H u7 s7 H7. apply ret_Ok_inv in H as [<- <-].
    exists resp. by rewrite Kr0, Kr. }
  destruct (List.head _) as [fm|].
  - inv_bind H u7 s7 H7. inv_bind H up s8 H8. inv_bind H sender s9 H9.
    match type of H with context [utils.request ?x _] => set (sender' := x) in H end.
    inv_bind H resp' s10 H10. inv_bind H u11 s11 H11. inv_bind H here' s12 H12.
    apply form_request_Ok_inv in H10 as [Hlast' _].
    apply raise_for_status_Ok_inv in H11 as ->. apply lift_Ok_inv in H12 as [Hhere' ->].
    exists resp'.
    destruct here'; keep_by H (apply logs_only_log_then_ret);
      inv_bind H u13 s13 H13; apply ret_Ok_inv in H as [<- <-]; by rewrite Kr0.
  - assert (Hl : logs_only
                   (bind (emit_log (logger Error "error" (lit "form not found") []))
                      (fun _ => bind (emit_log (logger Info "info" (lit "Did you logged in?") []))
                                  (fun _ => ret false)))).
    { apply logs_only_bind; [apply logs_only_emit_log|]. intros _.
      apply logs_only_log_then_ret. }
    destruct (logs_keep_exchange _ s4 Hl) as [Kr' _]. rewrite H in Kr'. cbn [snd] in Kr'.
    inv_bind H u7 s7 H7. inv_bind H u8 s8 H8. apply ret_Ok_inv in H as [<- <-].
    exists resp. by rewrite Kr', Kr.
Qed.

Lemma call_credentials_Ok_inv st up st' :
  call_credentials st = (Ok up, st') -> exists tr, credentials tr = Ok up.
Proof.
  unfold call_credentials, bind, emit. cbn [fst snd trace]. intros [= H _]. eauto.
Qed.

Lemma lit_neq (a b : str) : bool_decide (a = b) = false -> a <> b.
Proof. intros H ->. by rewrite bool_decide_eq_true_2 in H. Qed.

Lemma NoDup_posted (pl : gmap str str) : NoDup (List.map fst (map_to_list pl)).
Proof. exact (NoDup_fst_map_to_list pl). Qed.

(** X4.  The data [AtCoderService.login] sent last: none when the probe
    settled it, else the name and password the credentials provider
    gave, in the fields [name] and [password]. *)
Theorem atcoder_login_posts self session st b st' :
  atcoder.login self session st = (Ok b, st') ->
  last_posted (trace st') = Some []
  \/ exists u p tr,
       credentials tr = Ok (u, p)
       /\ last_posted (trace st') = Some [(lit "name", u); (lit "password", p)].
Proof.
  unfold atcoder.login. intros H.
  inv_bind H s s1 H1. inv_bind H resp s2 H2. inv_bind H msgs s3 H3. inv_bind H u s4 H4.
  apply atcoder_request_Ok_inv in H2 as (_ & _ & Hposted).
  keep_by H3 (apply logs_only_get_messages). keep_by H4 (apply logs_only_emit_logs).
  destruct msgs as [|m ms].
  - inv_bind H up s5 H5. inv_bind H resp' s6 H6. inv_bind H msgs' s7 H7.
    inv_bind H bad s8 H8. apply ret_Ok_inv in H as [<- <-].
    apply atcoder_request_Ok_inv in H6 as (_ & _ & Hposted').
    keep_by H7 (apply logs_only_get_messages). keep_by H8 (apply logs_only_report_messages).
    apply call_credentials_Ok_inv in H5 as [tr Htr].
    right. exists (fst up), (snd up), tr. split; [by destruct up|]. by rewrite Kp2, Kp1.
  - apply ret_Ok_inv in H as [<- <-]. left. by rewrite Kp0, Kp.
Qed.

(** X7.  The data [login_with_github] sent last: none when no form was sent,
    else a form in which [login] and [password] hold what the credentials
    provider gave, whatever the page had put there, each name once. *)
Theorem yukicoder_login_posts self session st b st' :
  yukicoder.login_with_github self session st = (Ok b, st') ->
  last_posted (trace st') = Some []
  \/ exists u p tr data,
       credentials tr = Ok (u, p)
       /\ last_posted (trace st') = Some data
       /\ In (lit "login", u) data /\ In (lit "password", p) data
       /\ NoDup (List.map fst data).
Proof.
  unfold yukicoder.login_with_github. intros H.
  inv_bind H u1 s1 H1. inv_bind H resp s2 H2. inv_bind H d s3 H3. inv_bind H u4 s4 H4.
  inv_bind H u5 s5 H5. inv_bind H here s6 H6.
  apply session_get_Ok_inv in H2 as [_ Hposted].
  apply lift_Ok_inv in H3 as [_ ->]. keep_by H4 (apply logs_only_emit_log).
  apply raise_for_status_Ok_inv in H5 as ->. apply lift_Ok_inv in H6 as [Hhere ->].
  destruct here.
  { keep_by H (apply logs_only_log_then_ret). left. by rewrite Kp0, Kp. }
  destruct (List.head _) as [fm|].
  - inv_bind H u7 s7 H7. inv_bind H up s8 H8. inv_bind H sender s9 H9.
    match type of H with context [utils.request ?x _] => set (sender' := x) in H end.
    inv_bind H resp' s10 H10. inv_bind H u11 s11 H11. inv_bind H here' s12 H12.
    apply form_request_Ok_inv in H10 as [_ Hposted'].
    apply raise_for_status_Ok_inv in H11 as ->. apply lift_Ok_inv in H12 as [_ ->].
    apply call_credentials_Ok_inv in H8 as [tr Htr].
    right. exists (fst up), (snd up), tr, (map_to_list (utils.payload sender')).
    split; [by destruct up|]. split.
    { destruct here'; keep_by H (apply logs_only_log_then_ret); by rewrite Kp0. }
    subst sender'. unfold utils.set. cbn [utils.payload].
    split; [|split; [|apply NoDup_posted]]; apply posted_field.
    + rewrite lookup_insert_ne by (by apply lit_neq). apply lookup_insert_eq.
    + apply lookup_insert_eq.
  - left.
    assert (Hl : logs_only
                   (bind (emit_log (logger Error "error" (lit "form not found") []))
                      (fun _ => bind (emit_log (logger Info "info" (lit "Did you logged in?") []))
                                  (fun _ => ret false)))).
    { apply logs_only_bind; [apply logs_only_emit_log|]. intros _.
      apply logs_only_log_then_ret. }
    destruct (logs_keep_exchange _ s4 Hl) as [_ Kp']. rewrite H in Kp'. cbn [snd] in Kp'.
    by rewrite Kp', Kp.
Qed.

(** *** The trace only grows *)

Lemma grows_step {A} (m : IO A) st a st' :
  emits_only (fun _ => true) m -> m st = (Ok a, st') -> trace st `prefix_of` trace st'.
Proof. intros Hm H. destruct (Hm st) as (evs & Ht & _). rewrite H in Ht. by exists evs. Qed.

Lemma grows_logs {A} (m : IO A) : logs_only m -> emits_only (fun _ => true) m.
Proof. by apply emits_only_logs. Qed.

Lemma grows_assert c : emits_only (fun _ => true) (World.assert c).
Proof. destruct c; [by apply emits_only_ret | by apply emits_only_raise]. Qed.

Lemma grows_init_inputs inputs pl : emits_only (fun _ => true) (utils.init_inputs inputs pl).
Proof.
  revert pl. induction inputs as [|i more IH]; intros pl; [by apply emits_only_ret|].
  cbn [utils.init_inputs].
  apply emits_only_bind; [by apply grows_logs, logs_only_emit_log|]. intros _.
  apply emits_only_bind; [by apply emits_only_lift|]. intros pl'. apply IH.
Qed.

Lemma grows_FormSender_init fm u : emits_only (fun _ => true) (utils.FormSender_init fm u).
Proof.
  unfold utils.FormSender_init.
  apply emits_only_bind; [apply grows_assert|]. intros _.
  apply emits_only_bind; [apply grows_assert|]. intros _.
  apply emits_only_bind; [apply grows_init_inputs|]. intros pl. by apply emits_only_ret.
Qed.

Lemma grows_form_request sender session :
  emits_only (fun _ => true) (utils.request sender session).
Proof.
  unfold utils.request.
  apply emits_only_bind; [by apply emits_only_lift|]. intros action.
  apply emits_only_bind; [by apply emits_only_lift|]. intros m.
  apply emits_only_bind; [by apply grows_logs, logs_only_emit_log|]. intros _.
  apply emits_only_bind;
    [destruct session; [by apply emits_only_ret | by apply emits_only_raise]|]. intros s.
  apply emits_only_bind; [by apply emits_only_session_request|]. intros resp.
  apply emits_only_bind; [by apply emits_only_lift|]. intros d.
  apply emits_only_bind; [by apply grows_logs, logs_only_emit_log|]. intros _.
  by apply emits_only_ret.
Qed.

Lemma grows_language_dict self session :
  emits_only (fun _ => true) (atcoder.get_language_dict self session).
Proof.
  unfold atcoder.get_language_dict.
  apply emits_only_bind; [by apply emits_only_session_or_default|]. intros s.
  apply emits_only_bind; [by apply emits_only_atcoder_request|]. intros resp.
  apply emits_only_bind; [by apply grows_logs, logs_only_get_messages|]. intros msgs.
  apply emits_only_bind; [by apply grows_logs, logs_only_report_messages|]. intros bad.
  destruct bad; [by apply emits_only_ret|].
  apply emits_only_bind; [by apply emits_only_lift|]. intros login_page.
  destruct login_page.
  - apply emits_only_bind; [by apply grows_logs, logs_only_emit_log|]. intros _.
    by apply emits_only_ret.
  - destruct (atcoder.find_language_selector _); [by apply emits_only_lift|].
    by apply emits_only_raise.
Qed.

(** X8.  Whenever [submit_code] returns, it has called [_get_task_id] in
    the course of the run, on the session of the caller when one was
    given, and the form it sent last holds the task id that call
    returned, the source code, and the language under the name
    [language_id_<task id>], each name once.  An id the problem already
    holds is the one returned. *)
Theorem atcoder_submit_posts self code language session st sub st' :
  atcoder.submit_code self code language session st = (Ok sub, st') ->
  exists s st1 tid st2 data,
    trace st `prefix_of` trace st1
    /\ (forall s0, session = Some s0 -> s = s0)
    /\ atcoder._get_task_id self (Some s) st1 = (Ok tid, st2)
    /\ trace st2 `prefix_of` trace st'
    /\ last_posted (trace st') = Some data
    /\ In (lit "task_id", str_of_int tid) data
    /\ In (lit "source_code", code) data
    /\ In (lit "language_id_" ++ str_of_int tid, language) data
    /\ NoDup (List.map fst data)
    /\ (forall t, atcoder._task_id self = Some t -> tid = t).
Proof.
  unfold atcoder.submit_code. intros H.
  inv_bind H langs s1 H1. inv_bind H u2 s2 H2. inv_bind H s s3 H3.
  inv_bind H resp1 s4 H4. inv_bind H msgs s5 H5. inv_bind H bad s6 H6.
  destruct bad; [discriminate H|].
  inv_bind H lp s7 H7. destruct lp.
  { inv_bind H u s8 H8. discriminate H. }
  destruct (bs4.find_by_attr _ _ _ _) as [fm|]; [|inv_bind H u s8 H8; discriminate H].
  inv_bind H u8 s8 H8. inv_bind H tid s9 H9. inv_bind H sd s10 H10.
  match type of H with context [utils.request ?x _] => set (sender := x) in H end.
  inv_bind H resp2 s11 H11. inv_bind H u12 s12 H12.
  assert (Hbefore : trace st `prefix_of` trace s8).
  { etrans; [exact (grows_step _ _ _ _ (grows_language_dict _ _) H1)|].
    etrans; [exact (grows_step _ _ _ _ (grows_assert _) H2)|].
    etrans; [refine (grows_step _ _ _ _ _ H3); by apply emits_only_session_or_default|].
    etrans; [refine (grows_step _ _ _ _ _ H4); by apply emits_only_atcoder_request|].
    etrans; [refine (grows_step _ _ _ _ _ H5); by apply grows_logs, logs_only_get_messages|].
    etrans; [refine (grows_step _ _ _ _ _ H6); by apply grows_logs, logs_only_report_messages|].
    etrans; [refine (grows_step _ _ _ _ _ H7); by apply emits_only_lift|].
    refine (grows_step _ _ _ _ _ H8). by apply grows_logs, logs_only_emit_log. }
  assert (Hafter : trace s9 `prefix_of` trace st').
  { etrans; [exact (grows_step _ _ _ _ (grows_FormSender_init _ _) H10)|].
    etrans; [exact (grows_step _ _ _ _ (grows_form_request _ _) H11)|].
    etrans; [refine (grows_step _ _ _ _ _ H12); by apply grows_logs, logs_only_raise_for_status|].
    refine (grows_step _ _ _ _ _ H). by apply grows_logs, logs_only_atcoder_result. }
  assert (Hsession : forall s0, session = Some s0 -> s = s0).
  { intros s0 ->. cbn [atcoder.session_or_default] in H3. by apply ret_Ok_inv in H3 as [<- _]. }
  apply form_request_Ok_inv in H11 as [_ Hposted].
  apply raise_for_status_Ok_inv in H12 as ->.
  keep_by H (apply logs_only_atcoder_result).
  exists s, s8, tid, s9, (map_to_list (utils.payload sender)). rewrite Kp.
  split; [exact Hbefore|]. split; [exact Hsession|]. split; [exact H9|].
  split; [exact Hafter|]. split; [done|].
  assert (Hhead : forall k : str, List.head k <> Some 108 ->
                    lit "language_id_" ++ str_of_int tid <> k).
  { intros k Hk <-. by apply Hk. }
  subst sender. unfold utils.set. cbn [utils.payload].
  split; [|split; [|split; [|split]]].
  - apply posted_field. rewrite lookup_insert_ne by (by apply Hhead).
    rewrite lookup_insert_ne by (by apply lit_neq). apply lookup_insert_eq.
  - apply posted_field. rewrite lookup_insert_ne by (by apply Hhead).
    apply lookup_insert_eq.
  - apply posted_field. apply lookup_insert_eq.
  - apply NoDup_posted.
  - intros t Ht. unfold atcoder._get_task_id in H9. rewrite Ht in H9.
    by apply ret_Ok_inv in H9 as [-> _].
Qed.

(** X13.  Whenever [Yukicoder.submit] returns after sending the form, the form
    holds the source code under [source] and the language under [lang],
    each name once. *)
Theorem yukicoder_submit_posts self code language session st b st' :
  yukicoder.submit self code language session st = (Ok b, st') ->
  (b = false /\ last_posted (trace st') = Some [])
  \/ exists l data,
       language = Some l
       /\ In l (yukicoder.get_languages self)
       /\ last_posted (trace st') = Some data
       /\ In (lit "source", code) data /\ In (lit "lang", l) data
       /\ NoDup (List.map fst data).
Proof.
  unfold yukicoder.submit. intros H.
  inv_bind H u1 s1 H1. inv_bind H base s2 H2. inv_bind H u3 s3 H3.
  inv_bind H resp1 s4 H4. inv_bind H d s5 H5. inv_bind H u6 s6 H6.
  inv_bind H u7 s7 H7.
  apply session_get_Ok_inv in H4 as [_ Hposted].
  apply lift_Ok_inv in H5 as [_ ->]. keep_by H6 (apply logs_only_emit_log).
  apply raise_for_status_Ok_inv in H7 as ->.
  destruct (bs4.find_by_attr _ _ _ _) as [fm|].
  2: { left.
       assert (Hl : logs_only
                      (bind (emit_log (logger Error "error" (lit "form not found") []))
                         (fun _ => bind (emit_log (logger Info "info" (lit "Did you logged in?") []))
                                     (fun _ => ret false)))).
       { apply logs_only_bind; [apply logs_only_emit_log|]. intros _.
         apply logs_only_log_then_ret. }
       destruct (logs_keep_exchange _ s6 Hl) as [_ Kp']. rewrite H in Kp'. cbn [snd] in Kp'.
       inv_bind H u8 s8 H8. inv_bind H u9 s9 H9. apply ret_Ok_inv in H as [<- _].
       split; [reflexivity|]. by rewrite Kp', Kp. }
  right. inv_bind H sd s8 H8.
  match type of H with context [utils.request ?x _] => set (sender := x) in H end.
  inv_bind H resp2 s9 H9. inv_bind H u10 s10 H10.
  apply form_request_Ok_inv in H9 as [_ Hposted'].
  apply raise_for_status_Ok_inv in H10 as ->.
  keep_by H (apply logs_only_yukicoder_result).
  destruct language as [l|]; [|discriminate H1].
  unfold World.assert in H1.
  destruct (existsb _ _) eqn:Hex; [|discriminate H1].
  apply existsb_exists in Hex as (x & Hx & <-%str_eqb_eq).
  exists l, (map_to_list (utils.payload sender)). rewrite Kp0.
  split; [done|]. split; [done|]. split; [done|].
  subst sender. unfold utils.set. cbn [utils.payload default from_option id].
  split; [|split; [|apply NoDup_posted]]; apply posted_field.
  - rewrite lookup_insert_ne by (by apply lit_neq). apply lookup_insert_eq.
  - apply lookup_insert_eq.
Qed.

(** *** Sending a form *)


(** X15.  A form that was sent and answered with a status code that
    [http.client.responses] does not list makes [request] raise
    [KeyError]: the answer is lost to the caller although the server has
    received the form. *)
Theorem form_request_unlisted_status sender s st nm ats cs a m resp :
  utils.form sender = Tag nm ats cs ->
  ats !! lit "action" = Some a -> ats !! lit "method" = Some m ->
  http (trace st ++ [EvLog (logger Info "status" (lit "%s: %s")
                              [upper m; urljoin (utils.form_url sender) a]);
                     EvRequest s (upper m) (urljoin (utils.form_url sender) a)
                       (map_to_list (utils.payload sender)) true])
       (upper m) (urljoin (utils.form_url sender) a)
       (map_to_list (utils.payload sender)) true (cookies_of s st) = Ok resp ->
  utils.responses_lookup (status_code resp) = None ->
  fst (utils.request sender (Some s) st) = Raise (KeyError (str_of_int (status_code resp)))
  /\ last_response (trace (snd (utils.request sender (Some s) st))) = Some resp
  /\ last_posted (trace (snd (utils.request sender (Some s) st)))
     = Some (map_to_list (utils.payload sender)).
Proof.
  intros Hform Ha Hm Hhttp Hcode. unfold utils.request. rewrite Hform.
  cbn [bs4.getitem]. rewrite Ha, Hm. unfold session_request, cookies_of in *.
  io_unfold. cbn [fst snd trace sessions next_session].
  change (trace st ++ [?x; ?y]) with (trace st ++ ([x] ++ [y])) in Hhttp.
  rewrite app_assoc in Hhttp.
  match goal with
  | |- context [http ?a ?b ?c ?d ?e ?f] =>
      replace (http a b c d e f) with (Ok resp) by (symmetry; exact Hhttp)
  end.
  cbn [fst snd trace sessions next_session].
  unfold utils.describe_status_code. rewrite Hcode. cbn [fst snd trace].
  split; [reflexivity|]. split.
  - apply last_response_snoc.
  - rewrite <- app_assoc. cbn [app]. rewrite <- app_assoc. rewrite app_assoc.
    apply last_posted_exchange.
Qed.

(** X16.  Preparing a form, setting one field and sending it: the data sent
    hold the value set for that field and, for every other name, the
    value the page had prefilled, each name once. *)
Theorem form_set_then_request fm u k v session st sender st1 resp st2 :
  utils.FormSender_init fm u st = (Ok sender, st1) ->
  utils.request (utils.set sender k v) session st1 = (Ok resp, st2) ->
  exists data,
    last_posted (trace st2) = Some data
    /\ In (k, v) data
    /\ (forall k' v', k' <> k ->
          (In (k', v') data <-> last_prefilled (bs4.find_all fm (lit "input")) k' v'))
    /\ NoDup (List.map fst data).
Proof.
  intros Hinit Hreq. unfold utils.FormSender_init in Hinit.
  inv_bind Hinit u1 s1 H1. inv_bind Hinit u2 s2 H2. inv_bind Hinit pl s3 H3.
  apply ret_Ok_inv in Hinit as [<- _].
  destruct (init_inputs_tags (bs4.find_all fm (lit "input")) ∅ s2
              (find_all_tags_only fm (lit "input"))) as (s3' & Hrun & _).
  rewrite Hrun in H3. injection H3 as <- _.
  apply form_request_Ok_inv in Hreq as [_ Hposted].
  eexists. split; [exact Hposted|]. cbn [utils.set utils.payload].
  split; [apply posted_field, lookup_insert_eq|]. split; [|apply NoDup_posted].
  intros k' v' Hne. rewrite <- list_elem_of_In, elem_of_map_to_list.
  rewrite lookup_insert_ne by done. rewrite fold_take_field_lookup.
  split; [|by left]. intros [H|[H _]]; [done|]. by rewrite lookup_empty in H.
Qed.
End Exchanges.

(** ** The languages and the task id of AtCoder *)

Section Languages.
Import Spec.
Context {U : unicode} {E : environment} {L : library}.



(** X9.  [submit_code] asserts that the language is offered before it looks
    whether the user is logged in: on a submit page with messages, or
    when the server sent the login page instead, the call ends with
    [AssertionError], not [SubmissionError], in the state in which
    [get_language_dict] left off, so with that one request made. *)
Theorem atcoder_submit_not_logged_in self code language session st resp msgs :
  http (atcoder_get_asks (atcoder.submit_url self) session st) (lit "GET")
       (atcoder.submit_url self) [] true (session_jar session st) = Ok resp ->
  status_code resp = 200%Z ->
  messages_of (resp_cookies resp) = Ok msgs ->
  msgs <> [] \/ atcoder.at_login resp = Ok true ->
  exists st1,
    atcoder.get_language_dict self session st = (Ok ∅, st1)
    /\ atcoder.submit_code self code language session st = (Raise AssertionError, st1).
Proof.
  intros H H200 Hm Hcase.
  pose proof (language_dict_empty self session st resp msgs H H200 Hm Hcase) as Hempty.
  destruct (atcoder.get_language_dict self session st) as [r st1] eqn:Hd.
  cbn [fst] in Hempty. subst r. exists st1. split; [reflexivity|].
  unfold atcoder.submit_code. unfold bind at 1. rewrite Hd. cbn beta iota.
  unfold bind at 1. by rewrite lookup_empty.
Qed.

(** *** The task id *)

Lemma run_Lit_rest s st st' : In st' (re.run (re.Lit s) st) -> re.rest st = s ++ re.rest st'.
Proof.
  cbn [re.run]. destruct (startswith _ _) eqn:Hs; [|done]. intros [<-|[]]. cbn [re.rest].
  apply startswith_from_inv in Hs as [t ->]. by rewrite skipn_length_app.
Qed.

Lemma run_Group_Many1_rest n p st st' :
  In st' (re.run (re.Group n (re.Many1 p)) st) ->
  exists g, g <> [] /\ Forall (fun x => p x = true) g /\ re.rest st = g ++ re.rest st'.
Proof.
  cbn [re.run]. intros (st1 & <- & Hst1)%in_map_iff. cbn [re.rest].
  destruct (re.rest st) as [|x s] eqn:Hrest; [done|].
  destruct (p x) eqn:Hp; [|done].
  apply in_map_iff in Hst1 as (t & <- & (g & Hg & ->)%many_inv).
  cbn [re.advance re.rest]. exists (x :: g). split; [done|]. split; [by constructor | done].
Qed.

Lemma run_Eol_rest st st' :
  In st' (re.run re.Eol st) -> re.rest st = [] \/ re.rest st = [10].
Proof.
  cbn [re.run]. destruct (re.rest st) as [|x [|y t]]; [by left | | done].
  destruct (N.eqb_spec x 10) as [->|_]; [by right | done].
Qed.

(** The pattern of the submit link matches a run of digits after the
    prefix, with at most one line feed behind it, and nothing else. *)
Lemma submit_task_match href m :
  re.match_ atcoder.re_submit_task href = Some m ->
  exists g r,
    href = lit "/submit?task_id=" ++ g ++ r /\ g <> []
    /\ Forall (fun x => is_digit x = true) g /\ (r = [] \/ r = [10]).
Proof.
  intros (st & Hin & _)%match_In. unfold atcoder.re_submit_task in Hin. cbn [re.seq] in Hin.
  apply run_Seq_inv in Hin as (s1 & ->%run_Bol_inv & Hin).
  apply run_Seq_inv in Hin as (s2 & H2%run_Lit_rest & Hin).
  apply run_Seq_inv in Hin as (s3 & (g & Hg & Hd & H3)%run_Group_Many1_rest & Hr%run_Eol_rest).
  exists g, (re.rest s3). cbn [re.start re.rest] in H2. by rewrite H2, H3.
Qed.

Lemma submit_task_matched ds :
  ds <> [] -> Forall (fun x => is_digit x = true) ds ->
  exists m, re.match_ atcoder.re_submit_task (lit "/submit?task_id=" ++ ds) = Some m
            /\ m !! 1%nat = Some ds.
Proof.
  intros Hne Hds. eexists. split.
  - unfold re.match_, atcoder.re_submit_task, re.start. cbn [re.seq].
    erewrite head_run_Seq; [reflexivity | reflexivity |].
    eapply head_run_Seq; [by rewrite run_Lit_app|].
    eapply head_run_Seq; [by apply head_run_Group_Many1 | reflexivity].
  - cbn [re.groups]. apply lookup_insert_eq.
Qed.

(** X11.  [_get_task_id].  An id the object already holds is returned with
    nothing sent.  Otherwise the task page is fetched; with the link
    [/submit?task_id=<n>] on it, [n] written with at most 4300 digits (up
    to there every version of [int] converts), the id is [n]; a link that
    starts so and goes on otherwise, or ends there, fails the
    assertion. *)
Theorem atcoder_task_id self session st :
  (forall t, atcoder._task_id self = Some t ->
     atcoder._get_task_id self session st = (Ok t, st))
  /\ (forall resp a href,
        atcoder._task_id self = None ->
        http (atcoder_get_asks (atcoder.Problem_get_url self) session st) (lit "GET")
             (atcoder.Problem_get_url self) [] true (session_jar session st) = Ok resp ->
        status_code resp = 200%Z ->
        messages_of (resp_cookies resp) = Ok [] ->
        atcoder_submit_link resp = Some a ->
        bs4.attr a (lit "href") = Some href ->
        (forall n, (0 <= n)%Z -> (List.length (str_of_int n) <= 4300)%nat ->
           href = lit "/submit?task_id=" ++ str_of_int n ->
           fst (atcoder._get_task_id self session st) = Ok n)
        /\ (forall t, href = lit "/submit?task_id=" ++ t ->
              t = [] \/ (exists c, In c t /\ is_digit c = false /\ c <> 10) ->
              fst (atcoder._get_task_id self session st) = Raise AssertionError)).
Proof.
  split.
  - intros t Ht. unfold atcoder._get_task_id. by rewrite Ht.
  - intros resp a href Hnone H H200 Hm Hlink Hhref.
    unfold atcoder._get_task_id. rewrite Hnone.
    destruct (atcoder_page_fetched _ _ _ _ _
                (fun s resp msgs (bad : bool) =>
                   if bad then raise SubmissionError
                   else match bs4.find_by_attr (BeautifulSoup (content resp)) (lit "a")
                                (lit "href") (atcoder.found_by atcoder.re_submit_link) with
                        | None =>
                            bind (emit_log (log Error (lit "link to submit not found") []))
                                 (fun _ => raise SubmissionError)
                        | Some a =>
                            bind (lift (bs4.getitem a (lit "href"))) (fun href =>
                              match re.match_ atcoder.re_submit_task href with
                              | None => raise AssertionError
                              | Some m =>
                                  match Py.int (default [] (m !! 1%nat)) with
                                  | Some t => ret t
                                  | None => raise ValueError
                                  end
                              end)
                        end)
                H H200 Hm) as (st4 & ->).
    cbv beta iota. unfold atcoder_submit_link in Hlink. rewrite Hlink.
    destruct a as [nm ats cs|]; [|discriminate Hhref]. cbn [bs4.attr] in Hhref.
    unfold bind, lift. cbn [bs4.getitem]. rewrite Hhref.
    split.
    + intros n Hn _ ->.
      assert (Hds : Forall (fun x => is_digit x = true) (str_of_int n) /\ str_of_int n <> []).
      { destruct (Z.eq_dec n 0%Z) as [->|Hne]; [split; [by repeat constructor | done]|].
        apply str_of_int_positive. lia. }
      destruct Hds as [Hds Hne].
      destruct (submit_task_matched _ Hne Hds) as (m & -> & Hg).
      unfold str in *. rewrite Hg. cbn [default from_option id].
      by rewrite int_str_of_int.
    + intros t -> Ht.
      destruct (re.match_ _ _) as [m|] eqn:Hmatch; [|reflexivity]. exfalso.
      apply submit_task_match in Hmatch as (g & r & Heq & Hg & Hd & Hr).
      apply app_inv_head in Heq. subst t.
      destruct Ht as [Ht|(c & [Hc|Hc]%in_app_or & Hnd & H10)].
      * by destruct g.
      * apply (proj1 (List.Forall_forall _ _) Hd) in Hc. congruence.
      * destruct Hr as [->| ->]; [done|]. by destruct Hc as [<-|[]].
Qed.
End Languages.

(** ** The messages AtCoder leaves in cookies *)

Section Messages.
Import Spec.
Context {U : unicode} {E : environment} {L : library}.

Lemma message_cookies_cons c more :
  message_cookies (c :: more)
  = if startswith (cookie_name c) (lit "__message_") then c :: message_cookies more
    else message_cookies more.
Proof. reflexivity. Qed.

Lemma message_tags_filter cookies st st' :
  fst (atcoder.message_tags cookies st)
  = fst (atcoder.message_tags (message_cookies cookies) st').
Proof.
  revert st st'. induction cookies as [|c more IH]; intros st st'; [reflexivity|].
  rewrite message_cookies_cons. cbn [atcoder.message_tags].
  destruct (startswith _ _) eqn:Hs.
  - cbn [atcoder.message_tags]. rewrite Hs. io_unfold. cbn [fst snd].
    destruct (json_message _) as [tag|e]; [|reflexivity].
    match goal with
    | |- fst (match atcoder.message_tags more ?a with _ => _ end)
         = fst (match atcoder.message_tags _ ?b with _ => _ end) =>
        specialize (IH a b);
        destruct (atcoder.message_tags more a) as [[x|x] ?],
                 (atcoder.message_tags (message_cookies more) b) as [[y|y] ?]
    end; cbn in *; congruence.
  - io_unfold. cbn [fst snd]. apply IH.
Qed.

Lemma message_tags_length cookies st tags :
  fst (atcoder.message_tags cookies st) = Ok tags ->
  List.length tags = List.length (message_cookies cookies).
Proof.
  revert st tags. induction cookies as [|c more IH]; intros st tags.
  - by intros [= <-].
  - rewrite message_cookies_cons. cbn [atcoder.message_tags]. io_unfold. cbn [fst snd].
    destruct (startswith _ _); [|apply IH].
    destruct (json_message _) as [tag|e]; [|discriminate].
    match goal with
    | |- fst (match atcoder.message_tags more ?a with _ => _ end) = _ -> _ =>
        specialize (IH a); destruct (atcoder.message_tags more a) as [[x|x] ?]
    end; [|discriminate].
    cbn. intros [= <-]. cbn. f_equal. by apply IH.
Qed.

Lemma message_texts_length tags st msgs :
  fst (atcoder.message_texts tags st) = Ok msgs ->
  (List.length msgs <= List.length tags)%nat.
Proof.
  revert st msgs. induction tags as [|t more IH]; intros st msgs.
  - intros [= <-]. cbn. lia.
  - cbn [atcoder.message_texts]. destruct (List.find _ _).
    + io_unfold.
      specialize (IH st). destruct (atcoder.message_texts more st) as [[x|x] ?]; [|discriminate].
      cbn. intros [= <-]. cbn. specialize (IH x eq_refl). lia.
    + io_unfold. cbn [fst snd]. intros H%IH. cbn. lia.
Qed.

(** X12.  Only the cookies named [__message_...] count: the messages read from
    a jar are those read from these cookies alone, and there are at most
    as many messages as such cookies. *)
Theorem messages_from_message_cookies cookies :
  messages_of cookies = messages_of (message_cookies cookies)
  /\ forall msgs, messages_of cookies = Ok msgs ->
       (List.length msgs <= List.length (message_cookies cookies))%nat.
Proof.
  unfold messages_of, atcoder._get_messages_from_cookie, bind.
  pose proof (message_tags_filter cookies empty_state empty_state) as Hf.
  pose proof (message_tags_length cookies empty_state) as Hl.
  destruct (atcoder.message_tags cookies empty_state) as [[tags|e] s1],
           (atcoder.message_tags (message_cookies cookies) empty_state) as [[tags'|e'] s2];
    cbn [fst] in Hf, Hl; try discriminate Hf.
  - injection Hf as <-. split; [apply message_texts_result|].
    intros msgs Hm%message_texts_length. rewrite <- (Hl tags eq_refl). exact Hm.
  - injection Hf as <-. split; [reflexivity|]. intros msgs [=].
Qed.
End Messages.

(** ** What the recognizers agree on *)

Section Recognizing.
Import Spec.
Context {U : unicode}.

(** X18.  Whatever [AtCoderProblem.from_url] or [AtCoderSubmission.from_url]
    recognizes, [AtCoderService.from_url] recognizes as AtCoder. *)
Theorem atcoder_recognized_by_service :
  (forall s e,
     atcoder.Problem_from_url s = Ok (Some e) ->
     atcoder.Service_from_url s = Ok (Some atcoder.TheAtCoderService))
  /\ (forall s pid e,
        atcoder.Submission_from_url s pid = Ok (Some e) ->
        atcoder.Service_from_url s = Ok (Some atcoder.TheAtCoderService)).
Proof.
  split.
  - intros s e H. unfold atcoder.Problem_from_url in H. unfold atcoder.Service_from_url.
    destruct (urllib_parse.urlparse s) as [r|?]; [|discriminate].
    destruct (posixpath.split _) as [dirname basename].
    destruct (_ && _) eqn:Hc.
    + repeat (apply andb_prop in Hc as [Hc ?]).
      match goal with H : endswith _ _ = true |- _ => rewrite H end.
      by rewrite Hc, orb_true_r.
    + destruct (re.match_ _ _); [|discriminate].
      destruct (atcoder.py_in _ _ && atcoder.py_in _ _) eqn:Hc2; [|discriminate].
      apply andb_prop in Hc2 as [-> ->]. reflexivity.
  - intros s pid e H. unfold atcoder.Submission_from_url in H. unfold atcoder.Service_from_url.
    destruct (urllib_parse.urlparse s) as [r|?]; [|discriminate].
    destruct (posixpath.split _) as [dirname basename].
    destruct (_ && _) eqn:Hc.
    + repeat (apply andb_prop in Hc as [Hc ?]).
      match goal with H : endswith _ _ = true |- _ => rewrite H end.
      by rewrite Hc, orb_true_r.
    + exfalso. destruct (re.match_ _ _); [|discriminate].
      cbn [atcoder.py_eq] in H. rewrite andb_false_r in H. discriminate.
Qed.

Lemma contains_app_startswith pre t p :
  startswith t p = true -> contains (pre ++ t) p = true.
Proof.
  intros H. induction pre as [|x pre IH].
  - destruct t; cbn [app contains]; unfold startswith in H; by rewrite H.
  - cbn [app contains]. by rewrite IH, orb_true_r.
Qed.

Lemma split_scheme_suffix url :
  exists pre, url = pre ++ snd (urllib_parse.split_scheme url).
Proof.
  unfold urllib_parse.split_scheme.
  destruct (Py.partition 58 url) as [[pre after]|] eqn:Hp; [|by exists []].
  apply partition_inv in Hp as [Heq _].
  destruct pre as [|x pre]; [by exists []|].
  destruct (str_eqb _ _).
  { exists ((x :: pre) ++ [58]). by rewrite <- app_assoc. }
  destruct (forallb _ _); [|by exists []].
  destruct after as [|y after].
  { exists ((x :: pre) ++ [58]). by rewrite <- app_assoc. }
  destruct (forallb _ _); [by exists []|].
  exists ((x :: pre) ++ [58]). by rewrite <- app_assoc.
Qed.

(** A text without two slashes in a row has no network location. *)
Lemma urlparse_without_netloc s :
  contains s (lit "//") = false ->
  exists r, urllib_parse.urlparse s = Ok r /\ urllib_parse.netloc r = [].
Proof.
  intros Hc. unfold urllib_parse.urlparse, urllib_parse.urlsplit.
  destruct (split_scheme_suffix s) as [pre Hpre].
  destruct (urllib_parse.split_scheme s) as [sch url1]. cbn [snd] in Hpre.
  destruct (startswith url1 (lit "//")) eqn:Hs.
  { rewrite Hpre, (contains_app_startswith _ _ _ Hs) in Hc. discriminate Hc. }
  cbn [urllib_parse.has existsb andb orb].
  destruct (urllib_parse.cut 35 url1) as [url3 frag].
  destruct (urllib_parse.cut 63 url3) as [url4 qry].
  cbn [urllib_parse.scheme urllib_parse.path urllib_parse.netloc].
  destruct (_ && _); [destruct (urllib_parse.splitparams _)|]; eexists; by split.
Qed.

(** X19.  A URL written without [//], such as [atcoder.jp/contests/...] pasted
    without its scheme, and without a tab, a line feed or a carriage
    return, which newer versions of [urlsplit] take out of the text
    before they look for [//], has an empty network location, and all
    three recognizers of AtCoder decline it. *)
Theorem atcoder_needs_double_slash s :
  contains s (lit "//") = false ->
  no_tab_or_newline s = true ->
  atcoder.Service_from_url s = Ok None
  /\ atcoder.Problem_from_url s = Ok None
  /\ forall pid, atcoder.Submission_from_url s pid = Ok None.
Proof.
  intros (r & Hr & Hloc)%urlparse_without_netloc _.
  unfold atcoder.Service_from_url, atcoder.Problem_from_url, atcoder.Submission_from_url.
  rewrite Hr, Hloc.
  change (endswith [] atcoder.contest_suffix) with false.
  change (atcoder.py_in (atcoder.PStr []) atcoder.atcoder_hosts) with false.
  rewrite !andb_false_r. cbn [orb].
  split; [reflexivity|].
  destruct (posixpath.split _) as [dirname basename]. cbn [andb].
  split.
  - by destruct (re.match_ _ _).
  - intros pid. by destruct (re.match_ _ _).
Qed.

(** *** Yukicoder *)

(** X25.  On a text of at most 4300 characters [Yukicoder.from_url] does
    not raise [ValueError]: what it hands to [int] is a run of ASCII
    digits, and one short enough for every version of [int].  It returns
    [None], or a problem with exactly one of number and id, which is a
    positive integer, or, for the number zero, fails the assertion of the
    constructor. *)
Theorem yukicoder_from_url_outcomes s :
  (List.length s <= 4300)%nat ->
  yukicoder.from_url s = Ok None
  \/ yukicoder.from_url s = Raise AssertionError
  \/ exists n, (0 < n)%Z
       /\ (yukicoder.from_url s
           = Ok (Some {| yukicoder.problem_no := Some n; yukicoder.problem_id := None |})
           \/ yukicoder.from_url s
              = Ok (Some {| yukicoder.problem_no := None; yukicoder.problem_id := Some n |})).
Proof.
  intros _. unfold yukicoder.from_url.
  destruct (re.match_ _ _) as [m|] eqn:Hm; [|by left].
  destruct (yukicoder_match_digits _ _ Hm) as (g2 & H2 & Hne & Hds).
  cbv zeta. rewrite H2. cbn [default from_option id].
  rewrite int_without_leading_zeros by done.
  destruct (int_digits_nonneg _ Hds Hne) as (n & -> & Hpos).
  unfold yukicoder.Yukicoder_init, yukicoder.truthy. cbn [orb].
  rewrite orb_false_r.
  destruct (Z.eqb_spec n 0) as [->|Hnz]; cbn [negb].
  - right. left. by destruct (m !! 1%nat) as [[|? ?]|].
  - right. right. exists n. split; [lia|].
    destruct (m !! 1%nat) as [[|? ?]|]; [by right | by left | by right].
Qed.

Lemma lstrip_zeros ds : Forall (fun x => x = 48) ds -> lstrip_chars (N.eqb 48) ds = [].
Proof. induction 1 as [|x ds -> _ IH]; [reflexivity|]. exact IH. Qed.

(** X26.  The problem number zero, however many zeros spell it, is matched by
    the pattern and then refused by the constructor: [from_url] raises
    [AssertionError] instead of returning [None]. *)
Theorem yukicoder_zero_is_an_error ds :
  ds <> [] -> Forall (fun x => x = 48) ds ->
  yukicoder.from_url (lit "https://yukicoder.me/problems/no/" ++ ds) = Raise AssertionError
  /\ yukicoder.from_url (lit "https://yukicoder.me/problems/" ++ ds) = Raise AssertionError.
Proof.
  intros Hne Hz.
  assert (Hds : Forall (fun x => is_digit x = true) ds).
  { eapply Forall_impl; [exact Hz|]. by intros x ->. }
  split.
  - destruct (yukicoder_no_matched _ Hne Hds) as (m & Hm & H1 & H2).
    unfold yukicoder.from_url. rewrite Hm. cbv beta iota zeta. rewrite H2.
    cbn [default from_option id]. rewrite lstrip_zeros by done.
    change (Py.int (lit "0")) with (Some 0%Z). unfold str in *. by rewrite H1.
  - destruct (yukicoder_id_matched _ Hne Hds) as (m & Hm & H1 & H2).
    unfold yukicoder.from_url. rewrite Hm. cbv beta iota zeta. rewrite H2.
    cbn [default from_option id]. rewrite lstrip_zeros by done.
    change (Py.int (lit "0")) with (Some 0%Z). unfold str in *. by rewrite H1.
Qed.

(** *** From a recognized entity to its URL and back *)

(** X22.  An AtCoder problem read from a URL, with a name free of semicolons,
    is read again from the URL [get_url] writes for it. *)
Theorem atcoder_problem_round_trip s e :
  atcoder.Problem_from_url s = Ok (Some e) ->
  ~ In 59 (atcoder.problem_id e) ->
  atcoder.Problem_from_url (atcoder.Problem_get_url e) = Ok (Some e).
Proof.
  intros Hs Hsemi. destruct round_trip_recognized as (_ & Hproblem & _).
  by apply (Hproblem s).
Qed.

(** X23.  An AtCoder submission read from a URL is read again from the URL
    [get_url] writes for it: the contest and the number are those of the
    original, the problem is the one the caller names. *)
Theorem atcoder_submission_round_trip s pid e pid' :
  atcoder.Submission_from_url s pid = Ok (Some e) ->
  atcoder.Submission_from_url (atcoder.Submission_get_url e) pid'
  = Ok (Some {| atcoder.sub_contest_id := atcoder.sub_contest_id e;
                atcoder.submission_id := atcoder.submission_id e;
                atcoder.sub_problem_id := pid' |}).
Proof.
  intros Hs. destruct round_trip_recognized as (_ & _ & Hsubmission & _).
  by apply (Hsubmission s pid).
Qed.

(** X24.  A Yukicoder problem read from a URL has a URL, and is read again
    from it. *)
Theorem yukicoder_round_trip s e :
  yukicoder.from_url s = Ok (Some e) ->
  exists u, yukicoder.get_url e = Ok u /\ yukicoder.from_url u = Ok (Some e).
Proof.
  intros Hs. destruct round_trip_recognized as (_ & _ & _ & Hyukicoder).
  by apply (Hyukicoder s).
Qed.

(** *** The two addresses of an AtCoder problem *)

Lemma split_scheme_https rest :
  urllib_parse.split_scheme (lit "https" ++ 58 :: 47 :: rest) = (lit "https", 47 :: rest).
Proof.
  unfold urllib_parse.split_scheme.
  rewrite partition_found by (by apply not_In_literal).
  reflexivity.
Qed.

Lemma urlparse_https loc p :
  netloc_shaped loc -> url_safe p ->
  urllib_parse.urlparse (lit "https://" ++ loc ++ 47 :: p)
  = Ok {| urllib_parse.scheme := lit "https"; urllib_parse.netloc := loc;
          urllib_parse.path := 47 :: p; urllib_parse.params := [];
          urllib_parse.query := []; urllib_parse.fragment := [] |}.
Proof.
  intros [Hd Hb] (H35 & H63 & H59).
  unfold urllib_parse.urlparse, urllib_parse.urlsplit.
  change (lit "https://" ++ loc ++ 47 :: p)
    with (lit "https" ++ 58 :: 47 :: (47 :: loc ++ 47 :: p)).
  rewrite split_scheme_https.
  change (47 :: 47 :: loc ++ 47 :: p) with (lit "//" ++ loc ++ 47 :: p).
  rewrite startswith_app.
  change 2%nat with (List.length (lit "//")). rewrite skipn_length_app.
  rewrite (splitnetloc_app _ _ Hd), Hb.
  assert (H35' : ~ In 35 (47 :: p)) by (intros [?|?]; [discriminate | done]).
  assert (H63' : ~ In 63 (47 :: p)) by (intros [?|?]; [discriminate | done]).
  assert (H59' : ~ In 59 (47 :: p)) by (intros [?|?]; [discriminate | done]).
  rewrite (cut_missing 35) by done. rewrite (cut_missing 63) by done.
  cbn [urllib_parse.scheme urllib_parse.path].
  apply has_false in H59'. rewrite H59', andb_false_r. reflexivity.
Qed.

Lemma split_join comps :
  comps <> [] -> Forall (fun c => ~ In 47 c) comps -> Py.split 47 (join 47 comps) = comps.
Proof.
  intros Hne H. induction H as [|w ws Hw Hws IH]; [done|].
  destruct ws as [|w' ws]; [by apply split_no_sep|].
  change (join 47 (w :: w' :: ws)) with (w ++ 47 :: join 47 (w' :: ws)).
  rewrite split_at_sep by done. by rewrite IH.
Qed.

Lemma normpath_comps_segments i acc comps :
  Forall segment comps -> posixpath.normpath_comps i acc comps = acc ++ comps.
Proof.
  intros H. revert acc. induction H as [|c comps (Hne & _ & Hdot & Hdd) _ IH]; intros acc.
  - by rewrite app_nil_r.
  - cbn [posixpath.normpath_comps].
    rewrite (str_eqb_false c []), (str_eqb_false c (lit ".")),
      (str_eqb_false c (lit "..")) by done.
    cbn [orb negb]. rewrite IH. by rewrite <- app_assoc.
Qed.

(** An absolute path of segments is normalized already. *)
Lemma normpath_joined comps :
  comps <> [] -> Forall segment comps ->
  atcoder.normpath (47 :: join 47 comps) = 47 :: join 47 comps.
Proof.
  intros Hne Hseg.
  assert (Hkept : Forall (kept 1) comps).
  { eapply Forall_impl; [exact Hseg|]. intros c (? & ? & ? & ?). by repeat split. }
  pose proof (join_head_not_slash 1 comps Hkept) as Hhead.
  destruct (startswith_double_slash _ Hhead) as [_ Hss].
  unfold atcoder.normpath, posixpath.normpath.
  change (startswith (47 :: join 47 comps) (lit "/")) with true.
  rewrite Hss. cbn [andb]. change posixpath.slash with 47.
  assert (Hsplit : Py.split 47 (47 :: join 47 comps) = [] :: comps).
  { change (47 :: join 47 comps) with ([] ++ 47 :: join 47 comps).
    rewrite (split_at_sep 47 [] (join 47 comps)) by (intros []).
    rewrite split_join; [done..|].
    eapply Forall_impl; [exact Hseg|]. by intros c (_ & ? & _). }
  rewrite Hsplit. cbn [posixpath.normpath_comps]. rewrite str_eqb_refl. cbn [orb].
  rewrite normpath_comps_segments by done. cbn [app List.repeat].
  by rewrite Hss.
Qed.

Lemma many_head_stop p g x t :
  Forall (fun y => p y = true) g -> p x = false ->
  List.head (re.many p (g ++ x :: t)) = Some (x :: t).
Proof.
  intros Hg Hx. induction Hg as [|y g Hy _ IH]; cbn [app re.many].
  - by rewrite Hx.
  - rewrite Hy. destruct (re.many p (g ++ x :: t)); [discriminate IH | exact IH].
Qed.

(** [([class]+)] before a character outside the class takes the whole
    run first. *)
Lemma head_run_Group_Many1_stop n p g x t b gr :
  g <> [] -> Forall (fun y => p y = true) g -> p x = false ->
  List.head (re.run (re.Group n (re.Many1 p))
               {| re.bol := b; re.rest := g ++ x :: t; re.groups := gr |})
  = Some {| re.bol := false; re.rest := x :: t; re.groups := <[n := g]> gr |}.
Proof.
  intros Hne Hg Hx. destruct Hg as [|y g Hy Hg]; [done|].
  cbn [re.run re.rest re.groups app]. rewrite Hy.
  pose proof (many_head_stop p g x t Hg Hx) as Hh.
  destruct (re.many p (g ++ x :: t)) as [|r l]; [discriminate|]. injection Hh as ->.
  cbn [List.map List.head re.advance re.bol re.rest re.groups].
  change (y :: g ++ x :: t) with ((y :: g) ++ x :: t). by rewrite firstn_consumed.
Qed.

Lemma task_path_matched c b :
  c <> [] -> b <> [] ->
  Forall (fun x => re.word_dash x = true) c -> Forall (fun x => re.word_dash x = true) b ->
  exists m,
    re.match_ atcoder.re_task_path (lit "/contests/" ++ c ++ lit "/tasks/" ++ b) = Some m
    /\ m !! 1%nat = Some c /\ m !! 2%nat = Some b.
Proof.
  intros Hc Hb Hwc Hwb. eexists. split.
  - unfold re.match_, atcoder.re_task_path, re.start. cbn [re.seq].
    erewrite head_run_Seq; [reflexivity | reflexivity |].
    eapply head_run_Seq; [by rewrite run_Lit_app|].
    change (lit "/tasks/" ++ b) with (47 :: lit "tasks/" ++ b).
    eapply head_run_Seq; [by apply head_run_Group_Many1_stop|].
    change (47 :: lit "tasks/" ++ b) with (lit "/tasks/" ++ b).
    eapply head_run_Seq; [by rewrite run_Lit_app|].
    eapply head_run_Seq; [by apply head_run_Group_Many1 | reflexivity].
  - cbn [re.groups]. rewrite lookup_insert_ne by done. by rewrite !lookup_insert_eq.
Qed.

(** X21.  A problem of AtCoder has two addresses, the one under
    [atcoder.jp/contests/] (or [beta.atcoder.jp]) and the one on the host
    of the contest, which is the one [get_url] writes; for a contest and
    a name made of [[\w\-_]], [from_url] reads the same problem from
    each. *)
Theorem atcoder_problem_two_addresses c b :
  c <> [] -> b <> [] ->
  Forall (fun x => re.word_dash x = true) c -> Forall (fun x => re.word_dash x = true) b ->
  atcoder.Problem_from_url (lit "https://atcoder.jp/contests/" ++ c ++ lit "/tasks/" ++ b)
  = Ok (Some (atcoder.Problem_init c b))
  /\ atcoder.Problem_from_url
       (lit "https://beta.atcoder.jp/contests/" ++ c ++ lit "/tasks/" ++ b)
     = Ok (Some (atcoder.Problem_init c b))
  /\ atcoder.Problem_from_url (lit "http://" ++ c ++ lit ".contest.atcoder.jp/tasks/" ++ b)
     = Ok (Some (atcoder.Problem_init c b)).
Proof.
  intros Hc Hb Hwc Hwb.
  assert (Hsc : segment c) by (apply segment_without; [done | by apply word_dash_not..]).
  assert (Hsb : segment b) by (apply segment_without; [done | by apply word_dash_not..]).
  assert (Hsafe : url_safe (lit "contests" ++ 47 :: c ++ 47 :: lit "tasks" ++ 47 :: b)).
  { repeat split; intros [?|[?|[?|[?|[?|[?|?]]%in_app_or]]%in_app_or]]%in_app_or;
      try discriminate; try (by eapply not_In_literal; [|eassumption]);
      by eapply word_dash_not; [| |eassumption]. }
  assert (Hnorm : atcoder.normpath (47 :: lit "contests" ++ 47 :: c ++ 47 :: lit "tasks" ++ 47 :: b)
                  = lit "/contests/" ++ c ++ lit "/tasks/" ++ b).
  { change (47 :: lit "contests" ++ 47 :: c ++ 47 :: lit "tasks" ++ 47 :: b)
      with (47 :: join 47 [lit "contests"; c; lit "tasks"; b]).
    rewrite normpath_joined; [|done|].
    - reflexivity.
    - repeat constructor; try done; try apply Hsc; try apply Hsb;
        try (by apply not_In_literal); intros H; vm_compute in H; discriminate H. }
  destruct (task_path_matched c b Hc Hb Hwc Hwb) as (m & Hm & H1 & H2).
  assert (Hbeta : forall loc,
            loc = lit "atcoder.jp" \/ loc = lit "beta.atcoder.jp" ->
            atcoder.Problem_from_url
              (lit "https://" ++ loc ++ 47 :: lit "contests" ++ 47 :: c ++ 47 :: lit "tasks" ++ 47 :: b)
            = Ok (Some (atcoder.Problem_init c b))).
  { intros loc Hloc. unfold atcoder.Problem_from_url.
    rewrite urlparse_https; [| | done].
    2:{ destruct Hloc as [-> | ->]; (split; [vm_compute; repeat constructor | reflexivity]). }
    cbn [urllib_parse.path urllib_parse.netloc urllib_parse.scheme].
    rewrite Hnorm, Hm. destruct (posixpath.split _) as [dirname basename].
    assert (He : endswith loc atcoder.contest_suffix = false)
      by (destruct Hloc as [-> | ->]; reflexivity).
    assert (Hin : atcoder.py_in (atcoder.PStr loc) atcoder.atcoder_hosts = true)
      by (destruct Hloc as [-> | ->]; reflexivity).
    rewrite He, Hin, !andb_false_r. cbn [andb].
    change (atcoder.py_in (atcoder.PStr (lit "https")) atcoder.http_schemes) with true.
    cbn [andb]. unfold str in *. by rewrite H1, H2. }
  split; [|split].
  - replace (lit "https://atcoder.jp/contests/" ++ c ++ lit "/tasks/" ++ b)
      with (lit "https://" ++ lit "atcoder.jp" ++ 47 :: lit "contests" ++ 47 :: c
              ++ 47 :: lit "tasks" ++ 47 :: b).
    + apply Hbeta. by left.
    + reflexivity.
  - replace (lit "https://beta.atcoder.jp/contests/" ++ c ++ lit "/tasks/" ++ b)
      with (lit "https://" ++ lit "beta.atcoder.jp" ++ 47 :: lit "contests" ++ 47 :: c
              ++ 47 :: lit "tasks" ++ 47 :: b).
    + apply Hbeta. by right.
    + reflexivity.
  - apply (problem_url_recognized c b); try done.
    + by apply word_dash_not.
    + apply netloc_shaped_contest; by apply word_dash_not.
    + repeat split; by apply word_dash_not.
Qed.
End Recognizing.

(** ** Samples of Yukicoder: the edges *)

Section SampleEdges.
Import Spec.
Context {U : unicode} {E : environment} {L : library}.

Lemma skip_blank_all fuel n before up :
  Forall (fun x => yukicoder.blank_string x = true) (n :: before) ->
  (List.length before < fuel)%nat ->
  yukicoder.skip_blank fuel (Some (bs4.Loc n before up)) = None.
Proof.
  revert n before. induction fuel as [|fuel IH]; intros n before Hb Hf; [lia|].
  cbn [yukicoder.skip_blank bs4.here]. inversion Hb as [|? ? Hn Hrest]; subst.
  rewrite Hn. destruct before as [|p before]; cbn [bs4.previous_sibling].
  - by destruct fuel.
  - apply IH; [done|]. cbn in Hf. lia.
Qed.

Lemma skip_blank_from_all l :
  match l with
  | Some (bs4.Loc n before _) => Forall (fun x => yukicoder.blank_string x = true) (n :: before)
  | None => True
  end ->
  yukicoder.skip_blank_from l = None.
Proof.
  destruct l as [[n before up]|]; [|done]. intros H.
  unfold yukicoder.skip_blank_from, yukicoder.siblings_before.
  apply skip_blank_all; [done | lia].
Qed.

(** X27.  A [pre] tag with nothing before it in its parent but blank text
    makes [parse_sample_tag] raise [AttributeError]: the search for the
    heading runs off the start of the parent and arrives at [None], whose
    [name] is then asked for. *)
Theorem yukicoder_pre_without_heading n before up :
  bs4.has_name (lit "pre") n = true ->
  Forall (fun x => yukicoder.blank_string x = true) before ->
  yukicoder.parse_sample_tag (bs4.Loc n before up) = Raise AttributeError.
Proof.
  intros Hpre Hblank. unfold yukicoder.parse_sample_tag. cbn [bs4.here bs4.parent].
  rewrite Hpre. cbn [negb].
  assert (Hprv : yukicoder.skip_blank_from (bs4.previous_sibling (bs4.Loc n before up)) = None).
  { apply skip_blank_from_all. by destruct before. }
  rewrite Hprv. by destruct up.
Qed.

Lemma add_samples_raise pres z st e :
  parsed_blocks pres = Raise e -> fst (yukicoder.add_samples pres z st) = Raise e.
Proof.
  revert z st. induction pres as [|pre pres IH]; intros z st; [discriminate|].
  cbn [parsed_blocks yukicoder.add_samples]. unfold bind at 1, lift.
  destruct (yukicoder.parse_sample_tag pre) as [it|e']; [|by intros [= ->]].
  destruct (parsed_blocks pres) as [bs|e'] eqn:Hp; [discriminate|]. intros [= ->].
  destruct it as [[s name]|]; [|by apply IH].
  destruct (utils.add z s name) as [z' logs]. unfold bind at 1.
  destruct (emit_logs_Ok logs st) as (st1 & ->). by apply IH.
Qed.

(** X28.  [download_samples] gives all samples of a page or none: the first
    [pre] tag on which [parse_sample_tag] raises ends the call with that
    exception, whatever was paired before. *)
Theorem yukicoder_samples_all_or_nothing self session st target resp e :
  yukicoder.get_url self = Ok target ->
  http (download_asks target session st) (lit "GET") target [] true
       (session_jar session st) = Ok resp ->
  status_code resp = 200%Z ->
  parsed_blocks (bs4.find_all_located (BeautifulSoup (content resp)) (lit "pre")) = Raise e ->
  fst (yukicoder.download_samples self session st) = Raise e.
Proof.
  intros Hurl H H200 Hparse.
  unfold yukicoder.download_samples. unfold bind at 1, lift. rewrite Hurl.
  destruct (download_200 _ _ _ _ H H200) as (st1 & Hd).
  unfold bind at 1. rewrite Hd. unfold bind at 1.
  pose proof (add_samples_raise _ utils.SampleZipper_init st1 _ Hparse) as Hrun.
  destruct (yukicoder.add_samples _ _ st1) as [r st2]. cbn [fst] in Hrun. by subst r.
Qed.

Lemma session_request_trace s method target data redirects st :
  exists evs,
    trace (snd (session_request s method target data redirects st))
    = trace st ++ [EvRequest s method target data redirects] ++ evs.
Proof.
  unfold session_request. io_unfold. cbn [fst snd trace].
  destruct (http _ _ _ _ _ _) as [resp|e]; cbn [fst snd trace].
  - exists [EvResponse resp]. by rewrite <- app_assoc.
  - by exists [].
Qed.

Lemma bind_trace {A B} (m : IO A) (k : A -> IO B) st :
  (forall a, emits_only (fun _ => true) (k a)) ->
  exists evs, trace (snd (bind m k st)) = trace (snd (m st)) ++ evs.
Proof.
  intros Hk. unfold bind. destruct (m st) as [[a|e] st1]; cbn [snd].
  - destruct (Hk a st1) as (evs & Ht & _). by exists evs.
  - exists []. by rewrite app_nil_r.
Qed.

Lemma download_trace target session st :
  exists evs,
    trace (snd (utils.download target session st)) = download_asks target session st ++ evs.
Proof.
  assert (Hk : forall resp : response,
            emits_only (fun _ => true)
              (if negb (status_code resp =? 200)%Z
               then bind (lift (utils.describe_status_code (status_code resp)))
                      (fun d => bind (emit_log (logger Error "error" d []))
                                  (fun _ => raise (HTTPError [] None)))
               else bind (lift (utils.describe_status_code (status_code resp)))
                      (fun d => bind (emit_log (logger Info "success" d []))
                                  (fun _ => ret (content resp))))).
  { intros resp. destruct (negb _);
      (apply emits_only_bind; [by apply emits_only_lift|]; intros d;
       apply emits_only_bind; [by apply emits_only_emit|]; intros _);
      [by apply emits_only_raise | by apply emits_only_ret]. }
  unfold utils.download, download_asks, session_ref.
  unfold bind at 1, emit_log, emit. cbn beta iota.
  destruct session as [s|]; unfold bind at 1, ret, new_session; cbn beta iota.
  - match goal with
    | |- context [bind (session_request ?a ?b ?c ?d ?e) ?k ?st1] =>
        destruct (bind_trace (session_request a b c d e) k st1 Hk) as (evs' & ->);
        destruct (session_request_trace a b c d e st1) as (evs & ->)
    end.
    cbn [trace]. exists (evs ++ evs'). by rewrite <- !app_assoc.
  - match goal with
    | |- context [bind (session_request ?a ?b ?c ?d ?e) ?k ?st1] =>
        destruct (bind_trace (session_request a b c d e) k st1 Hk) as (evs' & ->);
        destruct (session_request_trace a b c d e st1) as (evs & ->)
    end.
    cbn [trace]. exists (evs ++ evs'). by rewrite <- !app_assoc.
Qed.

(** X29.  [download_all] writes the problem number into the address of the
    archive and never looks at the problem id: for a problem known by its
    id only, what it asks the server for is
    [.../problems/no/None/testcase.zip]. *)
Theorem yukicoder_archive_without_number self session st :
  yukicoder.problem_no self = None ->
  exists evs,
    trace (snd (yukicoder.download_all self session st))
    = download_asks (lit "http://yukicoder.me/problems/no/None/testcase.zip") session st
      ++ evs.
Proof.
  intros Hno. unfold yukicoder.download_all. rewrite Hno. cbn [yukicoder.str_of_opt_int].
  change (lit "http://yukicoder.me/problems/no/" ++ lit "None" ++ lit "/testcase.zip")
    with (lit "http://yukicoder.me/problems/no/None/testcase.zip").
  destruct (download_trace (lit "http://yukicoder.me/problems/no/None/testcase.zip")
              session st) as (evs & Ht).
  unfold bind at 1.
  destruct (utils.download _ session st) as [[c|e] st1]; cbn [snd] in Ht |- *.
  - exists evs. unfold bind, lift, ret. by destruct (ZipFile c).
  - by exists evs.
Qed.
End SampleEdges.

(** ** Entering a session *)

Section Entering.
Import Spec.
Context {U : unicode} {E : environment} {L : library}.

(** X17.  Entering [session(cookiejar)].  Without a cookie file nothing is
    loaded and the body starts on a fresh session with an empty jar.
    With a cookie file that cannot be loaded the exception of the load
    leaves the [with] statement: the body does not run and no file is
    written. *)
Theorem session_enter_edges {A} path (body : nat -> IO A) st :
  (path_exists (trace st ++ [EvPathExists path]) path = false ->
   utils.session_enter path st
   = (Ok (next_session st),
      {| trace := trace st ++ [EvPathExists path];
         sessions := <[next_session st := []]> (sessions st);
         next_session := S (next_session st) |}))
  /\ (forall e,
        path_exists (trace st ++ [EvPathExists path]) path = true ->
        cookie_load (trace st ++ [EvPathExists path;
                                  EvLog (logger Info "info" (lit "load cookie from: %s") [path]);
                                  EvCookieLoad path]) path = Raise e ->
        utils.session path body st
        = (Raise e,
           {| trace := trace st ++ [EvPathExists path;
                                    EvLog (logger Info "info" (lit "load cookie from: %s") [path]);
                                    EvCookieLoad path];
              sessions := <[next_session st := []]> (sessions st);
              next_session := S (next_session st) |})).
Proof.
  split.
  - intros Hno. unfold utils.session_enter. io_unfold. cbn [fst snd trace sessions next_session].
    by rewrite Hno.
  - intros e Hyes Hload. unfold utils.session, utils.session_enter. io_unfold.
    cbn [fst snd trace sessions next_session]. rewrite Hyes.
    cbn [fst snd trace sessions next_session]. rewrite <- !app_assoc. cbn [app].
    by rewrite Hload.
Qed.
End Entering.

(** ** What the recognizers of AtCoder raise *)

Section RecognizerErrors.
Import Spec.
Context {U : unicode}.

(** X20.  The recognizers of AtCoder raise nothing of their own: a URL that
    [urlparse] accepts gets an answer from each, and the only exception
    is the [ValueError] of [urlparse] for a network location with one
    square bracket and not the other, which each of them lets through. *)
Theorem atcoder_recognizers_raise_only_ValueError s :
  match urllib_parse.urlparse s with
  | Ok _ =>
      is_Ok (atcoder.Service_from_url s) = true
      /\ is_Ok (atcoder.Problem_from_url s) = true
      /\ forall pid, is_Ok (atcoder.Submission_from_url s pid) = true
  | Raise e =>
      e = ValueError
      /\ atcoder.Service_from_url s = Raise ValueError
      /\ atcoder.Problem_from_url s = Raise ValueError
      /\ forall pid, atcoder.Submission_from_url s pid = Raise ValueError
  end.
Proof.
  unfold atcoder.Service_from_url, atcoder.Problem_from_url, atcoder.Submission_from_url.
  destruct (urllib_parse.urlparse s) as [r|e] eqn:Hr.
  - split; [by destruct (_ && _)|].
    destruct (posixpath.split _) as [dirname basename]. split.
    + destruct (_ && _); [done|]. destruct (re.match_ _ _); [|done]. by destruct (_ && _).
    + intros pid. destruct (_ && _); [destruct (Py.int basename); [done|]|];
        (destruct (re.match_ _ _); [|done]; cbn [atcoder.py_eq]; by rewrite andb_false_r).
  - assert (He : e = ValueError).
    { unfold urllib_parse.urlparse in Hr.
      destruct (urllib_parse.urlsplit s) as [r|e'] eqn:Hs.
      - destruct (_ && _); [destruct (urllib_parse.splitparams _)|]; discriminate Hr.
      - injection Hr as ->. unfold urllib_parse.urlsplit in Hs.
        destruct (urllib_parse.split_scheme s) as [sch url1].
        destruct (if startswith url1 (lit "//") then _ else _) as [loc url2].
        destruct (_ || _); [by injection Hs|].
        destruct (urllib_parse.cut 35 url2) as [url3 frag].
        destruct (urllib_parse.cut 63 url3). discriminate Hs. }
    by subst e.
Qed.
End RecognizerErrors.

(** ** The statements on concrete runs *)

Lemma atcoder_login_prompts_once_witness :
  Spec.prompts_at_most 1
    (atcoder.login (U:=Fixtures.plain_unicode) (E:=Fixtures.atcoder_signing_in)
       (L:=Fixtures.plain_library) atcoder.TheAtCoderService None)
  /\ Spec.quiet
       (atcoder.is_logged_in (U:=Fixtures.plain_unicode) (E:=Fixtures.atcoder_signing_in)
          (L:=Fixtures.plain_library) atcoder.TheAtCoderService None).
Proof.
  exact (@atcoder_login_prompts_once Fixtures.plain_unicode Fixtures.atcoder_signing_in
           Fixtures.plain_library atcoder.TheAtCoderService None).
Defined.

Lemma atcoder_login_talks_to_login_page_witness :
  Spec.emits_only Spec.atcoder_login_traffic
    (atcoder.login (U:=Fixtures.plain_unicode) (E:=Fixtures.atcoder_signing_in)
       (L:=Fixtures.plain_library) atcoder.TheAtCoderService None)
  /\ Spec.emits_only Spec.atcoder_login_traffic
       (atcoder.is_logged_in (U:=Fixtures.plain_unicode) (E:=Fixtures.atcoder_signing_in)
          (L:=Fixtures.plain_library) atcoder.TheAtCoderService None).
Proof.
  exact (@atcoder_login_talks_to_login_page Fixtures.plain_unicode
           Fixtures.atcoder_signing_in Fixtures.plain_library atcoder.TheAtCoderService None).
Defined.

Lemma yukicoder_login_prompts_once_witness :
  Some (lit "twitter") <> Some (lit "github")
  /\ yukicoder.login (U:=Fixtures.plain_unicode) (E:=Fixtures.yukicoder_signing_in)
       (L:=Fixtures.github_library) Fixtures.problem_9 (Some 0%nat) (Some (lit "twitter"))
       Fixtures.st0
     = (Raise NotImplementedError, Fixtures.st0).
Proof.
  assert (H : Some (lit "twitter") <> Some (lit "github")) by (vm_compute; discriminate).
  split; [exact H|].
  exact (proj2 (@yukicoder_login_prompts_once Fixtures.plain_unicode
                  Fixtures.yukicoder_signing_in Fixtures.github_library
                  Fixtures.problem_9 (Some 0%nat) (Some (lit "twitter"))) H Fixtures.st0).
Defined.

Lemma atcoder_login_verdict_witness :
  exists resp,
    Spec.last_response (trace Fixtures.atcoder_signed_in) = Some resp
    /\ status_code resp = 200%Z
    /\ true = negb (contains (url resp) (lit "login")).
Proof.
  apply (@atcoder_login_verdict Fixtures.plain_unicode Fixtures.atcoder_signing_in
           Fixtures.plain_library atcoder.TheAtCoderService None Fixtures.st0 true
           Fixtures.atcoder_signed_in).
  vm_compute. reflexivity.
Defined.

Lemma yukicoder_login_verdict_witness :
  exists resp,
    Spec.last_response (trace Fixtures.yukicoder_signed_in) = Some resp
    /\ yukicoder.on_yukicoder (U:=Fixtures.plain_unicode) resp = Ok true.
Proof.
  apply (@yukicoder_login_verdict Fixtures.plain_unicode Fixtures.yukicoder_signing_in
           Fixtures.github_library Fixtures.problem_9 (Some 0%nat) Fixtures.st0 true
           Fixtures.yukicoder_signed_in).
  vm_compute. reflexivity.
Defined.

Lemma atcoder_login_posts_witness :
  Spec.last_posted (trace Fixtures.atcoder_signed_in) = Some []
  \/ exists u p tr,
       credentials (environment:=Fixtures.atcoder_signing_in) tr = Ok (u, p)
       /\ Spec.last_posted (trace Fixtures.atcoder_signed_in)
          = Some [(lit "name", u); (lit "password", p)].
Proof.
  apply (@atcoder_login_posts Fixtures.plain_unicode Fixtures.atcoder_signing_in
           Fixtures.plain_library atcoder.TheAtCoderService None Fixtures.st0 true
           Fixtures.atcoder_signed_in).
  vm_compute. reflexivity.
Defined.

Lemma yukicoder_login_posts_witness :
  Spec.last_posted (trace Fixtures.yukicoder_signed_in) = Some []
  \/ exists u p tr data,
       credentials (environment:=Fixtures.yukicoder_signing_in) tr = Ok (u, p)
       /\ Spec.last_posted (trace Fixtures.yukicoder_signed_in) = Some data
       /\ In (lit "login", u) data /\ In (lit "password", p) data
       /\ NoDup (List.map fst data).
Proof.
  apply (@yukicoder_login_posts Fixtures.plain_unicode Fixtures.yukicoder_signing_in
           Fixtures.github_library Fixtures.problem_9 (Some 0%nat) Fixtures.st0 true
           Fixtures.yukicoder_signed_in).
  vm_compute. reflexivity.
Defined.

Lemma atcoder_submit_posts_witness :
  exists s st1 tid st2 data,
    trace Fixtures.st0 `prefix_of` trace st1
    /\ (forall s0, @None nat = Some s0 -> s = s0)
    /\ @atcoder._get_task_id Fixtures.plain_unicode Fixtures.atcoder_accepting
         Fixtures.atcoder_library Fixtures.abc001_1 (Some s) st1 = (Ok tid, st2)
    /\ trace st2 `prefix_of` trace Fixtures.atcoder_accepted
    /\ Spec.last_posted (trace Fixtures.atcoder_accepted) = Some data
    /\ In (lit "task_id", str_of_int tid) data
    /\ In (lit "source_code", lit "int main(){}") data
    /\ In (lit "language_id_" ++ str_of_int tid, lit "3003") data
    /\ NoDup (List.map fst data)
    /\ (forall t, atcoder._task_id Fixtures.abc001_1 = Some t -> tid = t).
Proof.
  apply (@atcoder_submit_posts Fixtures.plain_unicode Fixtures.atcoder_accepting
           Fixtures.atcoder_library Fixtures.abc001_1 (lit "int main(){}") (lit "3003") None
           Fixtures.st0 (Spec.submissions_page Fixtures.abc001_1) Fixtures.atcoder_accepted).
  vm_compute. reflexivity.
Defined.

Lemma yukicoder_submit_posts_witness :
  (true = false /\ Spec.last_posted (trace Fixtures.yukicoder_accepted) = Some [])
  \/ exists l data,
       Some (lit "python3") = Some l
       /\ In l (yukicoder.get_languages Fixtures.problem_9)
       /\ Spec.last_posted (trace Fixtures.yukicoder_accepted) = Some data
       /\ In (lit "source", lit "print(1)") data /\ In (lit "lang", l) data
       /\ NoDup (List.map fst data).
Proof.
  apply (@yukicoder_submit_posts Fixtures.plain_unicode Fixtures.yukicoder_accepting
           Fixtures.yukicoder_library Fixtures.problem_9 (lit "print(1)")
           (Some (lit "python3")) (Some 0%nat) Fixtures.st0 true Fixtures.yukicoder_accepted).
  vm_compute. reflexivity.
Defined.


Lemma form_request_unlisted_status_witness :
  fst (utils.request (U:=Fixtures.plain_unicode) (E:=Fixtures.proxy_error_server)
         (L:=Fixtures.plain_library) (Fixtures.sender_of Fixtures.login_form) (Some 0%nat)
         Fixtures.st0)
  = Raise (KeyError (lit "520"))
  /\ Spec.last_response
       (trace (snd (utils.request (U:=Fixtures.plain_unicode) (E:=Fixtures.proxy_error_server)
                      (L:=Fixtures.plain_library) (Fixtures.sender_of Fixtures.login_form)
                      (Some 0%nat) Fixtures.st0)))
     = Some (Fixtures.page 520 "https://example.com/login")
  /\ Spec.last_posted
       (trace (snd (utils.request (U:=Fixtures.plain_unicode) (E:=Fixtures.proxy_error_server)
                      (L:=Fixtures.plain_library) (Fixtures.sender_of Fixtures.login_form)
                      (Some 0%nat) Fixtures.st0)))
     = Some (map_to_list (utils.payload (Fixtures.sender_of Fixtures.login_form))).
Proof.
  eapply (@form_request_unlisted_status Fixtures.plain_unicode Fixtures.proxy_error_server
            Fixtures.plain_library (Fixtures.sender_of Fixtures.login_form) 0%nat Fixtures.st0
            _ _ _ (lit "/login") (lit "post") (Fixtures.page 520 "https://example.com/login")
            eq_refl); reflexivity.
Defined.

Lemma form_set_then_request_witness :
  exists data,
    Spec.last_posted (trace Fixtures.login_form_sent) = Some data
    /\ In (lit "login", lit "user") data
    /\ (forall k' v', k' <> lit "login" ->
          (In (k', v') data
           <-> Spec.last_prefilled (bs4.find_all Fixtures.login_form (lit "input")) k' v'))
    /\ NoDup (List.map fst data).
Proof.
  apply (@form_set_then_request Fixtures.plain_unicode Fixtures.home_server
           Fixtures.plain_library Fixtures.login_form (lit "https://example.com/login")
           (lit "login") (lit "user") (Some 0%nat) Fixtures.st0 Fixtures.login_sender
           Fixtures.login_sender_made (Fixtures.page 200 "https://example.com/home")
           Fixtures.login_form_sent).
  - vm_compute. reflexivity.
  - vm_compute. reflexivity.
Defined.


Lemma atcoder_submit_not_logged_in_witness :
  exists st1,
    atcoder.get_language_dict (U:=Fixtures.plain_unicode) (E:=Fixtures.atcoder_asking_login)
      (L:=Fixtures.atcoder_library) Fixtures.abc001_1 None Fixtures.st0 = (Ok ∅, st1)
    /\ atcoder.submit_code (U:=Fixtures.plain_unicode) (E:=Fixtures.atcoder_asking_login)
         (L:=Fixtures.atcoder_library) Fixtures.abc001_1 (lit "int main(){}") (lit "3003")
         None Fixtures.st0
       = (Raise AssertionError, st1).
Proof.
  apply (@atcoder_submit_not_logged_in Fixtures.plain_unicode Fixtures.atcoder_asking_login
           Fixtures.atcoder_library Fixtures.abc001_1 (lit "int main(){}") (lit "3003") None
           Fixtures.st0
           (Fixtures.page 200 "https://practice.contest.atcoder.jp/login?next=submit") []);
    [reflexivity | reflexivity | reflexivity | right; reflexivity].
Defined.

Lemma atcoder_task_id_witness :
  atcoder._get_task_id (U:=Fixtures.plain_unicode) (E:=Fixtures.atcoder_task_server)
    (L:=Fixtures.atcoder_library)
    {| atcoder.contest_id := lit "abc001"; atcoder.problem_id := lit "abc001_1";
       atcoder._task_id := Some 1234%Z |} None Fixtures.st0
  = (Ok 1234%Z, Fixtures.st0)
  /\ fst (atcoder._get_task_id (U:=Fixtures.plain_unicode) (E:=Fixtures.atcoder_task_server)
            (L:=Fixtures.atcoder_library) Fixtures.abc001_1 None Fixtures.st0)
     = Ok 1234%Z
  /\ fst (atcoder._get_task_id (U:=Fixtures.plain_unicode) (E:=Fixtures.atcoder_task_server)
            (L:=Fixtures.long_link_library) Fixtures.abc001_1 None Fixtures.st0)
     = Raise AssertionError.
Proof.
  split; [|split].
  - apply (proj1 (@atcoder_task_id Fixtures.plain_unicode Fixtures.atcoder_task_server
                    Fixtures.atcoder_library
                    {| atcoder.contest_id := lit "abc001"; atcoder.problem_id := lit "abc001_1";
                       atcoder._task_id := Some 1234%Z |} None Fixtures.st0)).
    reflexivity.
  - apply (proj1 (proj2 (@atcoder_task_id Fixtures.plain_unicode Fixtures.atcoder_task_server
                           Fixtures.atcoder_library Fixtures.abc001_1 None Fixtures.st0)
                    (Fixtures.page 200 "http://abc001.contest.atcoder.jp/tasks/abc001_1")
                    Fixtures.submit_link (lit "/submit?task_id=1234")
                    eq_refl eq_refl eq_refl eq_refl eq_refl eq_refl) 1234%Z);
      [lia | vm_compute; lia | reflexivity].
  - apply (proj2 (proj2 (@atcoder_task_id Fixtures.plain_unicode Fixtures.atcoder_task_server
                           Fixtures.long_link_library Fixtures.abc001_1 None Fixtures.st0)
                    (Fixtures.page 200 "http://abc001.contest.atcoder.jp/tasks/abc001_1")
                    Fixtures.long_submit_link (lit "/submit?task_id=1234&lang=ja")
                    eq_refl eq_refl eq_refl eq_refl eq_refl eq_refl) (lit "1234&lang=ja"));
      [reflexivity|].
    right. exists 38. split; [|split]; [|reflexivity|discriminate].
    vm_compute. tauto.
Defined.

Lemma messages_from_message_cookies_witness :
  Spec.messages_of (L:=Fixtures.message_library) (U:=Fixtures.plain_unicode)
    Fixtures.mixed_cookies
  = Spec.messages_of (L:=Fixtures.message_library) (U:=Fixtures.plain_unicode)
      (Spec.message_cookies Fixtures.mixed_cookies)
  /\ (List.length [lit "You are logged in."]
      <= List.length (Spec.message_cookies Fixtures.mixed_cookies))%nat.
Proof.
  split.
  - apply (@messages_from_message_cookies Fixtures.plain_unicode Fixtures.message_library).
  - apply (proj2 (@messages_from_message_cookies Fixtures.plain_unicode Fixtures.message_library
                    Fixtures.mixed_cookies)).
    reflexivity.
Defined.

Lemma atcoder_recognized_by_service_witness :
  atcoder.Service_from_url (lit "http://agc012.contest.atcoder.jp/tasks/agc012_d")
  = Ok (Some atcoder.TheAtCoderService)
  /\ atcoder.Service_from_url (lit "http://agc001.contest.atcoder.jp/submissions/1246803")
     = Ok (Some atcoder.TheAtCoderService).
Proof.
  split.
  - apply (proj1 (@atcoder_recognized_by_service Fixtures.plain_unicode)
             (lit "http://agc012.contest.atcoder.jp/tasks/agc012_d")
             (atcoder.Problem_init (lit "agc012") (lit "agc012_d"))).
    reflexivity.
  - apply (proj2 (@atcoder_recognized_by_service Fixtures.plain_unicode)
             (lit "http://agc001.contest.atcoder.jp/submissions/1246803") None
             Fixtures.agc001_1246803).
    reflexivity.
Defined.

Lemma atcoder_needs_double_slash_witness :
  atcoder.Service_from_url (lit "atcoder.jp/contests/abc001/tasks/abc001_1") = Ok None
  /\ atcoder.Problem_from_url (U:=Fixtures.plain_unicode)
       (lit "atcoder.jp/contests/abc001/tasks/abc001_1") = Ok None
  /\ forall pid,
       atcoder.Submission_from_url (U:=Fixtures.plain_unicode)
         (lit "atcoder.jp/contests/abc001/tasks/abc001_1") pid = Ok None.
Proof.
  apply (@atcoder_needs_double_slash Fixtures.plain_unicode
           (lit "atcoder.jp/contests/abc001/tasks/abc001_1")).
  - reflexivity.
  - reflexivity.
Defined.

Lemma yukicoder_from_url_outcomes_witness :
  yukicoder.from_url (U:=Fixtures.plain_unicode) (lit "https://yukicoder.me/problems/no/9/")
  = Ok None
  \/ yukicoder.from_url (U:=Fixtures.plain_unicode) (lit "https://yukicoder.me/problems/no/9/")
     = Raise AssertionError
  \/ exists n, (0 < n)%Z
       /\ (yukicoder.from_url (U:=Fixtures.plain_unicode)
             (lit "https://yukicoder.me/problems/no/9/")
           = Ok (Some {| yukicoder.problem_no := Some n; yukicoder.problem_id := None |})
           \/ yukicoder.from_url (U:=Fixtures.plain_unicode)
                (lit "https://yukicoder.me/problems/no/9/")
              = Ok (Some {| yukicoder.problem_no := None; yukicoder.problem_id := Some n |})).
Proof.
  apply (@yukicoder_from_url_outcomes Fixtures.plain_unicode
           (lit "https://yukicoder.me/problems/no/9/")).
  vm_compute. lia.
Defined.

Lemma yukicoder_zero_is_an_error_witness :
  yukicoder.from_url (U:=Fixtures.plain_unicode) (lit "https://yukicoder.me/problems/no/000")
  = Raise AssertionError
  /\ yukicoder.from_url (U:=Fixtures.plain_unicode) (lit "https://yukicoder.me/problems/000")
     = Raise AssertionError.
Proof.
  apply (@yukicoder_zero_is_an_error Fixtures.plain_unicode (lit "000")).
  - discriminate.
  - repeat constructor.
Defined.

Lemma atcoder_problem_round_trip_witness :
  atcoder.Problem_from_url (U:=Fixtures.plain_unicode)
    (atcoder.Problem_get_url Fixtures.abc001_1) = Ok (Some Fixtures.abc001_1).
Proof.
  apply (@atcoder_problem_round_trip Fixtures.plain_unicode
           (lit "https://beta.atcoder.jp/contests/abc001/tasks/abc001_1") Fixtures.abc001_1).
  - reflexivity.
  - apply not_In_literal. reflexivity.
Defined.

Lemma atcoder_submission_round_trip_witness :
  atcoder.Submission_from_url (U:=Fixtures.plain_unicode)
    (atcoder.Submission_get_url Fixtures.agc001_1246803) (Some (lit "agc001_a"))
  = Ok (Some {| atcoder.sub_contest_id := lit "agc001"; atcoder.submission_id := 1246803;
                atcoder.sub_problem_id := Some (lit "agc001_a") |}).
Proof.
  apply (@atcoder_submission_round_trip Fixtures.plain_unicode
           (lit "http://agc001.contest.atcoder.jp/submissions/1246803/") None
           Fixtures.agc001_1246803 (Some (lit "agc001_a"))).
  reflexivity.
Defined.

Lemma yukicoder_round_trip_witness :
  exists u, yukicoder.get_url Fixtures.problem_9 = Ok u
            /\ yukicoder.from_url (U:=Fixtures.plain_unicode) u = Ok (Some Fixtures.problem_9).
Proof.
  apply (@yukicoder_round_trip Fixtures.plain_unicode
           (lit "http://yukicoder.me/problems/no/0009/") Fixtures.problem_9).
  reflexivity.
Defined.

Lemma atcoder_problem_two_addresses_witness :
  atcoder.Problem_from_url (U:=Fixtures.plain_unicode)
    (lit "https://atcoder.jp/contests/" ++ lit "abc073" ++ lit "/tasks/" ++ lit "abc073_a")
  = Ok (Some (atcoder.Problem_init (lit "abc073") (lit "abc073_a")))
  /\ atcoder.Problem_from_url (U:=Fixtures.plain_unicode)
       (lit "https://beta.atcoder.jp/contests/" ++ lit "abc073" ++ lit "/tasks/"
          ++ lit "abc073_a")
     = Ok (Some (atcoder.Problem_init (lit "abc073") (lit "abc073_a")))
  /\ atcoder.Problem_from_url (U:=Fixtures.plain_unicode)
       (lit "http://" ++ lit "abc073" ++ lit ".contest.atcoder.jp/tasks/" ++ lit "abc073_a")
     = Ok (Some (atcoder.Problem_init (lit "abc073") (lit "abc073_a"))).
Proof.
  apply (@atcoder_problem_two_addresses Fixtures.plain_unicode (lit "abc073") (lit "abc073_a")).
  - discriminate.
  - discriminate.
  - vm_compute. repeat constructor.
  - vm_compute. repeat constructor.
Defined.

Lemma yukicoder_pre_without_heading_witness :
  yukicoder.parse_sample_tag (U:=Fixtures.plain_unicode)
    (bs4.Loc (Fixtures.tag "pre" [] [Text (lit "3")]) [Text (lit " ")] None)
  = Raise AttributeError.
Proof.
  apply (@yukicoder_pre_without_heading Fixtures.plain_unicode).
  - reflexivity.
  - repeat constructor.
Defined.

Lemma yukicoder_samples_all_or_nothing_witness :
  fst (yukicoder.download_samples (U:=Fixtures.plain_unicode) (E:=Fixtures.page_server)
         (L:=Fixtures.headless_library) Fixtures.problem_9 None Fixtures.st0)
  = Raise AttributeError.
Proof.
  apply (@yukicoder_samples_all_or_nothing Fixtures.plain_unicode Fixtures.page_server
           Fixtures.headless_library Fixtures.problem_9 None Fixtures.st0
           (lit "https://yukicoder.me/problems/no/9")
           (Fixtures.page 200 "https://yukicoder.me/problems/no/9") AttributeError);
    reflexivity.
Defined.

Lemma yukicoder_archive_without_number_witness :
  exists evs,
    trace (snd (yukicoder.download_all (E:=Fixtures.archive_server)
                  (L:=Fixtures.archive_library) Fixtures.problem_id_9 None Fixtures.st0))
    = Spec.download_asks (lit "http://yukicoder.me/problems/no/None/testcase.zip") None
        Fixtures.st0 ++ evs.
Proof.
  apply (@yukicoder_archive_without_number Fixtures.archive_server Fixtures.archive_library
           Fixtures.problem_id_9 None Fixtures.st0).
  reflexivity.
Defined.

Lemma session_enter_edges_witness :
  utils.session_enter (E:=Fixtures.cookie_server) (lit "cache/cookie.jar") Fixtures.st0
  = (Ok 0%nat,
     {| trace := [EvPathExists (lit "cache/cookie.jar")];
        sessions := <[0%nat := []]> ∅; next_session := 1 |})
  /\ fst (utils.session (E:=Fixtures.unreadable_cookie_file) (L:=Fixtures.plain_library)
            (lit "cache/cookie.jar") (Fixtures.visiting_body (E:=Fixtures.unreadable_cookie_file))
            Fixtures.st0)
     = Raise (EnvironmentError (lit "LoadError")).
Proof.
  split.
  - apply (proj1 (@session_enter_edges Fixtures.cookie_server Fixtures.plain_library unit
                    (lit "cache/cookie.jar") (Fixtures.visiting_body (E:=Fixtures.cookie_server))
                    Fixtures.st0)).
    reflexivity.
  - rewrite (proj2 (@session_enter_edges Fixtures.unreadable_cookie_file Fixtures.plain_library
                      unit (lit "cache/cookie.jar")
                      (Fixtures.visiting_body (E:=Fixtures.unreadable_cookie_file))
                      Fixtures.st0)
               (EnvironmentError (lit "LoadError")) eq_refl eq_refl).
    reflexivity.
Defined.
